(** * The fine-tuning loop of finetuning_scripts/finetune_tabpfn_main.py

    A shallow embedding of [fine_tune_tabpfn], [_fine_tune_step],
    [_setup_tuning] and [_tore_down_tuning].  Python floats are IEEE
    binary64 values ([spec_float] with the operations of
    [Floats.SpecFloat]), Python ints are [Z], [FineTuneStepResults]
    objects live in a store and the ledger [step_results_over_time] is a
    list of references into it.  Calls that leave the file (the model,
    the optimizer and scaler, validation, the clock, the data loader)
    are answered by a [World] of observations indexed by the step. *)

From Stdlib Require Import ZArith List Bool String Lia.
From Stdlib Require Import Floats.SpecFloat.
From stdpp Require Import base option list.

Open Scope Z_scope.

(** ** Python floats *)

Module PyFloat.

Definition float : Type := spec_float.

Definition prec : Z := 53.
Definition emax : Z := 1024.

Definition sub : float -> float -> float := SFsub prec emax.
Definition mul : float -> float -> float := SFmul prec emax.
Definition ltb : float -> float -> bool := SFltb.
Definition leb : float -> float -> bool := SFleb.

(** [a > b] is [b < a]; with a NaN on either side it is [False]. *)
Definition gtb (a b : float) : bool := SFltb b a.

Definition zero : float := S754_zero false.

Definition is_zero (f : float) : bool :=
  match f with S754_zero _ => true | _ => false end.

(** The literal [1.1]: 0x3FF199999999999A. *)
Definition c1_1 : float := S754_finite false 4953959590107546 (-52).


(** [float(z)] as the interpreter converts an int operand of a mixed
    operation: rounded to nearest even, [None] (OverflowError) when the
    int is too large for a double. *)
Definition of_int (z : Z) : option float :=
  match binary_normalize prec emax z 0 false with
  | S754_infinity _ => None
  | f => Some f
  end.

(** [tensor.item()]: the value of a 0-dim float tensor as a Python
    float.  Every torch float type embeds in binary64, so the
    conversion only renormalises the representation. *)
Definition item (x : spec_float) : float :=
  match x with
  | S754_finite s m e => binary_normalize prec emax (cond_Zopp s (Zpos m)) e false
  | _ => x
  end.

End PyFloat.

Abbreviation float := PyFloat.float.

(** A field that holds an int on some paths and a float on others
    ([time_left], [grad_norm_before_clip], [device_utilization]). *)
Inductive pynum : Type :=
| PyInt (z : Z)
| PyFlt (f : float).

(** ** Exceptions and outcomes *)

Inductive exn : Type :=
| ValueError (msg : string)
| ZeroDivisionError
| OverflowError
| IndexError
| TypeError.

Inductive outcome (A : Type) : Type :=
| Return (a : A)
| Raise (e : exn).
Arguments Return {A} a.
Arguments Raise {A} e.

(** [a % b] and [a // b] on ints: floor division, the remainder has the
    sign of the divisor, and a zero divisor raises. *)
Definition py_mod (a b : Z) : outcome Z :=
  if b =? 0 then Raise ZeroDivisionError else Return (a mod b).

Definition py_floordiv (a b : Z) : outcome Z :=
  if b =? 0 then Raise ZeroDivisionError else Return (a / b).

(** [x / n] with a float [x] and an int [n]. *)
Definition py_truediv_int (x : float) (n : Z) : outcome float :=
  match PyFloat.of_int n with
  | None => Raise OverflowError
  | Some d =>
      if PyFloat.is_zero d then Raise ZeroDivisionError
      else Return (SFdiv PyFloat.prec PyFloat.emax x d)
  end.

(** [x * n] with a float [x] and an int [n]. *)
Definition py_mul_int (x : float) (n : Z) : outcome float :=
  match PyFloat.of_int n with
  | None => Raise OverflowError
  | Some d => Return (PyFloat.mul x d)
  end.

(** [n - x] with an int [n] and a float [x]. *)
Definition py_int_sub (n : Z) (x : float) : outcome float :=
  match PyFloat.of_int n with
  | None => Raise OverflowError
  | Some d => Return (PyFloat.sub d x)
  end.

(** ** Step records: [data_classes.FineTuneStepResults]

    The dataclass itself is not part of this file.  Its fields are the
    keywords of the two constructor calls and of [register_meta_state];
    the six fields that [_fine_tune_step] leaves out are unset ([None])
    until [register_meta_state] fills them. *)

Module StepResults.

Record t : Type := mk {
  training_loss : float;
  device_utilization : pynum;
  step_with_update : bool;
  optimizer_step_skipped : bool;
  grad_norm_before_clip : pynum;
  step_index : option Z;
  validation_loss : option float;
  best_validation_loss : option float;
  best_validation_score : option float;
  patience_left : option Z;
  time_left : option pynum
}.

(** [self.<meta> = <value>] for the six keywords, [return self]. *)
Definition register_meta_state (step_index : Z) (validation_loss : option float)
    (best_validation_loss best_validation_score : float)
    (patience_left : Z) (time_left : pynum) (r : t) : t :=
  mk (training_loss r) (device_utilization r) (step_with_update r)
     (optimizer_step_skipped r) (grad_norm_before_clip r)
     (Some step_index) validation_loss (Some best_validation_loss)
     (Some best_validation_score) (Some patience_left) (Some time_left).

(** [self.training_loss = v] *)
Definition set_training_loss (v : float) (r : t) : t :=
  mk v (device_utilization r) (step_with_update r)
     (optimizer_step_skipped r) (grad_norm_before_clip r)
     (step_index r) (validation_loss r) (best_validation_loss r)
     (best_validation_score r) (patience_left r) (time_left r).

End StepResults.

(** ** Configuration: [_setup_tuning]

    [finetuning_config] is the dict that is splatted into
    [_setup_tuning]: a key that is missing takes the keyword default.
    [learning_rate], [batch_size] and [data_loader_workers] only reach the
    optimizer and the data loader. *)

Record finetuning_config : Type := {
  cfg_update_every_n_steps : option Z;
  cfg_validate_every_n_steps : option Z;
  cfg_max_steps : option Z;
  cfg_adaptive_rate : option float;
  cfg_adaptive_offset : option Z;
  cfg_min_patience : option Z;
  cfg_max_patience : option Z
}.

(** The literal [0.2]: 0x3FC999999999999A. *)
Definition c0_2 : float := S754_finite false 7205759403792794 (-55).

Inductive SupportedDevice : Type := CPU | GPU.

Definition is_gpu (d : SupportedDevice) : bool :=
  match d with GPU => true | CPU => false end.

(** What the loop asks of a caller-supplied [model_for_validation]:
    whether it carries the attribute [executor_] (it has been fitted). *)
Record ModelForValidation : Type := {
  has_executor_ : bool
}.

(** ** Collaborators that live outside the file

    [AdaptiveES] (training_utils.ag_early_stopping) is used through its
    constructor and its two methods; [convert_error_to_score] belongs to
    the metric; [tensor_div] is the torch operation behind
    [loss / gradient_accumulation_steps], which raises when the int
    cannot become a scalar. *)

Class Externals : Type := {
  Batch : Type;
  AdaptiveES : Type;
  AdaptiveES_new : float -> Z -> Z -> Z -> AdaptiveES;
  AdaptiveES_update : AdaptiveES -> Z -> bool -> AdaptiveES * bool;
  AdaptiveES_remaining_patience : AdaptiveES -> Z -> Z;
  convert_error_to_score : float -> float;
  tensor_div : spec_float -> Z -> outcome spec_float
}.

(** Calls made on the model, the optimizer, the scaler, the validation
    function, the early stopper and the checkpoint file, in program
    order.  [OptimizerStep] carries the content of the gradient buffers
    at that moment: the steps whose backward passes were accumulated
    since the last [zero_grad], each with the loss that was
    back-propagated.  [TorchSave] carries the value of
    [best_validation_loss] when the file was written. *)
Inductive Event : Type :=
| Backward (step_i : Z) (loss : spec_float)
| OptimizerStep (step_i : Z) (accumulated : list (Z * spec_float)) (skipped : bool)
| Validate (step_i : Z) (loss : float)
| EsUpdate (step_i cur_round : Z) (is_best : bool)
| RemainingPatience (step_i cur_round : Z)
| TorchSave (step_i : Z) (loss : float)
| LogSkipped (step_i : Z).

Definition loc : Type := nat.

Section Orchestrator.

Context `{X : Externals}.

Record FineTuneSetup : Type := {
  max_steps : Z;
  adaptive_es_setup : AdaptiveES;
  update_every_n_steps : Z;
  validate_every_n_steps : Z
}.

Definition _setup_tuning (c : finetuning_config) : FineTuneSetup :=
  {| max_steps := default 10000 (cfg_max_steps c);
     adaptive_es_setup :=
       AdaptiveES_new (default c0_2 (cfg_adaptive_rate c))
                      (default 5 (cfg_adaptive_offset c))
                      (default 20 (cfg_min_patience c))
                      (default 100 (cfg_max_patience c));
     update_every_n_steps := default 1 (cfg_update_every_n_steps c);
     validate_every_n_steps := default 1 (cfg_validate_every_n_steps c) |}.

(** What one run observes of its environment. *)
Record World : Type := {
  (** [time.time()] on entry *)
  st_time : float;
  (** [time.time()] at the time check of step [i] *)
  clock : Z -> float;
  (** the batches the data loader yields, in order *)
  data_loader : list Batch;
  (** [compute_loss(...)] on the forward pass of step [i] *)
  batch_loss : Z -> Batch -> spec_float;
  (** [clip_grad_norm_(...).item()] at step [i] *)
  clip_grad_norm : Z -> float;
  (** [scaler.get_scale()] before and after [scaler.step; scaler.update] *)
  org_scale : Z -> float;
  new_scale : Z -> float;
  (** [validate_tabpfn_fn(model=model)] before the loop and at step [i] *)
  initial_validation_loss : float;
  validation_loss_at : Z -> float;
  (** [torch.cuda.utilization(device)] at step [i] *)
  cuda_utilization : Z -> Z
}.

(** The mutable state the loop owns. *)
Record Loop : Type := mkLoop {
  heap : list StepResults.t;
  step_results_over_time : list loc;
  best_validation_loss : float;
  early_stop_no_imp : bool;
  early_stop_no_time : bool;
  skipped_steps : Z;
  adaptive_es : AdaptiveES;
  grad : list (Z * spec_float);
  checkpoint : option Z;
  trace : list Event
}.

(** Assignment to one component of the state. *)
Definition set_heap (v : list StepResults.t) (s : Loop) : Loop :=
  mkLoop v (step_results_over_time s) (best_validation_loss s) (early_stop_no_imp s) (early_stop_no_time s) (skipped_steps s) (adaptive_es s) (grad s) (checkpoint s) (trace s).

Definition set_step_results_over_time (v : list loc) (s : Loop) : Loop :=
  mkLoop (heap s) v (best_validation_loss s) (early_stop_no_imp s) (early_stop_no_time s) (skipped_steps s) (adaptive_es s) (grad s) (checkpoint s) (trace s).

Definition set_best_validation_loss (v : float) (s : Loop) : Loop :=
  mkLoop (heap s) (step_results_over_time s) v (early_stop_no_imp s) (early_stop_no_time s) (skipped_steps s) (adaptive_es s) (grad s) (checkpoint s) (trace s).

Definition set_early_stop_no_imp (v : bool) (s : Loop) : Loop :=
  mkLoop (heap s) (step_results_over_time s) (best_validation_loss s) v (early_stop_no_time s) (skipped_steps s) (adaptive_es s) (grad s) (checkpoint s) (trace s).

Definition set_early_stop_no_time (v : bool) (s : Loop) : Loop :=
  mkLoop (heap s) (step_results_over_time s) (best_validation_loss s) (early_stop_no_imp s) v (skipped_steps s) (adaptive_es s) (grad s) (checkpoint s) (trace s).

Definition set_skipped_steps (v : Z) (s : Loop) : Loop :=
  mkLoop (heap s) (step_results_over_time s) (best_validation_loss s) (early_stop_no_imp s) (early_stop_no_time s) v (adaptive_es s) (grad s) (checkpoint s) (trace s).

Definition set_adaptive_es (v : AdaptiveES) (s : Loop) : Loop :=
  mkLoop (heap s) (step_results_over_time s) (best_validation_loss s) (early_stop_no_imp s) (early_stop_no_time s) (skipped_steps s) v (grad s) (checkpoint s) (trace s).

Definition set_grad (v : list (Z * spec_float)) (s : Loop) : Loop :=
  mkLoop (heap s) (step_results_over_time s) (best_validation_loss s) (early_stop_no_imp s) (early_stop_no_time s) (skipped_steps s) (adaptive_es s) v (checkpoint s) (trace s).

Definition set_checkpoint (v : option Z) (s : Loop) : Loop :=
  mkLoop (heap s) (step_results_over_time s) (best_validation_loss s) (early_stop_no_imp s) (early_stop_no_time s) (skipped_steps s) (adaptive_es s) (grad s) v (trace s).

Definition set_trace (v : list Event) (s : Loop) : Loop :=
  mkLoop (heap s) (step_results_over_time s) (best_validation_loss s) (early_stop_no_imp s) (early_stop_no_time s) (skipped_steps s) (adaptive_es s) (grad s) (checkpoint s) v.

(** ** Computations on the state that may raise *)

Definition M (A : Type) : Type := Loop -> outcome A * Loop.

Definition ret {A : Type} (a : A) : M A := fun s => (Return a, s).

Definition bind {A B : Type} (m : M A) (k : A -> M B) : M B :=
  fun s =>
    match m s with
    | (Return a, s') => k a s'
    | (Raise e, s') => (Raise e, s')
    end.

Definition lift {A : Type} (o : outcome A) : M A := fun s => (o, s).

Definition gets {A : Type} (f : Loop -> A) : M A := fun s => (Return (f s), s).

Definition modify (f : Loop -> Loop) : M unit := fun s => (Return tt, f s).

Definition emit (e : Event) : M unit :=
  modify (fun s => set_trace (trace s ++ [e]) s).

End Orchestrator.

Notation "'let*' x ':=' m 'in' k" := (bind m (fun x => k))
  (at level 10, x pattern, m at level 100, k at level 200).

Section Loop.

Context `{X : Externals}.

(** The arguments of [fine_tune_tabpfn] that the control flow reads. *)
Record Args : Type := {
  time_limit : Z;
  config : finetuning_config;
  device : SupportedDevice;
  use_sklearn_interface_for_validation : bool;
  model_for_validation : option ModelForValidation
}.

(** A reference handed out by a constructor is never dangling; reading
    through it takes the object from the store. *)
Definition blank : StepResults.t :=
  StepResults.mk PyFloat.zero (PyFlt PyFloat.zero) false false (PyInt (-1))
                 None None None None None None.

Definition deref (s : Loop) (l : loc) : StepResults.t :=
  nth l (heap s) blank.

(** [FineTuneStepResults(...)]: a new object, its reference returned. *)
Definition new_step_results (r : StepResults.t) : M loc :=
  fun s => (Return (length (heap s)), set_heap (heap s ++ [r]) s).

(** [scaler.scale(loss).backward()]: the gradients of this step's loss
    are added to the buffers. *)
Definition backward (step_i : Z) (loss : spec_float) : M unit :=
  let* _ := emit (Backward step_i loss) in
  modify (fun s => set_grad (grad s ++ [(step_i, loss)]) s).

(** [scaler.step(optimizer); scaler.update()] on what the buffers hold. *)
Definition scaler_step (step_i : Z) (skipped : bool) : M unit :=
  let* g := gets grad in
  emit (OptimizerStep step_i g skipped).

Definition zero_grad : M unit := modify (set_grad []).

Definition _fine_tune_step (w : World) (device : SupportedDevice)
    (step_i : Z) (batch : Batch) (step_with_update : bool)
    (gradient_accumulation_steps : option Z) : M loc :=
  let loss := batch_loss w step_i batch in
  let* loss :=
    match gradient_accumulation_steps with
    | Some n => lift (tensor_div loss n)
    | None => ret loss
    end in
  let* _ := backward step_i loss in
  let* (optimizer_step_skipped, grad_norm) :=
    if step_with_update then
      let grad_norm := clip_grad_norm w step_i in
      let optimizer_step_skipped :=
        PyFloat.gtb (org_scale w step_i) (new_scale w step_i) in
      let* _ := scaler_step step_i optimizer_step_skipped in
      let* _ := zero_grad in
      ret (optimizer_step_skipped, PyFlt grad_norm)
    else ret (false, PyInt (-1)) in
  let* training_loss :=
    match gradient_accumulation_steps with
    | None => ret (PyFloat.item loss)
    | Some n => lift (py_mul_int (PyFloat.item loss) n)
    end in
  new_step_results
    (StepResults.mk training_loss
       (if is_gpu device then PyInt (cuda_utilization w step_i)
        else PyFlt PyFloat.zero)
       step_with_update optimizer_step_skipped grad_norm
       None None None None None None).

(** [step_results_over_time[-1]] and [step_results_over_time[0]]. *)
Definition ledger_last : M loc :=
  fun s =>
    match last (step_results_over_time s) with
    | Some l => (Return l, s)
    | None => (Raise IndexError, s)
    end.

Definition ledger_first : M loc :=
  fun s =>
    match step_results_over_time s !! 0%nat with
    | Some l => (Return l, s)
    | None => (Raise IndexError, s)
    end.

(** [adaptive_es.update(cur_round=..., is_best=...)] *)
Definition es_update (step_i cur_round : Z) (is_best : bool) : M bool :=
  let* _ := emit (EsUpdate step_i cur_round is_best) in
  fun s =>
    let '(es, stop) := AdaptiveES_update (adaptive_es s) cur_round is_best in
    (Return stop, set_adaptive_es es s).

(** [adaptive_es.remaining_patience(cur_round=...)] *)
Definition es_remaining_patience (step_i cur_round : Z) : M Z :=
  let* _ := emit (RemainingPatience step_i cur_round) in
  gets (fun s => AdaptiveES_remaining_patience (adaptive_es s) cur_round).

(** [torch.save(dict(state_dict=..., config=...), path)]: the file now
    holds the model as it is after step [step_i]. *)
Definition torch_save (step_i : Z) : M unit :=
  let* best := gets best_validation_loss in
  let* _ := emit (TorchSave step_i best) in
  modify (set_checkpoint (Some step_i)).

(** Lines 343-344: [update_now] and [validate_now]. *)
Definition cadence (fts : FineTuneSetup) (step_i : Z) : outcome (bool * bool) :=
  match py_mod (step_i + 1) (update_every_n_steps fts) with
  | Raise e => Raise e
  | Return m =>
      let update_now := m =? 0 in
      match py_mod (step_i + 1) (validate_every_n_steps fts) with
      | Raise e => Raise e
      | Return m' => Return (update_now, m' =? 0)
      end
  end.

(** Lines 364-367: a skipped optimizer step cancels this step's
    validation and is counted. *)
Definition handle_skip (step_i : Z) (step_results : loc) (validate_now : bool)
  : M bool :=
  let* skipped :=
    gets (fun s => StepResults.optimizer_step_skipped (deref s step_results)) in
  if skipped then
    let* _ := emit (LogSkipped step_i) in
    let* _ := modify (fun s => set_skipped_steps (skipped_steps s + 1) s) in
    ret false
  else ret validate_now.

(** The round number handed to the early stopper. *)
Definition cur_round (fts : FineTuneSetup) (step_i : Z) : M Z :=
  let* k := gets skipped_steps in
  lift (py_floordiv (step_i - k) (update_every_n_steps fts)).

(** Lines 370-389: validate, consult the early stopper, save on a
    new best. *)
Definition validate_and_save (w : World) (fts : FineTuneSetup) (step_i : Z)
  : M (option float) :=
  let validation_loss := validation_loss_at w step_i in
  let* _ := emit (Validate step_i validation_loss) in
  let* best := gets best_validation_loss in
  let is_best := PyFloat.ltb validation_loss best in
  let* r := cur_round fts step_i in
  let* stop := es_update step_i r is_best in
  let* _ := modify (set_early_stop_no_imp stop) in
  let* _ :=
    if is_best then
      let* _ := modify (set_best_validation_loss validation_loss) in
      torch_save step_i
    else ret tt in
  ret (Some validation_loss).

(** Lines 390-392: no validation on this step. *)
Definition carry_forward : M (option float) :=
  let* prev := ledger_last in
  let* v := gets (fun s => StepResults.validation_loss (deref s prev)) in
  let* _ := modify (set_early_stop_no_imp false) in
  ret v.

(** Lines 394-398: [time_left] and [early_stop_no_time]; [or] does not
    evaluate its right operand when the left one holds. *)
Definition time_check (w : World) (a : Args) (step_i : Z)
  : outcome (float * bool) :=
  let time_spent := PyFloat.sub (clock w step_i) (st_time w) in
  match py_int_sub (time_limit a) time_spent with
  | Raise e => Raise e
  | Return time_left =>
      if PyFloat.leb time_left PyFloat.zero then Return (time_left, true)
      else
        match py_truediv_int time_spent step_i with
        | Raise e => Raise e
        | Return avg =>
            Return (time_left,
                    PyFloat.leb time_left (PyFloat.mul avg PyFloat.c1_1))
        end
  end.

(** Lines 400-426: complete the record, append it, and on step 1 copy
    its training loss into the index-0 record. *)
Definition track_progress (fts : FineTuneSetup) (step_i : Z)
    (step_results : loc) (validation_loss : option float) (time_left : float)
  : M unit :=
  let* best := gets best_validation_loss in
  let* r := cur_round fts step_i in
  let* patience := es_remaining_patience step_i r in
  let* _ :=
    modify (fun s =>
      set_heap
        (alter (StepResults.register_meta_state step_i validation_loss best
                  (convert_error_to_score best) patience (PyFlt time_left))
               step_results (heap s)) s) in
  let* _ :=
    modify (fun s =>
      set_step_results_over_time (step_results_over_time s ++ [step_results]) s) in
  if step_i =? 1 then
    let* first := ledger_first in
    modify (fun s =>
      set_heap
        (alter (StepResults.set_training_loss
                  (StepResults.training_loss (deref s step_results)))
               first (heap s)) s)
  else ret tt.

(** One pass through the body of [for step_i, batch_data in ...]; the
    result is [true] when the pass ends in [break]. *)
Definition loop_body (w : World) (a : Args) (fts : FineTuneSetup)
    (gradient_accumulation_steps : option Z)
    (step_i : Z) (batch_data : Batch) : M bool :=
  let* (update_now, validate_now) := lift (cadence fts step_i) in
  let* step_results :=
    _fine_tune_step w (device a) step_i batch_data update_now
                    gradient_accumulation_steps in
  let* validate_now := handle_skip step_i step_results validate_now in
  let* validation_loss :=
    if validate_now then validate_and_save w fts step_i
    else carry_forward in
  let* (time_left, no_time) := lift (time_check w a step_i) in
  let* _ := modify (set_early_stop_no_time no_time) in
  let* _ := track_progress fts step_i step_results validation_loss time_left in
  let* no_imp := gets early_stop_no_imp in
  ret (no_imp || no_time).

(** [for step_i, batch_data in enumerate(data_loader, start=...)] *)
Fixpoint for_loop (w : World) (a : Args) (fts : FineTuneSetup)
    (gradient_accumulation_steps : option Z)
    (step_i : Z) (batches : list Batch) : M unit :=
  match batches with
  | [] => ret tt
  | batch_data :: rest =>
      let* stop :=
        loop_body w a fts gradient_accumulation_steps step_i batch_data in
      if stop then ret tt
      else for_loop w a fts gradient_accumulation_steps (step_i + 1) rest
  end.

(** ** Teardown: [_tore_down_tuning] *)

(** [np.argmin] on floats: the index of the first minimum; a NaN, once
    met, is the minimum.  An empty sequence is a ValueError. *)
Fixpoint argmin_from (mp : float) (best i : nat) (l : list float) : nat :=
  match l with
  | [] => best
  | x :: l' =>
      if SFleb mp x then argmin_from mp best (S i) l'
      else
        match x with
        | S754_nan => i
        | _ => argmin_from x i (S i) l'
        end
  end.

Definition np_argmin (l : list float) : outcome nat :=
  match l with
  | [] => Raise (ValueError "attempt to get argmin of an empty sequence")
  | S754_nan :: _ => Return 0%nat
  | x :: l' => Return (argmin_from x 0%nat 1%nat l')
  end.

(** A list of floats out of a list comprehension over the ledger: a
    field that is still [None] cannot be compared. *)
Fixpoint floats (l : list (option float)) : outcome (list float) :=
  match l with
  | [] => Return []
  | None :: _ => Raise TypeError
  | Some x :: l' =>
      match floats l' with
      | Return xs => Return (x :: xs)
      | Raise e => Raise e
      end
  end.

(** [np.argmin] of that list comprehension.  A single element is the
    minimum without being compared with anything, also when it is
    [None]; among several, a [None] is compared and that is a
    TypeError. *)
Definition np_argmin_list (l : list (option float)) : outcome nat :=
  match l with
  | [_] => Return 0%nat
  | _ =>
      match floats l with
      | Raise e => Raise e
      | Return vs => np_argmin vs
      end
  end.

(** The figures of the final report that come from the ledger and the
    two flags; elapsed time and mean utilization are only formatted
    into the log line. *)
Record Report : Type := {
  es_reason : option string;
  best_step : nat;
  report_initial_validation_loss : option float;
  report_best_validation_loss : option float;
  total_steps : nat
}.

Definition _tore_down_tuning (early_stop_no_imp early_stop_no_time : bool)
    (step_results_over_time : list StepResults.t) : outcome Report :=
  let es_reason := None in
  let es_reason :=
    if early_stop_no_imp
    then Some "Early stopping due to no improvement (AdaptiveES)."%string
    else es_reason in
  let es_reason :=
    if early_stop_no_time
    then Some "Early stopping due no time."%string
    else es_reason in
  match np_argmin_list (StepResults.validation_loss <$> step_results_over_time) with
  | Raise e => Raise e
  | Return best_step =>
      match step_results_over_time !! 0%nat, last step_results_over_time with
      | Some r0, Some rl =>
          Return {| es_reason := es_reason;
                    best_step := best_step;
                    report_initial_validation_loss :=
                      StepResults.validation_loss r0;
                    report_best_validation_loss :=
                      StepResults.best_validation_loss rl;
                    total_steps := length step_results_over_time |}
      | _, _ => Raise IndexError
      end
  end.

(** ** The entry point: [fine_tune_tabpfn] *)

(** Lines 252-259: a fitted [model_for_validation] is refused when the
    sklearn interface is used for validation. *)
Definition check_model_for_validation (a : Args) : outcome unit :=
  if use_sklearn_interface_for_validation a then
    match model_for_validation a with
    | Some m =>
        if has_executor_ m
        then Raise (ValueError "model_for_validation must NOT be fitted")
        else Return tt
    | None => Return tt
    end
  else Return tt.

(** The state before the first tracked statement: nothing allocated,
    nothing validated, nothing written.  [best_validation_loss] is
    not bound yet; the slot holds a NaN that is never read. *)
Definition boot (fts : FineTuneSetup) : Loop :=
  mkLoop [] [] S754_nan false false 0 (adaptive_es_setup fts) [] None [].

(** The records of the ledger, read through the store. *)
Definition ledger (s : Loop) : list StepResults.t :=
  deref s <$> step_results_over_time s.

(** Baseline validation, the index-0 record and the first save. *)
Definition setup (w : World) (a : Args) : M unit :=
  let* _ := lift (check_model_for_validation a) in
  let best_validation_loss := initial_validation_loss w in
  let* _ := emit (Validate 0 best_validation_loss) in
  let* _ := modify (set_best_validation_loss best_validation_loss) in
  let* _ := es_update 0 0 true in
  let* _ := modify (set_step_results_over_time []) in
  let* patience := es_remaining_patience 0 0 in
  let* r :=
    new_step_results
      (StepResults.mk PyFloat.zero
         (if is_gpu (device a) then PyInt (cuda_utilization w 0)
          else PyFlt PyFloat.zero)
         false false (PyInt (-1))
         (Some 0) (Some best_validation_loss) (Some best_validation_loss)
         (Some (convert_error_to_score best_validation_loss))
         (Some patience) (Some (PyInt (time_limit a)))) in
  let* _ :=
    modify (fun s =>
      set_step_results_over_time (step_results_over_time s ++ [r]) s) in
  torch_save 0.

Definition accumulation (fts : FineTuneSetup) : option Z :=
  if 1 <? update_every_n_steps fts
  then Some (update_every_n_steps fts) else None.

(** Setup and the loop, up to the call of [_tore_down_tuning]. *)
Definition training (w : World) (a : Args) (fts : FineTuneSetup) : M unit :=
  let* _ := setup w a in
  let* _ := modify (set_early_stop_no_imp false) in
  let* _ := modify (set_early_stop_no_time false) in
  let gradient_accumulation_steps := accumulation fts in
  let* _ := zero_grad in
  let* _ := modify (set_skipped_steps 0) in
  for_loop w a fts gradient_accumulation_steps 1 (data_loader w).

Definition fine_tune_tabpfn (w : World) (a : Args) : M Report :=
  let fts := _setup_tuning (config a) in
  let* _ := training w a fts in
  fun s =>
    (_tore_down_tuning (early_stop_no_imp s) (early_stop_no_time s) (ledger s), s).

(** A whole call, from the state in which nothing has happened yet. *)
Definition run (w : World) (a : Args) : outcome Report * Loop :=
  fine_tune_tabpfn w a (boot (_setup_tuning (config a))).

End Loop.

(** ** A concrete set of collaborators *)

(** Modelled from the spec: [AdaptiveES] of
    training_utils/ag_early_stopping.py, which is not part of this file.
    The state is the patience parameters, the rounds since the last
    improvement and the best round; [update] resets the count on a best
    round and increments it otherwise, and asks to stop when the count
    exceeds the patience allowed at that round.  The spec fixes the
    allowed patience only as non-decreasing in the round and clamped to
    [min_patience, max_patience]; the affine schedule
    [adaptive_offset + floor (adaptive_rate * round)] is used here, and
    [remaining_patience] is that allowed patience, which is within
    [min_patience, max_patience]. *)
Module SpecES.

Record t : Type := mk {
  adaptive_rate : float;
  adaptive_offset : Z;
  min_patience : Z;
  max_patience : Z;
  rounds_since_improvement : Z;
  best_round : Z
}.

Definition new (rate : float) (offset min_p max_p : Z) : t :=
  mk rate offset min_p max_p 0 0.

Definition scaled (rate : float) (r : Z) : Z :=
  match rate with
  | S754_finite s m e =>
      match e with
      | Zneg p => (cond_Zopp s (Zpos m) * r) / Zpos (2 ^ p)
      | _ => cond_Zopp s (Zpos m) * r * 2 ^ e
      end
  | _ => 0
  end.

Definition allowed (es : t) (r : Z) : Z :=
  Z.min (max_patience es)
        (Z.max (min_patience es) (adaptive_offset es + scaled (adaptive_rate es) r)).

Definition update (es : t) (r : Z) (is_best : bool) : t * bool :=
  let since := if is_best then 0 else rounds_since_improvement es + 1 in
  let best := if is_best then r else best_round es in
  (mk (adaptive_rate es) (adaptive_offset es) (min_patience es)
      (max_patience es) since best,
   allowed es r <? since).

Definition remaining_patience (es : t) (r : Z) : Z :=
  allowed es r.

End SpecES.

(** True division of a float tensor by an int as the CPU kernels compute
    it: the int becomes a scalar of the tensor's type and the quotient is
    rounded once. *)
Definition float32_quot (x : spec_float) (n : Z) : spec_float :=
  SFdiv 24 128 x (binary_normalize 24 128 n 0 false).

Definition float64_quot (x : spec_float) (n : Z) : spec_float :=
  SFdiv 53 1024 x (binary_normalize 53 1024 n 0 false).

(** A Python int becomes a torch scalar when it fits a signed or an
    unsigned 64-bit integer; any other int is an OverflowError. *)
Definition scalar_of_int (n : Z) : bool :=
  (- 2 ^ 63 <=? n) && (n <? 2 ^ 64).

Definition float32_div (x : spec_float) (n : Z) : outcome spec_float :=
  if scalar_of_int n then Return (float32_quot x n) else Raise OverflowError.

Definition float64_div (x : spec_float) (n : Z) : outcome spec_float :=
  if scalar_of_int n then Return (float64_quot x n) else Raise OverflowError.

(** Collaborators for a run on batches without content, with a metric
    whose score is the negated error. *)
Definition collaborators (div : spec_float -> Z -> outcome spec_float)
  : Externals :=
  {| Batch := unit;
     AdaptiveES := SpecES.t;
     AdaptiveES_new := SpecES.new;
     AdaptiveES_update := SpecES.update;
     AdaptiveES_remaining_patience := SpecES.remaining_patience;
     convert_error_to_score := SFopp;
     tensor_div := div |}.

Definition cpu_float32 : Externals := collaborators float32_div.
Definition cpu_float64 : Externals := collaborators float64_div.

(** The float nearest to an int (exact below 2^53). *)
Definition fl (z : Z) : float := binary_normalize 53 1024 z 0 false.

(** A run in which the clock starts at 1700000000.0 and every step takes
    [secs] seconds, every batch loss is [loss], the scaler never lowers
    its scale except on the steps listed in [overflow], and validation at
    step [i] returns [val i]. *)
Definition steady_world (X : Externals) (batches : list (@Batch X))
    (secs : Z) (loss : spec_float) (overflow : list Z)
    (val0 : float) (val : Z -> float) : @World X :=
  {| st_time := fl 1700000000;
     clock := fun i => fl (1700000000 + secs * i);
     data_loader := batches;
     batch_loss := fun _ _ => loss;
     clip_grad_norm := fun _ => fl 1;
     org_scale := fun _ => fl 65536;
     new_scale := fun i =>
       if existsb (Z.eqb i) overflow then fl 32768 else fl 65536;
     initial_validation_loss := val0;
     validation_loss_at := val;
     cuda_utilization := fun _ => 0 |}.

Definition plain_config (update_every validate_every : Z) : finetuning_config :=
  {| cfg_update_every_n_steps := Some update_every;
     cfg_validate_every_n_steps := Some validate_every;
     cfg_max_steps := None;
     cfg_adaptive_rate := None;
     cfg_adaptive_offset := None;
     cfg_min_patience := None;
     cfg_max_patience := None |}.

Definition plain_args (limit : Z) (c : finetuning_config) : Args :=
  {| time_limit := limit;
     config := c;
     device := CPU;
     use_sklearn_interface_for_validation := false;
     model_for_validation := None |}.

(** ** Observations on a final state *)

(** The step an event belongs to. *)
Definition event_step (e : Event) : Z :=
  match e with
  | Backward i _ | OptimizerStep i _ _ | Validate i _ | EsUpdate i _ _
  | RemainingPatience i _ | TorchSave i _ | LogSkipped i => i
  end.

(** Was the validation function called at step [j]? *)
Definition validated (t : list Event) (j : Z) : bool :=
  existsb (fun e => match e with Validate i _ => i =? j | _ => false end) t.

(** The validation losses measured up to step [j], oldest first. *)
Definition validations_upto (t : list Event) (j : Z) : list float :=
  omap (fun e => match e with
                 | Validate i v => if i <=? j then Some v else None
                 | _ => None
                 end) t.

(** The loss of the most recent validation at or before step [j]. *)
Definition last_validation (t : list Event) (j : Z) : option float :=
  last (validations_upto t j).

(** The writes of the checkpoint file, oldest first: the step and the loss
    of the model that was saved. *)
Definition saves (t : list Event) : list (Z * float) :=
  omap (fun e => match e with TorchSave i v => Some (i, v) | _ => None end) t.

(** Each loss is strictly smaller than the one before it. *)
Definition descending (l : list float) : Prop :=
  forall (k : nat) (x y : float),
    l !! k = Some x -> l !! S k = Some y -> PyFloat.ltb y x = true.

(** The number of steps up to [j] whose record has
    [optimizer_step_skipped] set. *)
Definition skipped_count (L : list StepResults.t) (j : Z) : Z :=
  Z.of_nat (length (filter (fun r => StepResults.optimizer_step_skipped r = true)
                           (take (S (Z.to_nat j)) L))).

(** The training steps that ran: those with a backward pass. *)
Definition steps_run (t : list Event) : list Z :=
  omap (fun e => match e with Backward i _ => Some i | _ => None end) t.

(** ** Concrete runs *)

Definition one : spec_float := binary_normalize 24 128 1 0 false.

(** Three batches, ten seconds a step, improving validation losses. *)
Definition ten_second_steps (X : Externals) (batches : list (@Batch X)) : @World X :=
  steady_world X batches 10 one [] (fl 5) (fun i => fl (5 - i)).

(** A fitted model for validation, handed over without asking for the
    sklearn interface. *)
(** The same call with another [model_for_validation]. *)
Definition with_model (mv : option ModelForValidation) (a : Args) : Args :=
  {| time_limit := time_limit a;
     config := config a;
     device := device a;
     use_sklearn_interface_for_validation := use_sklearn_interface_for_validation a;
     model_for_validation := mv |}.

Definition fitted_but_unused : Args :=
  {| time_limit := 1000;
     config := plain_config 1 1;
     device := CPU;
     use_sklearn_interface_for_validation := false;
     model_for_validation := Some {| has_executor_ := true |} |}.

Definition fitted_and_used : Args :=
  {| time_limit := 1000;
     config := plain_config 1 1;
     device := CPU;
     use_sklearn_interface_for_validation := true;
     model_for_validation := Some {| has_executor_ := true |} |}.

(** Four batches; the scaler lowers its scale at step 2. *)
Definition skipping_world : @World cpu_float32 :=
  steady_world cpu_float32 [tt; tt; tt; tt] 10 one [2] (fl 5)
               (fun i => fl (5 - i)).


(** A float64 loss tensor of value 1.0 on one batch. *)
Definition double_loss_world : @World cpu_float64 :=
  steady_world cpu_float64 [tt] 10 (fl 1) [] (fl 5) (fun i => fl (5 - i)).

(** No batch at all. *)
Definition empty_world : @World cpu_float32 :=
  ten_second_steps cpu_float32 [].

(** Three batches, ten seconds a step. *)
Definition three_batches : @World cpu_float32 :=
  ten_second_steps cpu_float32 [tt; tt; tt].


(** * Proofs *)

(** ** Running the monad *)

Ltac unfold_m :=
  unfold es_update, es_remaining_patience, torch_save, new_step_results,
    zero_grad, backward, scaler_step, ledger_last, ledger_first, cur_round,
    emit, bind, ret, lift, gets, modify.

Ltac run_m := unfold_m; cbn.

Lemma py_floordiv_ok (x n : Z) : n <> 0 -> py_floordiv x n = Return (x / n).
Proof. intros H. unfold py_floordiv. apply Z.eqb_neq in H. now rewrite H. Qed.

Lemma py_mod_ok (x n : Z) : n <> 0 -> py_mod x n = Return (x mod n).
Proof. intros H. unfold py_mod. apply Z.eqb_neq in H. now rewrite H. Qed.

Section StepFacts.

Context `{X : Externals}.
Variables (w : World) (a : Args) (fts : FineTuneSetup) (gas : option Z).

(** What the body of the loop computes at step [i], as functions of the
    observations. *)

(** [loss / gradient_accumulation_steps], when there is accumulation. *)
Definition division (i : Z) (b : Batch) : outcome spec_float :=
  match gas with
  | Some n => tensor_div (batch_loss w i b) n
  | None => Return (batch_loss w i b)
  end.

(** The loss that is back-propagated, once the division has returned. *)
Definition scaled_loss (i : Z) (b : Batch) : spec_float :=
  match division i b with
  | Return y => y
  | Raise _ => batch_loss w i b
  end.

Lemma division_scaled_loss (i : Z) (b : Batch) (y : spec_float) :
  division i b = Return y -> scaled_loss i b = y.
Proof. unfold scaled_loss. now intros ->. Qed.

Definition update_at (i : Z) : bool :=
  (i + 1) mod update_every_n_steps fts =? 0.

Definition cadence_at (i : Z) : bool :=
  (i + 1) mod validate_every_n_steps fts =? 0.

Definition skipped_at (i : Z) : bool :=
  update_at i && PyFloat.gtb (org_scale w i) (new_scale w i).

Definition validates_at (i : Z) : bool :=
  cadence_at i && negb (skipped_at i).

Definition reported_loss (i : Z) (b : Batch) : outcome float :=
  match gas with
  | None => Return (PyFloat.item (scaled_loss i b))
  | Some n => py_mul_int (PyFloat.item (scaled_loss i b)) n
  end.

Definition step_events (i : Z) (b : Batch) (g : list (Z * spec_float))
  : list Event :=
  Backward i (scaled_loss i b)
  :: (if update_at i
      then [OptimizerStep i (g ++ [(i, scaled_loss i b)]) (skipped_at i)]
      else []).

Definition grad_after (i : Z) (b : Batch) (g : list (Z * spec_float))
  : list (Z * spec_float) :=
  if update_at i then [] else g ++ [(i, scaled_loss i b)].

Definition fresh_record (i : Z) (tl : float) : StepResults.t :=
  StepResults.mk tl
    (if is_gpu (device a) then PyInt (cuda_utilization w i)
     else PyFlt PyFloat.zero)
    (update_at i) (skipped_at i)
    (if update_at i then PyFlt (clip_grad_norm w i) else PyInt (-1))
    None None None None None None.

(** The state once the forward and backward pass and the optimizer
    have run. *)
Definition after_step (i : Z) (b : Batch) (s : Loop) : Loop :=
  mkLoop (heap s) (step_results_over_time s) (best_validation_loss s)
    (early_stop_no_imp s) (early_stop_no_time s) (skipped_steps s)
    (adaptive_es s) (grad_after i b (grad s)) (checkpoint s)
    (trace s ++ step_events i b (grad s)).

Lemma fine_tune_step_run (i : Z) (b : Batch) (s : Loop) :
  _fine_tune_step w (device a) i b (update_at i) gas s =
  match division i b with
  | Raise e => (Raise e, s)
  | Return _ =>
      match reported_loss i b with
      | Raise e => (Raise e, after_step i b s)
      | Return tl =>
          (Return (length (heap s)),
           set_heap (heap s ++ [fresh_record i tl]) (after_step i b s))
      end
  end.
Proof.
  unfold _fine_tune_step, reported_loss, after_step, step_events, grad_after,
    fresh_record, skipped_at, scaled_loss, division.
  destruct gas as [n|].
  - unfold bind at 1, lift.
    destruct (tensor_div (batch_loss w i b) n) as [y|e]; [|reflexivity].
    destruct (update_at i); run_m;
      unfold py_mul_int; destruct (PyFloat.of_int n); cbn;
      rewrite <- ?app_assoc; reflexivity.
  - destruct (update_at i); run_m; rewrite <- ?app_assoc; reflexivity.
Qed.

(** ... and once a skipped optimizer step has been counted. *)
Definition after_skip (i : Z) (b : Batch) (tl : float) (s : Loop) : Loop :=
  mkLoop (heap s ++ [fresh_record i tl]) (step_results_over_time s)
    (best_validation_loss s) (early_stop_no_imp s) (early_stop_no_time s)
    (skipped_steps s + (if skipped_at i then 1 else 0))
    (adaptive_es s) (grad_after i b (grad s)) (checkpoint s)
    (trace s ++ step_events i b (grad s)
       ++ (if skipped_at i then [LogSkipped i] else [])).

Lemma handle_skip_run (i : Z) (b : Batch) (tl : float) (vn : bool) (s : Loop) :
  handle_skip i (length (heap s)) vn
    (set_heap (heap s ++ [fresh_record i tl]) (after_step i b s)) =
  (Return (vn && negb (skipped_at i)), after_skip i b tl s).
Proof.
  unfold handle_skip, after_skip, after_step, step_events, deref. run_m.
  rewrite nth_middle. cbn.
  destruct (skipped_at i); cbn;
    rewrite ?andb_false_r, ?andb_true_r, ?Z.add_0_r, ?app_nil_r, <- ?app_assoc;
    reflexivity.
Qed.

(** The round number computed from the current skip count. *)
Definition round_of (i : Z) (s : Loop) : Z :=
  (i - skipped_steps s) / update_every_n_steps fts.

Definition is_best_at (i : Z) (s : Loop) : bool :=
  PyFloat.ltb (validation_loss_at w i) (best_validation_loss s).

Definition validation_events (i : Z) (s : Loop) : list Event :=
  Validate i (validation_loss_at w i)
  :: EsUpdate i (round_of i s) (is_best_at i s)
  :: (if is_best_at i s then [TorchSave i (validation_loss_at w i)] else []).

Definition after_validation (i : Z) (s : Loop) : Loop :=
  let u := AdaptiveES_update (adaptive_es s) (round_of i s) (is_best_at i s) in
  mkLoop (heap s) (step_results_over_time s)
    (if is_best_at i s then validation_loss_at w i else best_validation_loss s)
    (snd u) (early_stop_no_time s) (skipped_steps s) (fst u) (grad s)
    (if is_best_at i s then Some i else checkpoint s)
    (trace s ++ validation_events i s).

Lemma validate_and_save_run (i : Z) (s : Loop) :
  update_every_n_steps fts <> 0 ->
  validate_and_save w fts i s =
  (Return (Some (validation_loss_at w i)), after_validation i s).
Proof.
  intros Hn.
  unfold validate_and_save, after_validation, validation_events, round_of,
    is_best_at.
  unfold_m. rewrite (py_floordiv_ok _ _ Hn). cbn.
  destruct (AdaptiveES_update _ _ _) as [es stop]. cbn.
  destruct (PyFloat.ltb _ _); cbn; rewrite <- ?app_assoc; reflexivity.
Qed.

Lemma carry_forward_run (s : Loop) (prev : loc) :
  last (step_results_over_time s) = Some prev ->
  carry_forward s =
  (Return (StepResults.validation_loss (deref s prev)),
   set_early_stop_no_imp false s).
Proof.
  intros Hl. unfold carry_forward. run_m. rewrite Hl. reflexivity.
Qed.

(** The record of step [i] as it enters the ledger. *)
Definition final_record (i : Z) (vl : option float) (time_left : float)
    (s : Loop) (r : StepResults.t) : StepResults.t :=
  StepResults.register_meta_state i vl (best_validation_loss s)
    (convert_error_to_score (best_validation_loss s))
    (AdaptiveES_remaining_patience (adaptive_es s) (round_of i s))
    (PyFlt time_left) r.

Definition tracked_heap (i : Z) (l first : loc) (vl : option float)
    (time_left : float) (s : Loop) : list StepResults.t :=
  let h := alter (final_record i vl time_left s) l (heap s) in
  if i =? 1
  then alter (StepResults.set_training_loss
                (StepResults.training_loss (nth l h blank))) first h
  else h.

Definition after_track (i : Z) (l first : loc) (vl : option float)
    (time_left : float) (s : Loop) : Loop :=
  mkLoop (tracked_heap i l first vl time_left s)
    (step_results_over_time s ++ [l])
    (best_validation_loss s) (early_stop_no_imp s) (early_stop_no_time s)
    (skipped_steps s) (adaptive_es s) (grad s) (checkpoint s)
    (trace s ++ [RemainingPatience i (round_of i s)]).

Lemma track_progress_run (i : Z) (l first : loc) (vl : option float)
    (time_left : float) (s : Loop) :
  update_every_n_steps fts <> 0 ->
  (step_results_over_time s ++ [l]) !! 0%nat = Some first ->
  track_progress fts i l vl time_left s =
  (Return tt, after_track i l first vl time_left s).
Proof.
  intros Hn Hf.
  unfold track_progress, after_track, tracked_heap, final_record, round_of,
    deref.
  unfold_m. rewrite (py_floordiv_ok _ _ Hn).
  destruct (i =? 1); cbn; [rewrite Hf|]; reflexivity.
Qed.

(** Validation or carry-forward, from the state [s] after the skip
    handling; [prev] is the last reference of the ledger. *)
Definition validation_phase (i : Z) (prev : loc) (s : Loop)
  : option float * Loop :=
  if validates_at i
  then (Some (validation_loss_at w i), after_validation i s)
  else (StepResults.validation_loss (deref s prev),
        set_early_stop_no_imp false s).

Lemma cadence_run (i : Z) :
  update_every_n_steps fts <> 0 ->
  validate_every_n_steps fts <> 0 ->
  cadence fts i = Return (update_at i, cadence_at i).
Proof.
  intros Hn Hv. unfold cadence.
  rewrite (py_mod_ok _ _ Hn), (py_mod_ok _ _ Hv). reflexivity.
Qed.

Lemma cadence_raise (i : Z) :
  update_every_n_steps fts = 0 \/ validate_every_n_steps fts = 0 ->
  cadence fts i = Raise ZeroDivisionError.
Proof.
  unfold cadence, py_mod. intros [H|H]; rewrite H; cbn; [reflexivity|].
  destruct (update_every_n_steps fts =? 0); reflexivity.
Qed.

Lemma loop_body_raise (i : Z) (b : Batch) (s : Loop) :
  update_every_n_steps fts = 0 \/ validate_every_n_steps fts = 0 ->
  loop_body w a fts gas i b s = (Raise ZeroDivisionError, s).
Proof.
  intros H. unfold loop_body. unfold bind at 1, lift.
  rewrite (cadence_raise i H). reflexivity.
Qed.

Lemma loop_body_run (i : Z) (b : Batch) (s : Loop) (prev first : loc) :
  update_every_n_steps fts <> 0 ->
  validate_every_n_steps fts <> 0 ->
  last (step_results_over_time s) = Some prev ->
  step_results_over_time s !! 0%nat = Some first ->
  loop_body w a fts gas i b s =
  match division i b with
  | Raise e => (Raise e, s)
  | Return _ =>
      match reported_loss i b with
      | Raise e => (Raise e, after_step i b s)
      | Return tl =>
          let vs := validation_phase i prev (after_skip i b tl s) in
          match time_check w a i with
          | Raise e => (Raise e, snd vs)
          | Return (time_left, no_time) =>
              (Return (early_stop_no_imp (snd vs) || no_time),
               after_track i (length (heap s)) first (fst vs) time_left
                 (set_early_stop_no_time no_time (snd vs)))
          end
      end
  end.
Proof.
  intros Hn Hv Hl Hf. unfold loop_body.
  unfold bind at 1, lift. rewrite (cadence_run i Hn Hv).
  unfold bind at 1. rewrite fine_tune_step_run.
  destruct (division i b) as [dl|e]; [|reflexivity].
  destruct (reported_loss i b) as [tl|e]; [|reflexivity].
  unfold bind at 1. rewrite handle_skip_run.
  fold (validates_at i). unfold validation_phase.
  destruct (validates_at i).
  - unfold bind at 1. rewrite (validate_and_save_run _ _ Hn).
    unfold bind at 1, lift.
    destruct (time_check w a i) as [[time_left no_time]|e]; [|reflexivity].
    unfold bind at 1, modify. unfold bind at 1.
    rewrite (track_progress_run _ _ first); [reflexivity|exact Hn|].
    cbn. apply lookup_app_l_Some. exact Hf.
  - unfold bind at 1. rewrite (carry_forward_run _ prev); [|exact Hl].
    unfold bind at 1, lift.
    destruct (time_check w a i) as [[time_left no_time]|e]; [|reflexivity].
    unfold bind at 1, modify. unfold bind at 1.
    rewrite (track_progress_run _ _ first); [reflexivity|exact Hn|].
    cbn. apply lookup_app_l_Some. exact Hf.
Qed.

End StepFacts.

(** ** Traces and ledgers *)

Lemma validated_app (t1 t2 : list Event) (j : Z) :
  validated (t1 ++ t2) j = validated t1 j || validated t2 j.
Proof. unfold validated. apply existsb_app. Qed.

Lemma validations_upto_app (t1 t2 : list Event) (j : Z) :
  validations_upto (t1 ++ t2) j = validations_upto t1 j ++ validations_upto t2 j.
Proof. unfold validations_upto. apply omap_app. Qed.

Lemma validations_upto_below (t : list Event) (i j : Z) :
  Forall (fun e => event_step e < i) t -> i - 1 <= j ->
  validations_upto t j = validations_upto t (i - 1).
Proof.
  intros Ht Hj. induction Ht as [|e t He Ht IH]; [reflexivity|].
  unfold validations_upto in *. cbn. rewrite IH.
  destruct e; try reflexivity. cbn in He.
  replace (step_i <=? j) with true by (symmetry; apply Z.leb_le; lia).
  replace (step_i <=? i - 1) with true by (symmetry; apply Z.leb_le; lia).
  reflexivity.
Qed.

Lemma validated_below (t : list Event) (i j : Z) :
  Forall (fun e => event_step e < i) t -> i <= j -> validated t j = false.
Proof.
  intros Ht Hj. induction Ht as [|e t He Ht IH]; [reflexivity|].
  unfold validated in *. cbn. rewrite IH, orb_false_r.
  destruct e; try reflexivity. cbn in He. apply Z.eqb_neq. lia.
Qed.

Lemma skipped_count_all (L : list StepResults.t) (j : Z) :
  (length L <= S (Z.to_nat j))%nat ->
  skipped_count L j =
  Z.of_nat (length (filter (fun r => StepResults.optimizer_step_skipped r = true) L)).
Proof. intros H. unfold skipped_count. now rewrite take_ge. Qed.

Lemma skipped_count_snoc_lt (L : list StepResults.t) (r : StepResults.t) (j : Z) :
  (Z.to_nat j < length L)%nat ->
  skipped_count (L ++ [r]) j = skipped_count L j.
Proof. intros H. unfold skipped_count. rewrite take_app_le by lia. reflexivity. Qed.

Lemma skipped_count_snoc_all (L : list StepResults.t) (r : StepResults.t) (j : Z) :
  (length L <= Z.to_nat j)%nat ->
  skipped_count (L ++ [r]) j =
  skipped_count L j + (if StepResults.optimizer_step_skipped r then 1 else 0).
Proof.
  intros H. rewrite !skipped_count_all by (rewrite ?length_app; cbn; lia).
  rewrite filter_app, length_app, filter_cons, filter_nil.
  destruct (decide _) as [E|E]; destruct (StepResults.optimizer_step_skipped r);
    cbn in *; try congruence; lia.
Qed.

Lemma skipped_count_alter (f : StepResults.t -> StepResults.t) (p : nat)
    (L : list StepResults.t) (j : Z) :
  (forall r, StepResults.optimizer_step_skipped (f r)
             = StepResults.optimizer_step_skipped r) ->
  skipped_count (alter f p L) j = skipped_count L j.
Proof.
  intros Hf. unfold skipped_count. f_equal.
  generalize (S (Z.to_nat j)) as m. revert p.
  induction L as [|x L IH]; intros p m; [now destruct p, m|].
  destruct m as [|m]; [reflexivity|].
  destruct p as [|p].
  - change (alter f 0%nat (x :: L)) with (f x :: L).
    change (take (S m) (f x :: L)) with (f x :: take m L).
    change (take (S m) (x :: L)) with (x :: take m L).
    rewrite !filter_cons, Hf. destruct (decide _); reflexivity.
  - change (alter f (S p) (x :: L)) with (x :: alter f p L).
    change (take (S m) (x :: alter f p L)) with (x :: take m (alter f p L)).
    change (take (S m) (x :: L)) with (x :: take m L).
    rewrite !filter_cons. destruct (decide _); cbn [length]; now rewrite IH.
Qed.

Section Ledger.

Context `{X : Externals}.

Lemma ledger_take (s : Loop) (k : nat) :
  step_results_over_time s = seq 0 k -> (k <= length (heap s))%nat ->
  ledger s = take k (heap s).
Proof.
  intros Hr Hk. unfold ledger, deref. rewrite Hr.
  apply list_eq. intros j.
  rewrite list_lookup_fmap, lookup_take.
  destruct (decide (j < k)%nat) as [Hj|Hj].
  - rewrite lookup_seq_lt by lia. cbn.
    destruct (heap s !! j) as [r|] eqn:E.
    + f_equal. apply nth_lookup_Some with (d := blank) in E. exact E.
    + apply lookup_ge_None in E. lia.
  - rewrite lookup_seq_ge by lia. reflexivity.
Qed.

Lemma ledger_head (s : Loop) (k : nat) :
  step_results_over_time s = seq 0 k -> length (heap s) = k ->
  ledger s = heap s.
Proof.
  intros Hr Hk. rewrite (ledger_take s k) by (auto; lia).
  apply take_ge. lia.
Qed.

End Ledger.

(** ** What a completed run guarantees *)

Section Invariants.

Context `{X : Externals}.
Variables (w : World) (a : Args) (fts : FineTuneSetup) (gas : option Z).

(** Facts about a ledger and a trace that hold whenever the call
    stops, normally or with an exception. *)
Record Done (L : list StepResults.t) (t : list Event) : Prop := {
  done_skip :
    forall (j : nat) (r : StepResults.t),
      L !! j = Some r -> StepResults.optimizer_step_skipped r = true ->
      validated t (Z.of_nat j) = false;
  done_update :
    forall (i r : Z) (b : bool),
      In (EsUpdate i r b) t -> 1 <= i ->
      r = (i - skipped_count L i) / update_every_n_steps fts;
  done_patience :
    forall (i r : Z),
      In (RemainingPatience i r) t -> 1 <= i ->
      r = (i - skipped_count L i) / update_every_n_steps fts;
  done_carry :
    forall (j : nat) (r : StepResults.t),
      L !! j = Some r ->
      StepResults.validation_loss r = last_validation t (Z.of_nat j)
}.

(** The state at the head of the loop, before step [i]. *)
Record Head (i : Z) (s : Loop) : Prop := {
  head_pos : 1 <= i;
  head_refs : step_results_over_time s = seq 0 (Z.to_nat i);
  head_heap : length (heap s) = Z.to_nat i;
  head_events : Forall (fun e => event_step e < i) (trace s);
  head_skipped : skipped_steps s = skipped_count (heap s) (i - 1);
  head_done : Done (heap s) (trace s)
}.

(** The events of step [i] up to and including its validation. *)
Definition events_to_validation (i : Z) (b : Batch) (s : Loop) : list Event :=
  step_events w fts gas i b (grad s)
  ++ (if skipped_at w fts i then [LogSkipped i] else [])
  ++ (if validates_at w fts i
      then [Validate i (validation_loss_at w i);
            EsUpdate i ((i - skipped_steps s) / update_every_n_steps fts)
                     (is_best_at w i s)]
           ++ (if is_best_at w i s
               then [TorchSave i (validation_loss_at w i)] else [])
      else []).

Lemma validation_phase_facts (i : Z) (b : Batch) (tl : float) (prev : loc)
    (s : Loop) :
  let vs := validation_phase w fts i prev (after_skip w a fts gas i b tl s) in
  heap (snd vs) = heap s ++ [fresh_record w a fts i tl]
  /\ step_results_over_time (snd vs) = step_results_over_time s
  /\ skipped_steps (snd vs)
     = skipped_steps s + (if skipped_at w fts i then 1 else 0)
  /\ trace (snd vs) = trace s ++ events_to_validation i b s
  /\ fst vs = (if validates_at w fts i then Some (validation_loss_at w i)
              else StepResults.validation_loss
                     (nth prev (heap s ++ [fresh_record w a fts i tl]) blank)).
Proof.
  unfold validation_phase, events_to_validation, validates_at, after_validation,
    validation_events, round_of, is_best_at, after_skip, deref.
  destruct (cadence_at fts i), (skipped_at w fts i); cbn;
    rewrite ?Z.add_0_r, ?app_nil_r, <- ?app_assoc; auto.
Qed.

Lemma events_validated (i : Z) (b : Batch) (s : Loop) (j : Z) :
  validated (events_to_validation i b s) j = validates_at w fts i && (i =? j).
Proof.
  unfold events_to_validation, step_events, validated.
  destruct (update_at fts i), (skipped_at w fts i), (validates_at w fts i),
    (is_best_at w i s); cbn; rewrite ?orb_false_r; reflexivity.
Qed.

Lemma events_validations (i : Z) (b : Batch) (s : Loop) (j : Z) :
  validations_upto (events_to_validation i b s) j =
  if validates_at w fts i && (i <=? j) then [validation_loss_at w i] else [].
Proof.
  unfold events_to_validation, step_events, validations_upto.
  destruct (update_at fts i), (skipped_at w fts i), (validates_at w fts i),
    (is_best_at w i s); cbn; try reflexivity; destruct (i <=? j); reflexivity.
Qed.

Lemma events_update (i : Z) (b : Batch) (s : Loop) (i' r : Z) (b' : bool) :
  In (EsUpdate i' r b') (events_to_validation i b s) ->
  i' = i /\ r = (i - skipped_steps s) / update_every_n_steps fts
  /\ validates_at w fts i = true.
Proof.
  unfold events_to_validation, step_events.
  destruct (update_at fts i), (skipped_at w fts i), (validates_at w fts i),
    (is_best_at w i s); cbn; intuition congruence.
Qed.

Lemma events_patience (i : Z) (b : Batch) (s : Loop) (i' r : Z) :
  ~ In (RemainingPatience i' r) (events_to_validation i b s).
Proof.
  unfold events_to_validation, step_events.
  destruct (update_at fts i), (skipped_at w fts i), (validates_at w fts i),
    (is_best_at w i s); cbn; intuition congruence.
Qed.

Lemma events_step (i : Z) (b : Batch) (s : Loop) :
  Forall (fun e => event_step e = i) (events_to_validation i b s).
Proof.
  unfold events_to_validation, step_events.
  destruct (update_at fts i), (skipped_at w fts i), (validates_at w fts i),
    (is_best_at w i s); cbn; repeat constructor.
Qed.

Lemma Done_extend (L : list StepResults.t) (t E : list Event) :
  Done L t ->
  (forall (j : nat) r, L !! j = Some r -> validated E (Z.of_nat j) = false) ->
  (forall (j : nat) r, L !! j = Some r -> validations_upto E (Z.of_nat j) = []) ->
  (forall i r b, In (EsUpdate i r b) E -> 1 <= i ->
                 r = (i - skipped_count L i) / update_every_n_steps fts) ->
  (forall i r, In (RemainingPatience i r) E -> 1 <= i ->
               r = (i - skipped_count L i) / update_every_n_steps fts) ->
  Done L (t ++ E).
Proof.
  intros [D1 D2 D3 D4] Hv Hu He Hp. split.
  - intros j r Hj Hs. rewrite validated_app, (D1 j r Hj Hs), (Hv j r Hj).
    reflexivity.
  - intros i r b Hin Hi. apply in_app_or in Hin as [Hin|Hin]; eauto.
  - intros i r Hin Hi. apply in_app_or in Hin as [Hin|Hin]; eauto.
  - intros j r Hj. unfold last_validation.
    rewrite validations_upto_app, (Hu j r Hj), app_nil_r. apply (D4 j r Hj).
Qed.

Lemma Done_alter (L : list StepResults.t) (t : list Event) (p : nat)
    (x : float) :
  Done L t -> Done (alter (StepResults.set_training_loss x) p L) t.
Proof.
  intros [D1 D2 D3 D4].
  assert (Hl : forall (j : nat) r,
             alter (StepResults.set_training_loss x) p L !! j = Some r ->
             exists r', L !! j = Some r'
               /\ StepResults.optimizer_step_skipped r
                  = StepResults.optimizer_step_skipped r'
               /\ StepResults.validation_loss r
                  = StepResults.validation_loss r').
  { intros j r. rewrite list_lookup_alter.
    destruct (decide (p = j)) as [->|Hne].
    - destruct (L !! j) as [r'|]; cbn; [|discriminate].
      intros [= <-]. exists r'. auto.
    - intros Hj. exists r. auto. }
  split.
  - intros j r Hj Hs. destruct (Hl j r Hj) as (r' & Hj' & E1 & _).
    apply (D1 j r' Hj'). congruence.
  - intros i r b Hin Hi. rewrite skipped_count_alter by reflexivity. eauto.
  - intros i r Hin Hi. rewrite skipped_count_alter by reflexivity. eauto.
  - intros j r Hj. destruct (Hl j r Hj) as (r' & Hj' & _ & E2).
    rewrite E2. apply (D4 j r' Hj').
Qed.

Lemma Done_snoc (L : list StepResults.t) (t : list Event)
    (rf : StepResults.t) (i : Z) :
  0 <= i -> length L = Z.to_nat i ->
  Done L t ->
  Forall (fun e => event_step e <= i) t ->
  (forall r b, In (EsUpdate i r b) t ->
               StepResults.optimizer_step_skipped rf = false) ->
  (forall r, ~ In (RemainingPatience i r) t) ->
  (StepResults.optimizer_step_skipped rf = true -> validated t i = false) ->
  StepResults.validation_loss rf = last_validation t i ->
  Done (L ++ [rf]) t.
Proof.
  intros Hi Hlen [D1 D2 D3 D4] Hev Hup Hpa Hsk Hvl.
  assert (Hcount : forall i', 1 <= i' < i ->
             skipped_count (L ++ [rf]) i' = skipped_count L i').
  { intros i' Hi'. apply skipped_count_snoc_lt. lia. }
  assert (Hlook : forall (j : nat) r, (L ++ [rf]) !! j = Some r ->
             L !! j = Some r \/ (Z.of_nat j = i /\ r = rf)).
  { intros j r Hj. apply lookup_snoc_Some in Hj as [[_ Hj]|[Hj <-]]; auto.
    right. split; [lia|reflexivity]. }
  split.
  - intros j r Hj Hs. destruct (Hlook j r Hj) as [Hj'|[-> ->]]; eauto.
  - intros i' r b Hin Hi'.
    assert (Hle : event_step (EsUpdate i' r b) <= i)
      by (eapply Forall_forall in Hev; [exact Hev|apply list_elem_of_In; exact Hin]).
    cbn in Hle. destruct (Z.eq_dec i' i) as [->|Hne].
    + rewrite skipped_count_snoc_all by lia.
      rewrite (Hup r b Hin), Z.add_0_r. eauto.
    + rewrite Hcount by lia. eauto.
  - intros i' r Hin Hi'.
    assert (Hle : event_step (RemainingPatience i' r) <= i)
      by (eapply Forall_forall in Hev; [exact Hev|apply list_elem_of_In; exact Hin]).
    cbn in Hle. destruct (Z.eq_dec i' i) as [->|Hne].
    + exfalso. exact (Hpa r Hin).
    + rewrite Hcount by lia. eauto.
  - intros j r Hj. destruct (Hlook j r Hj) as [Hj'|[-> ->]]; eauto.
Qed.

Lemma tracked_heap_snoc (i : Z) (first : loc) (vl : option float)
    (time_left : float) (s : Loop) (H : list StepResults.t)
    (fr : StepResults.t) :
  heap s = H ++ [fr] -> (first < length H)%nat ->
  tracked_heap fts i (length H) first vl time_left s =
  (if i =? 1
   then alter (StepResults.set_training_loss (StepResults.training_loss fr))
              first H
   else H)
  ++ [final_record fts i vl time_left s fr].
Proof.
  intros Hh Hf. unfold tracked_heap. rewrite Hh.
  rewrite alter_app_r_alt, Nat.sub_diag by lia.
  change (alter (final_record fts i vl time_left s) 0%nat [fr])
    with [final_record fts i vl time_left s fr].
  rewrite nth_middle.
  destruct (i =? 1); [|reflexivity].
  rewrite alter_app_l by exact Hf. reflexivity.
Qed.

Lemma Done_step_events (i : Z) (b : Batch) (s : Loop) :
  Head i s -> Done (heap s) (trace s ++ step_events w fts gas i b (grad s)).
Proof.
  intros H. apply Done_extend; [apply H| | | |];
    unfold step_events; destruct (update_at fts i); cbn;
    intros; intuition congruence.
Qed.

Lemma Done_to_validation (i : Z) (b : Batch) (s : Loop) :
  Head i s -> Done (heap s) (trace s ++ events_to_validation i b s).
Proof.
  intros [Hpos Hrefs Hheap Hev Hsk HD].
  apply Done_extend; [exact HD| | | |].
  - intros j r Hj. apply lookup_lt_Some in Hj. rewrite events_validated.
    replace (i =? Z.of_nat j) with false by (symmetry; apply Z.eqb_neq; lia).
    apply andb_false_r.
  - intros j r Hj. apply lookup_lt_Some in Hj. rewrite events_validations.
    replace (i <=? Z.of_nat j) with false by (symmetry; apply Z.leb_gt; lia).
    rewrite andb_false_r. reflexivity.
  - intros i' r b' Hin Hi'. apply events_update in Hin as (-> & -> & Hv).
    rewrite Hsk. do 2 f_equal. rewrite !skipped_count_all by lia. reflexivity.
  - intros i' r Hin. exfalso. eapply events_patience; eauto.
Qed.

Lemma loop_body_Head (i : Z) (b : Batch) (s : Loop) :
  Head i s ->
  match loop_body w a fts gas i b s with
  | (Return _, s') => Head (i + 1) s'
  | (Raise _, s') => Done (ledger s') (trace s')
  end.
Proof.
  intros H. pose proof H as [Hpos Hrefs Hheap Hev Hsk HD].
  set (k := Z.to_nat i) in *.
  assert (Hk : (1 <= k)%nat) by lia.
  destruct (Z.eq_dec (update_every_n_steps fts) 0) as [Hn|Hn];
    [|destruct (Z.eq_dec (validate_every_n_steps fts) 0) as [Hv|Hv]].
  1,2: rewrite loop_body_raise by auto;
       rewrite (ledger_head s k) by auto; exact HD.
  rewrite (loop_body_run w a fts gas i b s (pred k) 0%nat Hn Hv).
  2: { rewrite Hrefs. destruct k; [lia|]. rewrite seq_S, last_snoc. reflexivity. }
  2: { rewrite Hrefs. apply lookup_seq_lt. lia. }
  destruct (division w gas i b) as [dl|e].
  2: { rewrite (ledger_head s k) by auto. exact HD. }
  destruct (reported_loss w gas i b) as [tl|e].
  2: { rewrite (ledger_head _ k) by (cbn; auto). cbn.
       apply Done_step_events; exact H. }
  destruct (validation_phase_facts i b tl (pred k) s) as (V1 & V2 & V3 & V4 & V5).
  cbv zeta.
  set (vs := validation_phase w fts i (pred k) (after_skip w a fts gas i b tl s)) in *.
  clearbody vs.
  destruct (time_check w a i) as [[time_left no_time]|e].
  2: { rewrite (ledger_take _ k) by (rewrite ?V1, ?V2, ?length_app; auto; lia).
       rewrite V1, V4, take_app_length' by auto.
       apply Done_to_validation; exact H. }
  set (s3 := set_early_stop_no_time no_time (snd vs)).
  assert (Hh3 : heap s3 = heap s ++ [fresh_record w a fts i tl]) by exact V1.
  set (fr := fresh_record w a fts i tl) in *.
  set (rf := final_record fts i (fst vs) time_left s3 fr).
  set (H' := if i =? 1
             then alter (StepResults.set_training_loss
                           (StepResults.training_loss fr)) 0%nat (heap s)
             else heap s).
  assert (Hheap4 : heap (after_track fts i (length (heap s)) 0%nat (fst vs)
                           time_left s3) = H' ++ [rf]).
  { cbn. apply tracked_heap_snoc; [exact Hh3|lia]. }
  assert (HlenH' : length H' = k).
  { unfold H'. destruct (i =? 1); rewrite ?length_alter; exact Hheap. }
  assert (Hsk_rf : StepResults.optimizer_step_skipped rf = skipped_at w fts i)
    by reflexivity.
  assert (HDH' : Done H' (trace s ++ events_to_validation i b s)).
  { unfold H'. destruct (i =? 1); [apply Done_alter|];
      apply Done_to_validation; exact H. }
  assert (HcH' : forall j, skipped_count H' j = skipped_count (heap s) j).
  { intros j. unfold H'. destruct (i =? 1); [|reflexivity].
    apply skipped_count_alter. reflexivity. }
  assert (Hev2 : Forall (fun e => event_step e <= i)
                   (trace s ++ events_to_validation i b s)).
  { apply Forall_app. split.
    - eapply Forall_impl; [exact Hev|]. cbn. intros; lia.
    - eapply Forall_impl; [apply events_step|]. cbn. intros; lia. }
  assert (HD4 : Done (H' ++ [rf]) (trace s ++ events_to_validation i b s)).
  { apply (Done_snoc _ _ rf i); auto; try lia.
    - intros r b' Hin. rewrite Hsk_rf.
      apply in_app_or in Hin as [Hin|Hin].
      + eapply Forall_forall in Hev; [|apply list_elem_of_In; exact Hin].
        cbn in Hev. lia.
      + apply events_update in Hin as (_ & _ & Hval).
        unfold validates_at in Hval. apply andb_prop in Hval as [_ Hval].
        now destruct (skipped_at w fts i).
    - intros r Hin. apply in_app_or in Hin as [Hin|Hin].
      + eapply Forall_forall in Hev; [|apply list_elem_of_In; exact Hin].
        cbn in Hev. lia.
      + eapply events_patience; eauto.
    - rewrite Hsk_rf. intros Hs.
      rewrite validated_app, (validated_below _ i) by (auto; lia).
      rewrite events_validated. unfold validates_at. rewrite Hs.
      cbn. rewrite andb_false_r. reflexivity.
    - change (StepResults.validation_loss rf) with (fst vs). rewrite V5.
      unfold last_validation. rewrite validations_upto_app, events_validations.
      rewrite Z.leb_refl, andb_true_r.
      destruct (validates_at w fts i).
      + rewrite last_snoc. reflexivity.
      + rewrite app_nil_r.
        rewrite (validations_upto_below _ i i) by (auto; lia).
        destruct HD as [_ _ _ D4].
        assert (Hp : heap s !! pred k = Some (nth (pred k) (heap s) blank)).
        { destruct (heap s !! pred k) eqn:E.
          - f_equal. symmetry. eapply nth_lookup_Some. exact E.
          - apply lookup_ge_None in E. lia. }
        rewrite app_nth1 by lia.
        rewrite (D4 _ _ Hp). unfold last_validation. do 2 f_equal. lia. }
  split.
  - lia.
  - cbn. rewrite V2, Hrefs.
    replace (Z.to_nat (i + 1)) with (S k) by lia.
    rewrite seq_S, Hheap. reflexivity.
  - rewrite Hheap4, length_app, HlenH'. cbn. lia.
  - cbn. rewrite V4. rewrite !Forall_app. split; [split|].
    + eapply Forall_impl; [exact Hev|]. cbn. intros; lia.
    + eapply Forall_impl; [apply events_step|]. cbn. intros; lia.
    + repeat constructor. cbn. lia.
  - rewrite Hheap4. cbn [skipped_steps after_track]. fold s3.
    change (skipped_steps s3) with (skipped_steps (snd vs)). rewrite V3, Hsk.
    replace (i + 1 - 1) with i by lia.
    rewrite skipped_count_snoc_all by lia.
    rewrite HcH', Hsk_rf. f_equal.
    rewrite !skipped_count_all by lia. reflexivity.
  - rewrite Hheap4. cbn [trace after_track]. fold s3.
    change (trace s3) with (trace (snd vs)). rewrite V4.
    apply Done_extend; [exact HD4| | | |].
    + reflexivity.
    + reflexivity.
    + cbn. intros; intuition congruence.
    + cbn. intros i' r [Hin|[]] Hi'. injection Hin as <- <-.
      unfold round_of. change (skipped_steps s3) with (skipped_steps (snd vs)).
      rewrite V3, Hsk. do 2 f_equal.
      rewrite skipped_count_snoc_all by lia.
      rewrite HcH', Hsk_rf. f_equal.
      rewrite !skipped_count_all by lia. reflexivity.
Qed.

End Invariants.

(** ** From the entry point to the loop *)

Section Run.

Context `{X : Externals}.
Variables (w : World) (a : Args).

(** The index-0 record. *)
Definition initial_record (es : AdaptiveES) : StepResults.t :=
  StepResults.mk PyFloat.zero
    (if is_gpu (device a) then PyInt (cuda_utilization w 0)
     else PyFlt PyFloat.zero)
    false false (PyInt (-1))
    (Some 0) (Some (initial_validation_loss w))
    (Some (initial_validation_loss w))
    (Some (convert_error_to_score (initial_validation_loss w)))
    (Some (AdaptiveES_remaining_patience es 0))
    (Some (PyInt (time_limit a))).

(** The state in which the loop is entered. *)
Definition initial_state (fts : FineTuneSetup) : Loop :=
  let es := fst (AdaptiveES_update (adaptive_es_setup fts) 0 true) in
  mkLoop [initial_record es] [0%nat] (initial_validation_loss w)
    false false 0 es [] (Some 0)
    [Validate 0 (initial_validation_loss w); EsUpdate 0 0 true;
     RemainingPatience 0 0; TorchSave 0 (initial_validation_loss w)].

Lemma training_run (fts : FineTuneSetup) :
  training w a fts (boot fts) =
  match check_model_for_validation a with
  | Raise e => (Raise e, boot fts)
  | Return _ =>
      for_loop w a fts (accumulation fts) 1 (data_loader w) (initial_state fts)
  end.
Proof.
  unfold training, setup, initial_state, initial_record.
  destruct (check_model_for_validation a) as [[]|e]; [|reflexivity].
  run_m. destruct (AdaptiveES_update _ _ _) as [es stop]. reflexivity.
Qed.

Lemma run_state :
  snd (run w a) =
  snd (training w a (_setup_tuning (config a)) (boot (_setup_tuning (config a)))).
Proof.
  unfold run, fine_tune_tabpfn, bind.
  destruct (training _ _ _ _) as [[[]|e] s]; reflexivity.
Qed.

Lemma initial_Head (fts : FineTuneSetup) : Head fts 1 (initial_state fts).
Proof.
  split; cbn; try reflexivity; try lia.
  - repeat constructor; cbn; lia.
  - split; cbn.
    + intros [|[|j]] r; cbn; try discriminate. intros [= <-]. discriminate.
    + intros i r b [H|[H|[H|[H|[]]]]]; inversion H; subst; lia.
    + intros i r [H|[H|[H|[H|[]]]]]; inversion H; subst; lia.
    + intros [|[|j]] r; cbn; try discriminate. intros [= <-]. reflexivity.
Qed.

Lemma for_loop_Done (fts : FineTuneSetup) (gas : option Z)
    (bs : list Batch) (i : Z) (s : Loop) :
  Head fts i s ->
  let s' := snd (for_loop w a fts gas i bs s) in
  Done fts (ledger s') (trace s').
Proof.
  revert i s. induction bs as [|b bs IH]; intros i s H; cbn.
  - rewrite (ledger_head s (Z.to_nat i)) by apply H. apply H.
  - unfold bind. pose proof (loop_body_Head w a fts gas i b s H) as Hb.
    destruct (loop_body w a fts gas i b s) as [[[]|e] s1]; cbn.
    + rewrite (ledger_head s1 (Z.to_nat (i + 1))) by apply Hb. apply Hb.
    + apply IH. exact Hb.
    + exact Hb.
Qed.

Lemma run_Done :
  let s := snd (run w a) in
  Done (_setup_tuning (config a)) (ledger s) (trace s).
Proof.
  cbv zeta. rewrite run_state, training_run.
  destruct (check_model_for_validation a) as [[]|e].
  - apply for_loop_Done. apply initial_Head.
  - cbn. split; cbn; intros; try discriminate; contradiction.
Qed.

End Run.

(** ** The sequence of checkpoint writes *)

Lemma saves_app (t1 t2 : list Event) : saves (t1 ++ t2) = saves t1 ++ saves t2.
Proof. unfold saves. apply omap_app. Qed.

Lemma descending_snoc (l : list float) (x y : float) :
  descending l -> last l = Some x -> PyFloat.ltb y x = true ->
  descending (l ++ [y]).
Proof.
  intros Hd Hl Hlt k u v Hu Hv.
  destruct (decide (S k < length l)%nat) as [Hk|Hk].
  - rewrite lookup_app_l in Hu, Hv by lia. eauto.
  - assert (Hk' : S k = length l).
    { apply lookup_lt_Some in Hv. rewrite length_app in Hv. cbn in Hv. lia. }
    rewrite lookup_app_l in Hu by lia.
    rewrite lookup_app_r in Hv by lia.
    replace (S k - length l)%nat with 0%nat in Hv by lia.
    injection Hv as <-.
    rewrite last_lookup in Hl. replace (pred (length l)) with k in Hl by lia.
    congruence.
Qed.

(** [<] on floats is transitive (a NaN is below and above nothing). *)
Lemma ltb_trans (x y z : float) :
  PyFloat.ltb x y = true -> PyFloat.ltb y z = true -> PyFloat.ltb x z = true.
Proof.
  unfold PyFloat.ltb, SFltb.
  destruct x as [sx|sx| |sx mx ex], y as [sy|sy| |sy my ey],
           z as [sz|sz| |sz mz ez]; cbn;
    repeat match goal with s : bool |- _ => destruct s end;
    cbn; try congruence.
  all: destruct (Z.compare_spec ex ey), (Z.compare_spec ey ez);
    try discriminate; subst.
  all: try (rewrite Z.compare_refl).
  all: repeat match goal with
         | H : (?u < ?v)%Z |- context [?u ?= ?v] =>
             rewrite (proj2 (Z.compare_lt_iff u v) H)
         | H : (?u < ?v)%Z |- context [?v ?= ?u] =>
             rewrite (proj2 (Z.compare_gt_iff v u) H)
         end; try reflexivity; try discriminate.
  all: try (assert (Hlt : ex < ez) by lia;
            rewrite ?(proj2 (Z.compare_lt_iff ex ez) Hlt),
                    ?(proj2 (Z.compare_gt_iff ez ex) Hlt); intros; reflexivity).
  all: try (assert (Hlt : ez < ex) by lia;
            rewrite ?(proj2 (Z.compare_lt_iff ez ex) Hlt),
                    ?(proj2 (Z.compare_gt_iff ex ez) Hlt); intros; reflexivity).
  all: change (Pos.compare_cont Eq ?p ?q) with (Pos.compare p q).
  all: destruct (Pos.compare_spec mx my), (Pos.compare_spec my mz);
    cbn; try discriminate; intros _ _.
  all: try (rewrite (proj2 (Pos.compare_lt_iff mx mz)) by lia; reflexivity).
  all: try (rewrite (proj2 (Pos.compare_gt_iff mx mz)) by lia; reflexivity).
Qed.

(** In a descending list every element is below all the earlier ones. *)
Lemma descending_pairwise (l : list float) :
  descending l ->
  forall (j k : nat) (x y : float),
    (j < k)%nat -> l !! j = Some x -> l !! k = Some y ->
    PyFloat.ltb y x = true.
Proof.
  intros Hd j k. revert j.
  induction k as [|k IH]; intros j x y Hjk Hx Hy; [lia|].
  destruct (decide (j = k)) as [->|Hne]; [eauto|].
  destruct (l !! k) as [u|] eqn:Hu.
  - apply (ltb_trans y u x); [eapply Hd; eauto|].
    apply (IH j x u); [lia|exact Hx|reflexivity].
  - apply lookup_ge_None in Hu. apply lookup_lt_Some in Hy. lia.
Qed.

Section Saves.

Context `{X : Externals}.
Variables (w : World) (a : Args) (fts : FineTuneSetup) (gas : option Z).

(** The writes so far: the baseline first, then strictly improving
    validation losses, the last of which is the best loss known. *)
Record Saved (best : float) (t : list Event) : Prop := {
  saved_first :
    exists rest, saves t = (0, initial_validation_loss w) :: rest
      /\ Forall (fun p => 1 <= fst p /\ In (Validate (fst p) (snd p)) t) rest;
  saved_desc : descending (snd <$> saves t);
  saved_last : last (snd <$> saves t) = Some best
}.

Lemma Saved_weaken (best : float) (t E : list Event) :
  saves E = [] -> Saved best t -> Saved best (t ++ E).
Proof.
  intros HE [(rest & H1 & H2) H3 H4].
  split; rewrite saves_app, HE, app_nil_r; auto.
  exists rest. split; [exact H1|].
  eapply Forall_impl; [exact H2|]. cbn. intros p [Hp Hin]. split; [exact Hp|].
  apply in_or_app. auto.
Qed.

Lemma saves_events (i : Z) (b : Batch) (s : Loop) :
  saves (events_to_validation w fts gas i b s) =
  if validates_at w fts i && is_best_at w i s
  then [(i, validation_loss_at w i)] else [].
Proof.
  unfold events_to_validation, step_events.
  destruct (update_at fts i), (skipped_at w fts i), (validates_at w fts i),
    (is_best_at w i s); reflexivity.
Qed.

Lemma Saved_events (i : Z) (b : Batch) (s : Loop) :
  1 <= i ->
  Saved (best_validation_loss s) (trace s) ->
  Saved (if validates_at w fts i && is_best_at w i s
         then validation_loss_at w i else best_validation_loss s)
        (trace s ++ events_to_validation w fts gas i b s).
Proof.
  intros Hi HS.
  destruct (validates_at w fts i && is_best_at w i s) eqn:E.
  2: { apply Saved_weaken; [|exact HS]. rewrite saves_events, E. reflexivity. }
  destruct HS as [(rest & H1 & H2) H3 H4].
  apply andb_prop in E as [Ev Eb].
  assert (HE : saves (events_to_validation w fts gas i b s)
               = [(i, validation_loss_at w i)])
    by (rewrite saves_events, Ev, Eb; reflexivity).
  assert (Hin : In (Validate i (validation_loss_at w i))
                   (trace s ++ events_to_validation w fts gas i b s)).
  { apply in_or_app. right. unfold events_to_validation. rewrite Ev.
    apply in_or_app. right. apply in_or_app. right. cbn. auto. }
  split; rewrite saves_app, HE.
  - exists (rest ++ [(i, validation_loss_at w i)]). split.
    + rewrite H1. reflexivity.
    + apply Forall_app. split.
      * eapply Forall_impl; [exact H2|]. cbn. intros p [Hp Hq].
        split; [exact Hp|]. apply in_or_app. auto.
      * repeat constructor; cbn; [lia|exact Hin].
  - rewrite fmap_app. cbn. eapply descending_snoc; eauto.
  - rewrite fmap_app. cbn. apply last_snoc.
Qed.

Lemma validation_phase_state (i : Z) (b : Batch) (tl : float) (prev : loc)
    (s : Loop) :
  let vs := validation_phase w fts i prev (after_skip w a fts gas i b tl s) in
  best_validation_loss (snd vs)
  = (if validates_at w fts i && is_best_at w i s
     then validation_loss_at w i else best_validation_loss s)
  /\ checkpoint (snd vs)
     = (if validates_at w fts i && is_best_at w i s
        then Some i else checkpoint s)
  /\ grad (snd vs) = grad_after w fts gas i b (grad s)
  /\ early_stop_no_time (snd vs) = early_stop_no_time s.
Proof.
  unfold validation_phase, validates_at, after_validation, is_best_at,
    after_skip.
  destruct (cadence_at fts i), (skipped_at w fts i); cbn; auto.
Qed.

Lemma loop_body_Saved (i : Z) (b : Batch) (s : Loop) :
  Head fts i s ->
  Saved (best_validation_loss s) (trace s) ->
  let s' := snd (loop_body w a fts gas i b s) in
  Saved (best_validation_loss s') (trace s').
Proof.
  intros [Hpos Hrefs Hheap Hev Hsk HD] HS.
  set (k := Z.to_nat i) in *.
  assert (Hk : (1 <= k)%nat) by lia.
  destruct (Z.eq_dec (update_every_n_steps fts) 0) as [Hn|Hn];
    [|destruct (Z.eq_dec (validate_every_n_steps fts) 0) as [Hv|Hv]].
  1,2: rewrite loop_body_raise by auto; exact HS.
  rewrite (loop_body_run w a fts gas i b s (pred k) 0%nat Hn Hv).
  2: { rewrite Hrefs. destruct k; [lia|]. rewrite seq_S, last_snoc. reflexivity. }
  2: { rewrite Hrefs. apply lookup_seq_lt. lia. }
  destruct (division w gas i b) as [dl|e]; [|exact HS].
  destruct (reported_loss w gas i b) as [tl|e].
  2: { cbn. apply Saved_weaken; [|exact HS].
       unfold step_events. destruct (update_at fts i); reflexivity. }
  destruct (validation_phase_facts w a fts gas i b tl (pred k) s)
    as (V1 & V2 & V3 & V4 & V5).
  destruct (validation_phase_state i b tl (pred k) s) as (B1 & _).
  cbv zeta.
  set (vs := validation_phase w fts i (pred k) (after_skip w a fts gas i b tl s)) in *.
  clearbody vs.
  assert (HS3 : Saved (best_validation_loss (snd vs)) (trace (snd vs))).
  { rewrite B1, V4. apply Saved_events; assumption. }
  destruct (time_check w a i) as [[time_left no_time]|e]; [|exact HS3].
  cbn. apply Saved_weaken; [reflexivity|exact HS3].
Qed.

Lemma for_loop_Saved (bs : list Batch) (i : Z) (s : Loop) :
  Head fts i s ->
  Saved (best_validation_loss s) (trace s) ->
  let s' := snd (for_loop w a fts gas i bs s) in
  Saved (best_validation_loss s') (trace s').
Proof.
  revert i s. induction bs as [|b bs IH]; intros i s H HS; cbn; [exact HS|].
  unfold bind. pose proof (loop_body_Head w a fts gas i b s H) as Hb.
  pose proof (loop_body_Saved i b s H HS) as Hs. cbv zeta in Hs.
  destruct (loop_body w a fts gas i b s) as [[[]|e] s1]; cbn in *; auto.
Qed.

End Saves.

Lemma initial_Saved `{X : Externals} (w : World) (a : Args) (fts : FineTuneSetup) :
  Saved w (best_validation_loss (initial_state w a fts))
        (trace (initial_state w a fts)).
Proof.
  split; cbn.
  - exists []. split; [reflexivity|constructor].
  - intros [|k] x y; cbn; discriminate.
  - reflexivity.
Qed.

(** ** Gradient accumulation windows *)

Lemma window_closes (n i : Z) :
  1 <= n -> 0 <= i -> (i + 1) mod n = 0 -> i / n * n = i + 1 - n.
Proof.
  intros Hn Hi Hm.
  pose proof (Z.div_mod (i + 1) n ltac:(lia)) as E. rewrite Hm in E.
  assert (Hq : i / n = (i + 1) / n - 1).
  { symmetry. apply (Z.div_unique i n _ (n - 1)); lia. }
  rewrite Hq. lia.
Qed.

Lemma window_stays (n i : Z) :
  1 <= n -> 0 <= i -> (i + 1) mod n <> 0 -> (i + 1) / n = i / n.
Proof.
  intros Hn Hi Hm.
  pose proof (Z.div_mod (i + 1) n ltac:(lia)) as E.
  pose proof (Z.mod_pos_bound (i + 1) n ltac:(lia)) as B.
  apply (Z.div_unique i n _ ((i + 1) mod n - 1)); lia.
Qed.

Lemma window_opens (n i : Z) :
  1 <= n -> (i + 1) mod n = 0 -> (i + 1) / n * n = i + 1.
Proof.
  intros Hn Hm.
  pose proof (Z.div_mod (i + 1) n ltac:(lia)) as E. rewrite Hm in E. lia.
Qed.

Section Accumulation.

Context `{X : Externals}.
Variables (w : World) (a : Args) (fts : FineTuneSetup) (gas : option Z).

(** The entry of the gradient buffers that step [fst p] leaves: the
    loss of that step's batch, scaled as [_fine_tune_step] scales it. *)
Definition loss_ok (p : Z * spec_float) : Prop :=
  exists b, data_loader w !! Z.to_nat (fst p - 1) = Some b
            /\ division w gas (fst p) b = Return (snd p).

(** The first step of the accumulation window that step [i] is in. *)
Definition window (i : Z) : Z :=
  Z.max 1 (i / update_every_n_steps fts * update_every_n_steps fts).

(** Every optimizer step in the trace closes a full window, except
    the first one, whose window starts at step 1. *)
Record Updates (t : list Event) : Prop := {
  updates_window :
    forall i g sk, In (OptimizerStep i g sk) t ->
      1 <= i
      /\ (i + 1) mod update_every_n_steps fts = 0
      /\ fst <$> g = seqZ (Z.max 1 (i + 1 - update_every_n_steps fts))
                          (Z.min i (update_every_n_steps fts))
      /\ Forall loss_ok g;
  updates_fire :
    forall i l, In (Backward i l) t ->
      (i + 1) mod update_every_n_steps fts = 0 ->
      exists g sk, In (OptimizerStep i g sk) t
}.

Record Buffers (i : Z) (s : Loop) : Prop := {
  buffers_steps : fst <$> grad s = seqZ (window i) (i - window i);
  buffers_loss : Forall loss_ok (grad s);
  buffers_updates : Updates (trace s)
}.

Lemma Updates_weaken (t E : list Event) :
  (forall i g sk, ~ In (OptimizerStep i g sk) E) ->
  (forall i l, ~ In (Backward i l) E) ->
  Updates t -> Updates (t ++ E).
Proof.
  intros H1 H2 [U1 U2]. split.
  - intros i g sk Hin. apply in_app_or in Hin as [Hin|Hin]; eauto.
    exfalso. eapply H1; eauto.
  - intros i l Hin Hm. apply in_app_or in Hin as [Hin|Hin].
    + destruct (U2 i l Hin Hm) as (g & sk & Hg). exists g, sk.
      apply in_or_app. auto.
    + exfalso. eapply H2; eauto.
Qed.

Hypothesis Hn : 1 <= update_every_n_steps fts.

Lemma Updates_step (i : Z) (b : Batch) (s : Loop) (dl : spec_float) :
  1 <= i ->
  data_loader w !! Z.to_nat (i - 1) = Some b ->
  division w gas i b = Return dl ->
  Buffers i s ->
  Updates (trace s ++ step_events w fts gas i b (grad s))
  /\ fst <$> grad_after w fts gas i b (grad s)
     = seqZ (window (i + 1)) (i + 1 - window (i + 1))
  /\ Forall loss_ok (grad_after w fts gas i b (grad s)).
Proof.
  intros Hi Hb Hd [B1 B2 [U1 U2]].
  assert (Hw : window i <= i).
  { unfold window.
    assert (Hp : 0 < update_every_n_steps fts) by lia.
    pose proof (Z.mul_div_le i _ Hp). lia. }
  assert (Hg : fst <$> (grad s ++ [(i, scaled_loss w gas i b)])
               = seqZ (window i) (i - window i + 1)).
  { rewrite fmap_app, B1, (seqZ_app _ (i - window i) 1) by lia.
    f_equal. rewrite (seqZ_cons _ 1) by lia. rewrite seqZ_nil by lia.
    cbn. f_equal. lia. }
  assert (Hl : Forall loss_ok (grad s ++ [(i, scaled_loss w gas i b)])).
  { apply Forall_app. split; [exact B2|].
    repeat constructor. exists b. split; [exact Hb|].
    cbn [fst snd]. rewrite (division_scaled_loss w gas i b dl Hd). exact Hd. }
  unfold step_events, grad_after, update_at.
  destruct ((i + 1) mod update_every_n_steps fts =? 0) eqn:E.
  - apply Z.eqb_eq in E. split; [|split].
    + split.
      * intros i' g sk Hin. apply in_app_or in Hin as [Hin|Hin]; [eauto|].
        destruct Hin as [Hin|[Hin|[]]]; [discriminate|].
        injection Hin as <- <- <-.
        split; [exact Hi|]. split; [exact E|]. split; [|exact Hl].
        rewrite Hg. unfold window.
        rewrite (window_closes _ i) by (auto; lia).
        f_equal; lia.
      * intros i' l Hin Hm. apply in_app_or in Hin as [Hin|Hin].
        -- destruct (U2 i' l Hin Hm) as (g & sk & Hg'). exists g, sk.
           apply in_or_app. auto.
        -- destruct Hin as [Hin|[Hin|[]]]; [|discriminate].
           injection Hin as <- <-. eexists _, _.
           apply in_or_app. right. right. left. reflexivity.
    + unfold window. rewrite (window_opens _ i) by auto.
      rewrite seqZ_nil by lia. reflexivity.
    + constructor.
  - apply Z.eqb_neq in E. split; [|split].
    + split.
      * intros i' g sk Hin. apply in_app_or in Hin as [Hin|Hin]; [eauto|].
        destruct Hin as [Hin|[]]. discriminate.
      * intros i' l Hin Hm. apply in_app_or in Hin as [Hin|Hin].
        -- destruct (U2 i' l Hin Hm) as (g & sk & Hg'). exists g, sk.
           apply in_or_app. auto.
        -- destruct Hin as [Hin|[]]. injection Hin as <- <-. contradiction.
    + rewrite Hg. unfold window.
      rewrite (window_stays _ i) by (auto; lia).
      f_equal. lia.
    + exact Hl.
Qed.

Lemma Updates_to_validation (i : Z) (b : Batch) (s : Loop) :
  Updates (trace s ++ step_events w fts gas i b (grad s)) ->
  Updates (trace s ++ events_to_validation w fts gas i b s).
Proof.
  intros HU. unfold events_to_validation. rewrite app_assoc.
  apply Updates_weaken; [| |exact HU];
    destruct (skipped_at w fts i), (validates_at w fts i), (is_best_at w i s);
    cbn; intros; intuition congruence.
Qed.

Lemma loop_body_Buffers (i : Z) (b : Batch) (s : Loop) :
  Head fts i s ->
  data_loader w !! Z.to_nat (i - 1) = Some b ->
  Buffers i s ->
  match loop_body w a fts gas i b s with
  | (Return _, s') => Buffers (i + 1) s'
  | (Raise _, s') => Updates (trace s')
  end.
Proof.
  intros [Hpos Hrefs Hheap Hev Hsk HD] Hb HB.
  set (k := Z.to_nat i) in *.
  assert (Hk : (1 <= k)%nat) by lia.
  destruct (Z.eq_dec (update_every_n_steps fts) 0) as [Hz|Hz]; [lia|].
  destruct (Z.eq_dec (validate_every_n_steps fts) 0) as [Hv|Hv].
  { rewrite loop_body_raise by auto. apply HB. }
  rewrite (loop_body_run w a fts gas i b s (pred k) 0%nat Hz Hv).
  2: { rewrite Hrefs. destruct k; [lia|]. rewrite seq_S, last_snoc. reflexivity. }
  2: { rewrite Hrefs. apply lookup_seq_lt. lia. }
  destruct (division w gas i b) as [dl|e] eqn:Ediv; [|apply HB].
  destruct (Updates_step i b s dl Hpos Hb Ediv HB) as (U & G1 & G2).
  destruct (reported_loss w gas i b) as [tl|e]; [|exact U].
  destruct (validation_phase_facts w a fts gas i b tl (pred k) s)
    as (V1 & V2 & V3 & V4 & V5).
  destruct (validation_phase_state w a fts gas i b tl (pred k) s)
    as (_ & _ & B3 & _).
  cbv zeta.
  set (vs := validation_phase w fts i (pred k) (after_skip w a fts gas i b tl s)) in *.
  clearbody vs.
  apply Updates_to_validation in U.
  destruct (time_check w a i) as [[time_left no_time]|e].
  2: { rewrite V4. exact U. }
  split; cbn.
  - rewrite B3. exact G1.
  - rewrite B3. exact G2.
  - rewrite V4. apply Updates_weaken; [| |exact U]; cbn; intros; intuition congruence.
Qed.

Lemma for_loop_Updates (bs : list Batch) (i : Z) (s : Loop) :
  Head fts i s ->
  (forall (k : nat) b, bs !! k = Some b ->
                       data_loader w !! (Z.to_nat (i - 1) + k)%nat = Some b) ->
  Buffers i s ->
  Updates (trace (snd (for_loop w a fts gas i bs s))).
Proof.
  revert i s. induction bs as [|b bs IH]; intros i s H Hbs HB; cbn.
  - apply HB.
  - unfold bind. pose proof (loop_body_Head w a fts gas i b s H) as Hh.
    assert (Hb : data_loader w !! Z.to_nat (i - 1) = Some b).
    { rewrite <- (Hbs 0%nat b eq_refl). f_equal. lia. }
    pose proof (loop_body_Buffers i b s H Hb HB) as Hg.
    destruct (loop_body w a fts gas i b s) as [[[]|e] s1]; cbn.
    + apply Hg.
    + apply IH; [exact Hh| |exact Hg]. intros k b' Hk.
      rewrite <- (Hbs (S k) b' Hk). f_equal.
      destruct H as [Hpos _ _ _ _ _]. lia.
    + exact Hg.
Qed.

End Accumulation.

Lemma run_Updates `{X : Externals} (w : World) (a : Args) :
  let fts := _setup_tuning (config a) in
  1 <= update_every_n_steps fts ->
  Updates w fts (accumulation fts) (trace (snd (run w a))).
Proof.
  intros fts Hn. rewrite run_state, training_run.
  destruct (check_model_for_validation a) as [[]|e].
  - apply for_loop_Updates;
      [exact Hn|apply initial_Head|intros k b Hk; exact Hk|].
    split; cbn.
    + unfold window.
      assert (Hp : 0 < update_every_n_steps (_setup_tuning (config a)))
        by (subst fts; lia).
      pose proof (Z.mul_div_le 1 _ Hp).
      rewrite seqZ_nil by lia. reflexivity.
    + constructor.
    + split; cbn; intros; intuition congruence.
  - split; cbn; intros; contradiction.
Qed.

(** ** What a pass through the loop does to the records already there *)

Section Frame.

Context `{X : Externals}.
Variables (w : World) (a : Args) (fts : FineTuneSetup) (gas : option Z).

(** The ledger holds references to distinct, allocated objects. *)
Definition well_formed (s : Loop) : Prop :=
  NoDup (step_results_over_time s)
  /\ Forall (fun l => (l < length (heap s))%nat) (step_results_over_time s).

(** The pass through the body from any state, case by case. *)
Lemma loop_body_cases (i : Z) (b : Batch) (s : Loop) :
  update_every_n_steps fts <> 0 ->
  validate_every_n_steps fts <> 0 ->
  loop_body w a fts gas i b s =
  match division w gas i b with
  | Raise e => (Raise e, s)
  | Return _ =>
  match reported_loss w gas i b with
  | Raise e => (Raise e, after_step w fts gas i b s)
  | Return tl =>
      let s2 := after_skip w a fts gas i b tl s in
      match
        (if validates_at w fts i
         then Some (Some (validation_loss_at w i), after_validation w fts i s2)
         else match last (step_results_over_time s) with
              | Some prev =>
                  Some (StepResults.validation_loss (deref s2 prev),
                        set_early_stop_no_imp false s2)
              | None => None
              end)
      with
      | None => (Raise IndexError, s2)
      | Some vs =>
          match time_check w a i with
          | Raise e => (Raise e, snd vs)
          | Return (time_left, no_time) =>
              (Return (early_stop_no_imp (snd vs) || no_time),
               after_track fts i (length (heap s))
                 (default (length (heap s)) (step_results_over_time s !! 0%nat))
                 (fst vs) time_left
                 (set_early_stop_no_time no_time (snd vs)))
          end
      end
  end
  end.
Proof.
  intros Hn Hv. unfold loop_body.
  unfold bind at 1, lift. rewrite (cadence_run fts i Hn Hv).
  unfold bind at 1. rewrite fine_tune_step_run.
  destruct (division w gas i b) as [dl|e]; [|reflexivity].
  destruct (reported_loss w gas i b) as [tl|e]; [|reflexivity].
  unfold bind at 1. rewrite handle_skip_run.
  fold (validates_at w fts i). cbv zeta.
  assert (Hf : forall s3 : Loop,
             step_results_over_time s3 = step_results_over_time s ->
             (step_results_over_time s3 ++ [length (heap s)]) !! 0%nat
             = Some (default (length (heap s))
                             (step_results_over_time s !! 0%nat))).
  { intros s3 ->. destruct (step_results_over_time s); reflexivity. }
  destruct (validates_at w fts i).
  - unfold bind at 1. rewrite (validate_and_save_run _ _ _ _ Hn).
    unfold bind at 1, lift.
    destruct (time_check w a i) as [[time_left no_time]|e]; [|reflexivity].
    unfold bind at 1, modify. unfold bind at 1.
    erewrite track_progress_run; [reflexivity|exact Hn|].
    apply Hf. reflexivity.
  - destruct (last (step_results_over_time s)) as [prev|] eqn:El.
    + unfold bind at 1. rewrite (carry_forward_run _ prev) by exact El.
      unfold bind at 1, lift.
      destruct (time_check w a i) as [[time_left no_time]|e]; [|reflexivity].
      unfold bind at 1, modify. unfold bind at 1.
      erewrite track_progress_run; [reflexivity|exact Hn|].
      apply Hf. reflexivity.
    + unfold bind at 1. unfold carry_forward, ledger_last. unfold bind at 1.
      cbn. rewrite El. reflexivity.
Qed.

Lemma set_training_loss_same (r : StepResults.t) :
  StepResults.set_training_loss (StepResults.training_loss r) r = r.
Proof. destruct r; reflexivity. Qed.

Lemma views_extend (H : list StepResults.t) (refs : list loc)
    (r : StepResults.t) :
  Forall (fun l => (l < length H)%nat) refs ->
  (fun p => nth p (H ++ [r]) blank) <$> refs
  = (fun p => nth p H blank) <$> refs.
Proof.
  intros Hb. apply list_fmap_ext. intros j p Hp.
  eapply Forall_lookup_1 in Hb; [|exact Hp]. cbn in Hb.
  apply app_nth1. exact Hb.
Qed.

Lemma views_backfill (H : list StepResults.t) (refs : list loc)
    (g : StepResults.t -> StepResults.t) (first : loc) :
  NoDup refs ->
  Forall (fun l => (l < length H)%nat) refs ->
  refs !! 0%nat = Some first ->
  (fun p => nth p (alter g first H) blank) <$> refs
  = alter g 0%nat ((fun p => nth p H blank) <$> refs).
Proof.
  unfold loc in *. intros Hnd Hb Hf. apply list_eq. intros j.
  rewrite list_lookup_alter, !list_lookup_fmap.
  destruct (decide (0%nat = j)) as [<-|Hne].
  - rewrite Hf. cbn. f_equal.
    eapply Forall_lookup_1 in Hb as Hlt; [|exact Hf]. cbn in Hlt.
    rewrite !nth_lookup, list_lookup_alter.
    destruct (decide (first = first)); [|congruence].
    destruct (H !! first) eqn:E; [reflexivity|].
    apply lookup_ge_None in E. lia.
  - destruct (refs !! j) as [p|] eqn:Hp; rewrite ?Hp; cbn; [|reflexivity].
    f_equal. rewrite !nth_lookup, list_lookup_alter.
    destruct (decide (first = p)) as [->|]; [|reflexivity].
    exfalso. apply Hne. eapply NoDup_lookup; eauto.
Qed.

(** One pass either leaves the ledger as it is, or appends one record
    and, on step 1 only, copies that record's training loss into the
    record at index 0. *)
Lemma loop_body_frame (i : Z) (b : Batch) (s : Loop) :
  well_formed s ->
  let res := loop_body w a fts gas i b s in
  well_formed (snd res)
  /\ ((ledger (snd res) = ledger s /\ exists e, fst res = Raise e)
      \/ exists rf,
          ledger (snd res)
          = (if i =? 1
             then alter (StepResults.set_training_loss
                           (StepResults.training_loss rf)) 0%nat (ledger s)
             else ledger s) ++ [rf]).
Proof.
  intros [Hnd Hb]. cbv zeta.
  destruct (Z.eq_dec (update_every_n_steps fts) 0) as [Hn|Hn];
    [|destruct (Z.eq_dec (validate_every_n_steps fts) 0) as [Hv|Hv]].
  1,2: rewrite loop_body_raise by auto; split; [split; auto|left; eauto].
  rewrite (loop_body_cases i b s Hn Hv).
  destruct (division w gas i b) as [dl|e].
  2: { split; [split; auto|left; eauto]. }
  destruct (reported_loss w gas i b) as [tl|e].
  2: { split; [split; auto|left; eauto]. }
  cbv zeta.
  set (s2 := after_skip w a fts gas i b tl s).
  assert (Hwf2 : forall s3 : Loop,
             step_results_over_time s3 = step_results_over_time s ->
             heap s3 = heap s ++ [fresh_record w a fts i tl] ->
             well_formed s3 /\ ledger s3 = ledger s).
  { intros s3 Hr Hh. split; [split|].
    - rewrite Hr. exact Hnd.
    - rewrite Hr, Hh, length_app. eapply Forall_impl; [exact Hb|].
      cbn. intros; lia.
    - unfold ledger, deref. rewrite Hr, Hh. apply views_extend. exact Hb. }
  match goal with
  | |- context [match ?c with Some _ => _ | None => _ end] =>
      assert (Hvs : match c with
                    | Some vs =>
                        step_results_over_time (snd vs) = step_results_over_time s
                        /\ heap (snd vs) = heap s ++ [fresh_record w a fts i tl]
                    | None => True
                    end);
      [|destruct c as [vs|]]
  end.
  { destruct (validates_at w fts i); [cbn; auto|].
    destruct (last (step_results_over_time s)); cbn; auto. }
  2: { destruct (Hwf2 s2) as [? ?]; [reflexivity|reflexivity|].
       split; [assumption|left; eauto]. }
  destruct Hvs as [Hr3 Hh3].
  destruct (time_check w a i) as [[time_left no_time]|e].
  2: { destruct (Hwf2 (snd vs) Hr3 Hh3) as [? ?].
       split; [assumption|left; eauto]. }
  set (s3 := set_early_stop_no_time no_time (snd vs)).
  set (fr := fresh_record w a fts i tl) in *.
  set (l := length (heap s)).
  destruct (step_results_over_time s) as [|first rest] eqn:Er.
  - (* an empty ledger *)
    change (default l ((@nil loc) !! 0%nat)) with l. cbn [fst snd].
    set (rf := final_record fts i (fst vs) time_left s3 fr).
    assert (Hh4 : heap (after_track fts i l l (fst vs) time_left s3)
                  = heap s ++ [rf]).
    { cbn. unfold tracked_heap. change (heap s3) with (heap (snd vs)).
      rewrite Hh3. unfold l.
      rewrite alter_app_r_alt, Nat.sub_diag by lia.
      change (alter (final_record fts i (fst vs) time_left s3) 0%nat [fr])
        with [rf].
      rewrite nth_middle. destruct (i =? 1); [|reflexivity].
      rewrite alter_app_r_alt, Nat.sub_diag by lia. reflexivity. }
    assert (Hr4 : step_results_over_time (after_track fts i l l (fst vs) time_left s3)
                  = [l]).
    { cbn. change (step_results_over_time s3) with (step_results_over_time (snd vs)).
      rewrite Hr3. reflexivity. }
    split; [split|right; exists rf].
    + rewrite Hr4. apply NoDup_singleton.
    + rewrite Hr4, Hh4, length_app. repeat constructor. cbn. lia.
    + unfold ledger, deref. rewrite Hr4, Hh4, Er. cbn.
      unfold l. rewrite nth_middle. destruct (i =? 1); reflexivity.
  - (* the ledger has a first record *)
    change (default l ((first :: rest) !! 0%nat)) with first. cbn [fst snd].
    assert (Hfirst : (first < length (heap s))%nat).
    { apply Forall_cons in Hb as [Hb _]. exact Hb. }
    set (rf := final_record fts i (fst vs) time_left s3 fr).
    assert (Hh4 : heap (after_track fts i l first (fst vs) time_left s3)
                  = (if i =? 1
                     then alter (StepResults.set_training_loss
                                   (StepResults.training_loss fr)) first (heap s)
                     else heap s) ++ [rf]).
    { unfold l. cbn [heap after_track].
      apply tracked_heap_snoc; [exact Hh3|exact Hfirst]. }
    assert (Hr4 : step_results_over_time (after_track fts i l first (fst vs) time_left s3)
                  = (first :: rest) ++ [l]).
    { cbn. change (step_results_over_time s3) with (step_results_over_time (snd vs)).
      rewrite Hr3. reflexivity. }
    split; [split|right; exists rf].
    + rewrite Hr4. apply NoDup_app. split; [exact Hnd|]. split.
      * intros x Hx Hl. apply list_elem_of_singleton in Hl. subst x.
        eapply Forall_forall in Hb; [|exact Hx]. cbn in Hb. unfold l in Hb. lia.
      * apply NoDup_singleton.
    + rewrite Hr4, Hh4, length_app. apply Forall_app. split.
      * eapply Forall_impl; [exact Hb|]. cbn.
        destruct (i =? 1); rewrite ?length_alter; intros; lia.
      * repeat constructor. destruct (i =? 1); rewrite ?length_alter; cbn; lia.
    + unfold ledger, deref. rewrite Hr4, Hh4, Er, fmap_app. f_equal.
      * destruct (i =? 1).
        -- rewrite views_extend
             by (rewrite length_alter; exact Hb).
           apply views_backfill; auto.
        -- apply views_extend. exact Hb.
      * cbn. f_equal. unfold l.
        replace (length (heap s))
          with (length (if i =? 1
                        then alter (StepResults.set_training_loss
                                      (StepResults.training_loss fr)) first (heap s)
                        else heap s))
          by (destruct (i =? 1); rewrite ?length_alter; reflexivity).
        apply nth_middle.
Qed.

Lemma for_loop_stable (bs : list Batch) (i : Z) (s : Loop) :
  well_formed s -> 2 <= i ->
  forall (j : nat) (r : StepResults.t),
    ledger s !! j = Some r ->
    ledger (snd (for_loop w a fts gas i bs s)) !! j = Some r.
Proof.
  revert i s. induction bs as [|b bs IH]; intros i s Hwf Hi j r Hj; cbn; [exact Hj|].
  unfold bind.
  destruct (loop_body_frame i b s Hwf) as [Hwf1 Hl]. cbv zeta in *.
  assert (Hj1 : ledger (snd (loop_body w a fts gas i b s)) !! j = Some r).
  { destruct Hl as [[-> _]|[rf ->]]; [exact Hj|].
    replace (i =? 1) with false by (symmetry; apply Z.eqb_neq; lia).
    apply lookup_app_l_Some. exact Hj. }
  destruct (loop_body w a fts gas i b s) as [[[]|e] s1]; cbn in *; auto.
  apply IH; auto. lia.
Qed.

End Frame.

(** * The claims *)

Lemma validations_upto_succ (t : list Event) (j : Z) :
  validated t (j + 1) = false ->
  validations_upto t (j + 1) = validations_upto t j.
Proof.
  unfold validated, validations_upto.
  induction t as [|e t IH]; [reflexivity|]. cbn.
  intros H. apply orb_false_elim in H as [He Ht]. rewrite (IH Ht).
  destruct e; try reflexivity.
  apply Z.eqb_neq in He.
  destruct (step_i <=? j + 1) eqn:E1, (step_i <=? j) eqn:E2; try reflexivity;
    apply Z.leb_le in E1 || apply Z.leb_gt in E1;
    apply Z.leb_le in E2 || apply Z.leb_gt in E2; lia.
Qed.



(** C3.  A record appended at a step without validation has the
    validation loss of the record before it, and every record has the
    loss of the most recent validation up to its step (the baseline
    validation when there is no later one). *)
Theorem C3_validation_loss_carried_forward `{X : Externals} (w : World) (a : Args) :
  let s := snd (run w a) in
  (forall (j : nat) (r r' : StepResults.t),
      ledger s !! S j = Some r ->
      ledger s !! j = Some r' ->
      validated (trace s) (Z.of_nat (S j)) = false ->
      StepResults.validation_loss r = StepResults.validation_loss r')
  /\ (forall (j : nat) (r : StepResults.t),
         ledger s !! j = Some r ->
         StepResults.validation_loss r = last_validation (trace s) (Z.of_nat j)).
Proof.
  destruct (run_Done w a) as [D1 D2 D3 D4]. cbv zeta. split; [|exact D4].
  intros j r r' Hr Hr' Hv.
  rewrite (D4 _ _ Hr), (D4 _ _ Hr'). unfold last_validation.
  replace (Z.of_nat (S j)) with (Z.of_nat j + 1) in * by lia.
  rewrite validations_upto_succ by exact Hv. reflexivity.
Qed.

(** C4.  The checkpoint file is written first right after the baseline
    validation, with the baseline loss.  Every later write is at a step
    [i >= 1] that validated, with that validation's loss, and the loss
    of each write is strictly smaller than the loss of the write before
    it (hence than the loss of every earlier write), which is the best
    loss known at that point: [best_validation_loss] is always the loss
    of the last write. *)
Theorem C4_saved_losses_descend `{X : Externals} (w : World) (a : Args) :
  let s := snd (run w a) in
  match check_model_for_validation a with
  | Raise _ => saves (trace s) = []
  | Return _ =>
      (exists rest,
          saves (trace s) = (0, initial_validation_loss w) :: rest
          /\ Forall (fun p => 1 <= fst p
                              /\ In (Validate (fst p) (snd p)) (trace s)) rest)
      /\ descending (snd <$> saves (trace s))
      /\ (forall (j k : nat) (x y : float),
             (j < k)%nat ->
             (snd <$> saves (trace s)) !! j = Some x ->
             (snd <$> saves (trace s)) !! k = Some y ->
             PyFloat.ltb y x = true)
      /\ last (snd <$> saves (trace s)) = Some (best_validation_loss s)
  end.
Proof.
  cbv zeta. rewrite run_state, training_run.
  destruct (check_model_for_validation a) as [[]|e]; [|reflexivity].
  destruct (for_loop_Saved w a (_setup_tuning (config a))
              (accumulation (_setup_tuning (config a))) (data_loader w) 1
              (initial_state w a (_setup_tuning (config a)))
              (initial_Head w a _) (initial_Saved w a _)) as [H1 H2 H3].
  split; [exact H1|]. split; [exact H2|]. split; [|exact H3].
  apply descending_pairwise. exact H2.
Qed.

(** The ledger at the end of the loop, record by record: the records
    that were in it are as they were, but for the assignment of line 426
    to the index-0 record when step 1 appends its record. *)
Lemma for_loop_backfill `{X : Externals} (w : World) (a : Args)
    (fts : FineTuneSetup) (gas : option Z) (i : Z) (bs : list Batch) (s : Loop)
    (j : nat) (r : StepResults.t) :
  well_formed s -> 1 <= i ->
  ledger s !! j = Some r ->
  let s' := snd (for_loop w a fts gas i bs s) in
  if (i =? 1) && (j =? 0)%nat
  then match ledger s' !! length (ledger s) with
       | Some r1 =>
           ledger s' !! j
           = Some (StepResults.set_training_loss (StepResults.training_loss r1) r)
       | None => ledger s' !! j = Some r
       end
  else ledger s' !! j = Some r.
Proof.
  intros Hwf Hi Hj. cbv zeta.
  destruct bs as [|b bs]; cbn [for_loop].
  { cbn. rewrite (proj2 (lookup_ge_None (ledger s) (length (ledger s)))) by lia.
    destruct (_ && _); exact Hj. }
  unfold bind.
  destruct (loop_body_frame w a fts gas i b s Hwf) as [Hwf1 Hl]. cbv zeta in *.
  set (res := loop_body w a fts gas i b s) in *.
  assert (Hstable : forall (j' : nat) r',
             ledger (snd res) !! j' = Some r' ->
             ledger (snd (match res with
                          | (Return stop, s1) =>
                              (if stop then ret tt
                               else for_loop w a fts gas (i + 1) bs) s1
                          | (Raise e, s1) => (Raise e, s1)
                          end)) !! j' = Some r').
  { intros j' r' Hr'. destruct res as [[[]|e] s1]; cbn in *; auto.
    apply for_loop_stable; auto. lia. }
  destruct Hl as [[Hsame [e He]]|[rf Hrf]].
  - (* the pass raised: the loop is over and the ledger is as it was *)
    destruct res as [[stop|e'] s1]; cbn in *; [discriminate|].
    rewrite Hsame.
    rewrite (proj2 (lookup_ge_None (ledger s) (length (ledger s)))) by lia.
    destruct (_ && _); exact Hj.
  - assert (Hlen : ledger (snd res) !! length (ledger s) = Some rf).
    { rewrite Hrf. apply list_lookup_middle.
      destruct (i =? 1); rewrite ?length_alter; reflexivity. }
    assert (Hjlt : (j < length (ledger s))%nat) by (eapply lookup_lt_Some; eauto).
    destruct (i =? 1) eqn:Ei; cbn [andb].
    + destruct (j =? 0)%nat eqn:Ej.
      * apply Nat.eqb_eq in Ej. subst j.
        rewrite (Hstable _ _ Hlen). apply Hstable.
        rewrite Hrf, lookup_app_l by (rewrite length_alter; lia).
        rewrite list_lookup_alter. destruct (decide (0%nat = 0%nat)); [|congruence].
        rewrite Hj. reflexivity.
      * apply Nat.eqb_neq in Ej. apply Hstable.
        rewrite Hrf, lookup_app_l by (rewrite length_alter; lia).
        rewrite list_lookup_alter. destruct (decide (0%nat = j)); [lia|].
        exact Hj.
    + apply Hstable. rewrite Hrf. apply lookup_app_l_Some. exact Hj.
Qed.

(** C7.  From any point of the loop on (a state whose ledger refers to
    distinct allocated records, about to run step [i >= 1]), every
    record already in the ledger stays as it is until the loop ends,
    with one exception: when step 1 completes (it appends its record
    [r1]), the record at index 0 has the training loss of [r1] from
    then on, and each of its ten other fields is as it was. *)
Theorem C7_only_backfill_mutates_ledger `{X : Externals} (w : World) (a : Args)
    (fts : FineTuneSetup) (gas : option Z) (i : Z) (bs : list Batch) (s : Loop)
    (j : nat) (r : StepResults.t) :
  well_formed s -> 1 <= i ->
  ledger s !! j = Some r ->
  let s' := snd (for_loop w a fts gas i bs s) in
  if (i =? 1) && (j =? 0)%nat
  then match ledger s' !! length (ledger s) with
       | Some r1 =>
           exists r0',
             ledger s' !! j = Some r0'
             /\ StepResults.training_loss r0' = StepResults.training_loss r1
             /\ StepResults.device_utilization r0' = StepResults.device_utilization r
             /\ StepResults.step_with_update r0' = StepResults.step_with_update r
             /\ StepResults.optimizer_step_skipped r0'
                = StepResults.optimizer_step_skipped r
             /\ StepResults.grad_norm_before_clip r0'
                = StepResults.grad_norm_before_clip r
             /\ StepResults.step_index r0' = StepResults.step_index r
             /\ StepResults.validation_loss r0' = StepResults.validation_loss r
             /\ StepResults.best_validation_loss r0'
                = StepResults.best_validation_loss r
             /\ StepResults.best_validation_score r0'
                = StepResults.best_validation_score r
             /\ StepResults.patience_left r0' = StepResults.patience_left r
             /\ StepResults.time_left r0' = StepResults.time_left r
       | None => ledger s' !! j = Some r
       end
  else ledger s' !! j = Some r.
Proof.
  intros Hwf Hi Hj.
  pose proof (for_loop_backfill w a fts gas i bs s j r Hwf Hi Hj) as H.
  cbv zeta in *.
  destruct ((i =? 1) && (j =? 0)%nat); [|exact H].
  destruct (ledger (snd (for_loop w a fts gas i bs s)) !! length (ledger s))
    as [r1|]; [|exact H].
  eexists. split; [exact H|]. repeat split.
Qed.

(** C9.  With [update_every_n_steps = n >= 2] every optimizer update is
    at a step [i] with [(i + 1) mod n = 0], so none comes before step
    [n - 1]; the update at step [n - 1] is made on the gradients of the
    [n - 1] steps [1 .. n - 1], every later one on those of the [n]
    steps [i + 1 - n .. i]; each accumulated loss is the batch loss
    divided by [n]; and a step with [(i + 1) mod n = 0] that ran its
    backward pass did update. *)
Theorem C9_first_update_window_is_short `{X : Externals} (w : World) (a : Args) :
  let n := update_every_n_steps (_setup_tuning (config a)) in
  let t := trace (snd (run w a)) in
  2 <= n ->
  (forall i g sk,
      In (OptimizerStep i g sk) t ->
      n - 1 <= i
      /\ (i + 1) mod n = 0
      /\ fst <$> g = (if i =? n - 1 then seqZ 1 (n - 1) else seqZ (i + 1 - n) n)
      /\ Forall (fun p => exists b,
                    data_loader w !! Z.to_nat (fst p - 1) = Some b
                    /\ tensor_div (batch_loss w (fst p) b) n = Return (snd p)) g)
  /\ (forall i l,
         In (Backward i l) t -> (i + 1) mod n = 0 ->
         exists g sk, In (OptimizerStep i g sk) t).
Proof.
  intros n t Hn.
  destruct (run_Updates w a ltac:(fold n; lia)) as [U1 U2].
  fold n in U1, U2. fold t in U1, U2.
  assert (Hacc : accumulation (_setup_tuning (config a)) = Some n).
  { unfold accumulation. fold n.
    replace (1 <? n) with true by (symmetry; apply Z.ltb_lt; lia). reflexivity. }
  rewrite Hacc in U1. split; [|exact U2].
  intros i g sk Hin. destruct (U1 i g sk Hin) as (Hi & Hm & Hg & Hl).
  assert (Hge : n - 1 <= i).
  { pose proof (Z.div_mod (i + 1) n ltac:(lia)) as E. rewrite Hm in E.
    assert (0 < (i + 1) / n) by nia. nia. }
  split; [exact Hge|]. split; [exact Hm|]. split; [|exact Hl].
  rewrite Hg. destruct (i =? n - 1) eqn:Ei.
  - apply Z.eqb_eq in Ei. f_equal; lia.
  - apply Z.eqb_neq in Ei.
    assert (2 * n - 1 <= i).
    { pose proof (Z.div_mod (i + 1) n ltac:(lia)) as E. rewrite Hm in E.
      assert (1 < (i + 1) / n) by nia. nia. }
    f_equal; lia.
Qed.

Lemma run_unfold `{X : Externals} (w : World) (a : Args) :
  run w a =
  match training w a (_setup_tuning (config a)) (boot (_setup_tuning (config a))) with
  | (Return _, s) =>
      (_tore_down_tuning (early_stop_no_imp s) (early_stop_no_time s) (ledger s), s)
  | (Raise e, s) => (Raise e, s)
  end.
Proof. reflexivity. Qed.

Lemma np_argmin_singleton (x : float) :
  np_argmin [x] = Return 0%nat.
Proof. destruct x; reflexivity. Qed.

Lemma np_argmin_list_floats (l : list (option float)) (vs : list float) :
  floats l = Return vs -> np_argmin_list l = np_argmin vs.
Proof.
  intros H. destruct l as [|o [|o' l']].
  - injection H as <-. reflexivity.
  - destruct o as [x|]; [|discriminate]. injection H as <-.
    symmetry. apply np_argmin_singleton.
  - unfold np_argmin_list. rewrite H. reflexivity.
Qed.

Lemma np_argmin_list_inv (l : list (option float)) (k : nat) :
  np_argmin_list l = Return k ->
  (exists vs, floats l = Return vs /\ np_argmin vs = Return k)
  \/ (length l = 1%nat /\ k = 0%nat).
Proof.
  intros H. destruct l as [|o [|o' l']].
  - discriminate.
  - right. injection H as <-. split; reflexivity.
  - left. unfold np_argmin_list in H.
    destruct (floats (o :: o' :: l')) as [vs|]; [|discriminate]. eauto.
Qed.

(** The loop reads the time limit, the device and the configuration of
    the call, never its [model_for_validation]. *)
Lemma for_loop_with_model `{X : Externals} (w : World) (a : Args)
    (mv : option ModelForValidation) (fts : FineTuneSetup) (gas : option Z)
    (bs : list Batch) (i : Z) (s : Loop) :
  for_loop w (with_model mv a) fts gas i bs s = for_loop w a fts gas i bs s.
Proof.
  revert i s. induction bs as [|b bs IH]; intros i s; [reflexivity|].
  cbn [for_loop]. unfold bind.
  change (loop_body w (with_model mv a) fts gas i b s)
    with (loop_body w a fts gas i b s).
  destruct (loop_body w a fts gas i b s) as [[[]|e] s1];
    [reflexivity|apply IH|reflexivity].
Qed.

Lemma run_with_model `{X : Externals} (w : World) (a : Args)
    (mv : option ModelForValidation) :
  use_sklearn_interface_for_validation a = false ->
  run w (with_model mv a) = run w a.
Proof.
  intros Hu. rewrite !run_unfold.
  change (config (with_model mv a)) with (config a).
  rewrite !training_run. unfold check_model_for_validation.
  change (use_sklearn_interface_for_validation (with_model mv a))
    with (use_sklearn_interface_for_validation a).
  rewrite Hu.
  change (initial_state w (with_model mv a) (_setup_tuning (config a)))
    with (initial_state w a (_setup_tuning (config a))).
  rewrite for_loop_with_model. reflexivity.
Qed.

(** C8, as the code has it.  When validation goes through the sklearn
    interface and the caller's [model_for_validation] is fitted, the
    call raises the ValueError before anything else happens: nothing is
    validated, no training step runs, no record is made and the
    checkpoint file is not written.  When validation does not go
    through the sklearn interface, the check passes whatever the model
    is: the call goes on to its baseline validation and the first write
    of the checkpoint file, and it runs as it does with any other
    [model_for_validation], fitted or not, or with none. *)
Theorem C8_fitted_model_rejected_with_sklearn_interface `{X : Externals}
    (w : World) (a : Args) (m : ModelForValidation) :
  (use_sklearn_interface_for_validation a = true ->
   model_for_validation a = Some m ->
   has_executor_ m = true ->
   fst (run w a) = Raise (ValueError "model_for_validation must NOT be fitted")
   /\ trace (snd (run w a)) = []
   /\ checkpoint (snd (run w a)) = None
   /\ ledger (snd (run w a)) = [])
  /\ (use_sklearn_interface_for_validation a = false ->
      check_model_for_validation a = Return tt
      /\ (exists rest,
             saves (trace (snd (run w a)))
             = (0, initial_validation_loss w) :: rest)
      /\ forall mv, run w (with_model mv a) = run w a).
Proof.
  split.
  - intros Hu Hm He.
    rewrite run_unfold, training_run.
    unfold check_model_for_validation. rewrite Hu, Hm, He.
    repeat split; reflexivity.
  - intros Hu.
    assert (Hc : check_model_for_validation a = Return tt).
    { unfold check_model_for_validation. rewrite Hu. reflexivity. }
    split; [exact Hc|]. split.
    + rewrite run_state, training_run, Hc.
      destruct (for_loop_Saved w a (_setup_tuning (config a))
                  (accumulation (_setup_tuning (config a))) (data_loader w) 1
                  (initial_state w a (_setup_tuning (config a)))
                  (initial_Head w a _) (initial_Saved w a _))
        as [(rest & H1 & _) _ _].
      exists rest. exact H1.
    + intros mv. apply run_with_model. exact Hu.
Qed.

(** C10.  With a data loader that yields no batch, the call returns:
    the ledger is the index-0 record alone, with training loss 0.0; the
    checkpoint file holds the model of the one unconditional save; no
    training step ran; both flags are unset; the report has no
    early-stopping reason and best step 0. *)
Theorem C10_no_batches `{X : Externals} (w : World) (a : Args) :
  data_loader w = [] ->
  check_model_for_validation a = Return tt ->
  let v0 := initial_validation_loss w in
  let s := snd (run w a) in
  (exists r0,
      ledger s = [r0]
      /\ StepResults.training_loss r0 = PyFloat.zero
      /\ StepResults.step_index r0 = Some 0
      /\ StepResults.validation_loss r0 = Some v0)
  /\ saves (trace s) = [(0, v0)]
  /\ checkpoint s = Some 0
  /\ steps_run (trace s) = []
  /\ early_stop_no_imp s = false
  /\ early_stop_no_time s = false
  /\ fst (run w a) =
       Return {| es_reason := None;
                 best_step := 0;
                 report_initial_validation_loss := Some v0;
                 report_best_validation_loss := Some v0;
                 total_steps := 1 |}.
Proof.
  intros Hd Hc v0 s. subst s v0.
  rewrite run_unfold, training_run, Hc, Hd.
  cbn.
  split; [eexists; split; [reflexivity|repeat split]|repeat split].
Qed.

(** C6, as the code has it.  With gradient accumulation active
    ([update_every_n_steps = n > 1]) the batch loss is first divided by
    [n] by the tensor division.  When that division raises, the step
    raises the same exception before its backward pass and leaves the
    state as it was.  When it returns, the loss that is back-propagated
    is the divided loss, and the training loss in the step's record is
    that divided loss, read as a Python float and multiplied by
    [float(n)]: two rounded floating-point operations; with an [n] that
    [float] cannot convert, the multiplication raises OverflowError
    after the backward pass. *)
Theorem C6_reported_loss_is_divided_then_multiplied `{X : Externals}
    (w : World) (d : SupportedDevice) (fts : FineTuneSetup)
    (i : Z) (b : Batch) (update_now : bool) (s : Loop) :
  let n := update_every_n_steps fts in
  1 < n ->
  let res := _fine_tune_step w d i b update_now (accumulation fts) s in
  match tensor_div (batch_loss w i b) n with
  | Raise e => res = (Raise e, s)
  | Return divided =>
      In (Backward i divided) (trace (snd res))
      /\ match PyFloat.of_int n with
         | Some f =>
             exists l, fst res = Return l
               /\ StepResults.training_loss (deref (snd res) l)
                  = PyFloat.mul (PyFloat.item divided) f
         | None => fst res = Raise OverflowError
         end
  end.
Proof.
  intros n Hn res. subst res.
  unfold accumulation. fold n.
  replace (1 <? n) with true by (symmetry; apply Z.ltb_lt; lia).
  unfold _fine_tune_step, py_mul_int. unfold bind at 1, lift.
  destruct (tensor_div (batch_loss w i b) n) as [divided|e]; [|reflexivity].
  destruct update_now, (PyFloat.of_int n) as [f|]; unfold_m; cbn;
    (split; [rewrite !in_app_iff; cbn; tauto|try reflexivity]).
  all: eexists; (split; [reflexivity|]).
  all: unfold deref; cbn; rewrite nth_middle; reflexivity.
Qed.

Lemma time_check_inv `{X : Externals} (w : World) (a : Args) (i : Z)
    (time_left : float) (no_time : bool) :
  time_check w a i = Return (time_left, no_time) ->
  let time_spent := PyFloat.sub (clock w i) (st_time w) in
  py_int_sub (time_limit a) time_spent = Return time_left
  /\ (no_time = true <->
      PyFloat.leb time_left PyFloat.zero = true
      \/ exists avg, py_truediv_int time_spent i = Return avg
           /\ PyFloat.leb time_left (PyFloat.mul avg PyFloat.c1_1) = true).
Proof.
  unfold time_check. cbv zeta.
  destruct (py_int_sub _ _) as [tl|e]; [|discriminate].
  destruct (PyFloat.leb tl PyFloat.zero) eqn:E0.
  - intros [= <- <-]. split; [reflexivity|]. split; auto.
  - destruct (py_truediv_int _ _) as [avg|e]; [|discriminate].
    intros [= <- <-]. split; [reflexivity|]. split.
    + intros H. right. exists avg. auto.
    + intros [H|(avg' & [= <-] & H)]; [congruence|exact H].
Qed.

(** C5, as the code has it.  In every pass through the loop body that
    reaches the time check, [early_stop_no_time] is set if and only if
    the remaining time [time_limit - time_spent] is [<= 0], or it is
    [<=] (not only [<]) 1.1 times [time_spent / step_i]; and when it is
    set the pass ends in [break], with this step's record appended. *)
Theorem C5_time_flag `{X : Externals} (w : World) (a : Args)
    (fts : FineTuneSetup) (gas : option Z) (i : Z) (b : Batch)
    (rest : list Batch) (s : Loop) :
  match loop_body w a fts gas i b s with
  | (Return stop, s') =>
      let time_spent := PyFloat.sub (clock w i) (st_time w) in
      exists time_left,
        py_int_sub (time_limit a) time_spent = Return time_left
        /\ (early_stop_no_time s' = true <->
            PyFloat.leb time_left PyFloat.zero = true
            \/ exists avg, py_truediv_int time_spent i = Return avg
                 /\ PyFloat.leb time_left (PyFloat.mul avg PyFloat.c1_1) = true)
        /\ (early_stop_no_time s' = true ->
            stop = true
            /\ for_loop w a fts gas i (b :: rest) s = (Return tt, s')
            /\ exists l, step_results_over_time s'
                         = step_results_over_time s ++ [l])
  | (Raise _, _) => True
  end.
Proof.
  destruct (loop_body w a fts gas i b s) as [[stop|e] s'] eqn:E; [|exact I].
  assert (Hfor : stop = true ->
                 for_loop w a fts gas i (b :: rest) s = (Return tt, s')).
  { intros ->. cbn [for_loop]. unfold bind. rewrite E. reflexivity. }
  destruct (Z.eq_dec (update_every_n_steps fts) 0) as [Hn|Hn];
    [|destruct (Z.eq_dec (validate_every_n_steps fts) 0) as [Hv|Hv]].
  1,2: rewrite loop_body_raise in E by auto; discriminate.
  rewrite (loop_body_cases w a fts gas i b s Hn Hv) in E.
  destruct (division w gas i b) as [dl|e]; [|discriminate].
  destruct (reported_loss w gas i b) as [tl|e]; [|discriminate].
  cbv zeta in E.
  match type of E with
  | context [match ?c with Some _ => _ | None => _ end] =>
      assert (Hvs : match c with
                    | Some vs => step_results_over_time (snd vs)
                                 = step_results_over_time s
                    | None => True
                    end);
      [|destruct c as [vs|]; [|discriminate]]
  end.
  { destruct (validates_at w fts i); [reflexivity|].
    destruct (last (step_results_over_time s)); [reflexivity|exact I]. }
  destruct (time_check w a i) as [[time_left no_time]|e] eqn:Et; [|discriminate].
  injection E as <- <-.
  destruct (time_check_inv w a i time_left no_time Et) as [H1 H2].
  exists time_left. split; [exact H1|]. cbn [early_stop_no_time after_track set_early_stop_no_time].
  split; [exact H2|].
  intros ->. rewrite orb_true_r in *. split; [reflexivity|].
  split; [apply Hfor; reflexivity|].
  eexists. cbn. rewrite Hvs. reflexivity.
Qed.

Lemma reported_loss_ok `{X : Externals} (w : World) (fts : FineTuneSetup)
    (i : Z) (b : Batch) :
  PyFloat.of_int (update_every_n_steps fts) <> None ->
  exists tl, reported_loss w (accumulation fts) i b = Return tl.
Proof.
  intros H. unfold reported_loss, accumulation, py_mul_int.
  destruct (1 <? update_every_n_steps fts); [|eauto].
  destruct (PyFloat.of_int (update_every_n_steps fts)); [eauto|congruence].
Qed.

Lemma floats_two (x y : float) :
  floats [Some x; Some y] = Return [x; y].
Proof. reflexivity. Qed.

Lemma np_argmin_defined (x : float) (l : list float) :
  exists k, np_argmin (x :: l) = Return k.
Proof. destruct x; cbn; eauto. Qed.

(** ** Subtraction of a larger float *)








(** A mantissa of [d] digits lies in [2^(d-1), 2^d). *)
Lemma digits2_pos_bounds (m : positive) :
  2 ^ (Zpos (digits2_pos m) - 1) <= Zpos m < 2 ^ Zpos (digits2_pos m).
Proof.
  induction m as [m IH|m IH|]; cbn [digits2_pos].
  - rewrite Pos2Z.inj_succ.
    replace (Z.succ (Zpos (digits2_pos m)) - 1)
      with (Z.succ (Zpos (digits2_pos m) - 1)) by lia.
    rewrite !Z.pow_succ_r by lia. lia.
  - rewrite Pos2Z.inj_succ.
    replace (Z.succ (Zpos (digits2_pos m)) - 1)
      with (Z.succ (Zpos (digits2_pos m) - 1)) by lia.
    rewrite !Z.pow_succ_r by lia. lia.
  - cbn. lia.
Qed.






(** ** The claims on concrete runs *)





Lemma C3_witness :
  let s := snd (run skipping_world (plain_args 1000 (plain_config 1 1))) in
  StepResults.validation_loss <$> ledger s !! 2%nat
  = StepResults.validation_loss <$> ledger s !! 1%nat.
Proof.
  pose proof (C3_validation_loss_carried_forward (X := cpu_float32) skipping_world
                (plain_args 1000 (plain_config 1 1))) as (H1 & _).
  cbv zeta.
  destruct (ledger _ !! 2%nat) as [r|] eqn:E2; [|vm_compute in E2; discriminate].
  destruct (ledger _ !! 1%nat) as [r'|] eqn:E1; [|vm_compute in E1; discriminate].
  cbn. f_equal. apply (H1 1%nat r r' E2 E1). vm_compute. reflexivity.
Defined.

(** In a run whose step 2 is skipped the checkpoint is written at steps
    0, 1, 3 and 4, with losses 5.0, 4.0, 2.0 and 1.0. *)
Lemma C4_witness :
  let s := snd (run skipping_world (plain_args 1000 (plain_config 1 1))) in
  snd <$> saves (trace s) = [fl 5; fl 4; fl 2; fl 1]
  /\ descending (snd <$> saves (trace s)).
Proof.
  split; [vm_compute; reflexivity|].
  exact (proj1 (proj2 (C4_saved_losses_descend (X := cpu_float32) skipping_world
                         (plain_args 1000 (plain_config 1 1))))).
Defined.

(** C5 fails as stated: 10 seconds into a limit of 21, at step 1, the
    remaining 11.0 seconds are neither [<= 0] nor strictly below
    [10.0 / 1 * 1.1], which is 11.0 exactly in binary64; the flag is set
    all the same, and the loop stops there. *)
Lemma C5_counterexample :
  let w := three_batches in
  let a := plain_args 21 (plain_config 1 1) in
  let time_spent := PyFloat.sub (clock w 1) (st_time w) in
  time_check w a 1 = Return (fl 11, true)
  /\ PyFloat.leb (fl 11) PyFloat.zero = false
  /\ py_truediv_int time_spent 1 = Return (fl 10)
  /\ PyFloat.ltb (fl 11) (PyFloat.mul (fl 10) PyFloat.c1_1) = false
  /\ early_stop_no_time (snd (run w a)) = true
  /\ length (ledger (snd (run w a))) = 2%nat.
Proof.
  vm_compute. repeat split.
Qed.

(** The pass of step 1 under a limit of 21 seconds sets the flag and is
    the last one. *)
Lemma C5_witness :
  let w := three_batches in
  let a := plain_args 21 (plain_config 1 1) in
  let fts := _setup_tuning (config a) in
  let s := initial_state w a fts in
  exists s',
    loop_body w a fts None 1 tt s = (Return true, s')
    /\ early_stop_no_time s' = true
    /\ for_loop w a fts None 1 [tt; tt; tt] s = (Return tt, s').
Proof.
  intros w a fts s.
  pose proof (C5_time_flag (X := cpu_float32) w a fts None 1 tt [tt; tt] s) as H.
  assert (Hfst : fst (loop_body w a fts None 1 tt s) = Return true)
    by (vm_compute; reflexivity).
  assert (Hflag : early_stop_no_time (snd (loop_body w a fts None 1 tt s)) = true)
    by (vm_compute; reflexivity).
  destruct (loop_body w a fts None 1 tt s) as [[stop|e] s'];
    [|discriminate Hfst].
  cbn [fst snd] in Hfst, Hflag. injection Hfst as ->.
  destruct H as (tl & _ & _ & Hstop).
  exists s'. split; [reflexivity|]. split; [exact Hflag|].
  apply Hstop, Hflag.
Defined.

(** C6 fails as stated: the reported training loss is not the batch
    loss.  A float32 loss of 1.0 accumulated over 3 steps is reported as
    1.0000000298023224 at every step, and a float64 loss of 1.0 with 49
    steps as 0.9999999999999999. *)
Lemma C6_counterexample :
  let raw32 := PyFloat.item (batch_loss three_batches 1 tt) in
  let run32 := snd (run three_batches (plain_args 1000 (plain_config 3 1))) in
  let raw64 := PyFloat.item (batch_loss double_loss_world 1 tt) in
  let run64 := snd (run double_loss_world (plain_args 1000 (plain_config 49 1))) in
  let above := S754_finite false 4503599761588224 (-52) in
  let below := S754_finite false 9007199254740991 (-53) in
  raw32 = fl 1
  /\ steps_run (trace run32) = [1; 2; 3]
  /\ StepResults.training_loss <$> ledger run32 = [above; above; above; above]
  /\ PyFloat.ltb raw32 above = true
  /\ raw64 = fl 1
  /\ steps_run (trace run64) = [1]
  /\ StepResults.training_loss <$> ledger run64 = [below; below]
  /\ PyFloat.ltb below raw64 = true.
Proof.
  vm_compute. repeat split.
Qed.

(** With [n = 3] the step back-propagates the float32 quotient and
    reports it multiplied by 3.0; with [n = 2 ^ 64] the division raises
    and the step leaves the state as it was. *)
Lemma C6_witness :
  let w := three_batches in
  let fts := _setup_tuning (plain_config 3 1) in
  let s := initial_state w (plain_args 1000 (plain_config 3 1)) fts in
  let res := _fine_tune_step w CPU 1 tt false (accumulation fts) s in
  let big := _setup_tuning (X := cpu_float32) (plain_config (2 ^ 64) 1) in
  (In (Backward 1 (float32_quot one 3)) (trace (snd res))
   /\ exists l, fst res = Return l
        /\ StepResults.training_loss (deref (snd res) l)
           = PyFloat.mul (PyFloat.item (float32_quot one 3)) (fl 3))
  /\ _fine_tune_step w CPU 1 tt false (accumulation big) s
     = (Raise OverflowError, s).
Proof.
  split.
  - exact (C6_reported_loss_is_divided_then_multiplied (X := cpu_float32)
             three_batches CPU (_setup_tuning (plain_config 3 1)) 1 tt false
             (initial_state three_batches (plain_args 1000 (plain_config 3 1))
                            (_setup_tuning (plain_config 3 1)))
             eq_refl).
  - exact (C6_reported_loss_is_divided_then_multiplied (X := cpu_float32)
             three_batches CPU (_setup_tuning (plain_config (2 ^ 64) 1)) 1 tt false
             (initial_state three_batches (plain_args 1000 (plain_config 3 1))
                            (_setup_tuning (plain_config 3 1)))
             eq_refl).
Defined.

(** Step 1 of a three-batch run backfills the index-0 record: its
    training loss was 0.0 and is the 1.0 of step 1 at the end, and its
    validation loss is still the baseline 5.0. *)
Lemma C7_witness :
  let w := three_batches in
  let a := plain_args 1000 (plain_config 1 1) in
  let fts := _setup_tuning (config a) in
  let s := initial_state w a fts in
  let s' := snd (for_loop w a fts (accumulation fts) 1 (data_loader w) s) in
  exists r0 r1 r0',
    ledger s !! 0%nat = Some r0
    /\ ledger s' !! 1%nat = Some r1
    /\ ledger s' !! 0%nat = Some r0'
    /\ StepResults.training_loss r0 = PyFloat.zero
    /\ StepResults.training_loss r1 = fl 1
    /\ StepResults.training_loss r0' = StepResults.training_loss r1
    /\ StepResults.validation_loss r0' = Some (fl 5)
    /\ StepResults.step_index r0' = Some 0.
Proof.
  intros w a fts s s'.
  assert (Hwf : well_formed s).
  { split; [apply NoDup_singleton|repeat constructor]. }
  assert (H0 : ledger s !! 0%nat = Some (initial_record w a (adaptive_es s)))
    by reflexivity.
  assert (H1 : is_Some (ledger s' !! 1%nat)).
  { vm_compute. eexists. reflexivity. }
  destruct H1 as [r1 H1].
  assert (Hl1 : StepResults.training_loss <$> ledger s' !! 1%nat = Some (fl 1)).
  { vm_compute. reflexivity. }
  assert (E : (1 =? 1) && (0 =? 0)%nat = true) by reflexivity.
  assert (El : length (ledger s) = 1%nat) by reflexivity.
  pose proof (C7_only_backfill_mutates_ledger (X := cpu_float32) w a fts
                (accumulation fts) 1 (data_loader w) s 0
                (initial_record w a (adaptive_es s)) Hwf ltac:(lia) H0) as H.
  cbv zeta in H. rewrite E, El in H. fold s' in H. rewrite H1 in H.
  destruct H as (r0' & H0' & Ht & _ & _ & _ & _ & Hs & Hv & _).
  exists (initial_record w a (adaptive_es s)), r1, r0'.
  split; [exact H0|].
  split; [exact H1|].
  split; [exact H0'|].
  split; [reflexivity|].
  rewrite H1 in Hl1. injection Hl1 as Hl1.
  split; [exact Hl1|].
  split; [exact Ht|].
  split; [rewrite Hv; reflexivity|].
  rewrite Hs. reflexivity.
Defined.

(** C8 fails as stated.  A fitted [model_for_validation] is accepted when validation does not
    go through the sklearn interface: the call trains on every batch,
    writes the checkpoint and returns its report. *)
Lemma C8_counterexample :
  let res := run three_batches fitted_but_unused in
  model_for_validation fitted_but_unused = Some {| has_executor_ := true |}
  /\ check_model_for_validation fitted_but_unused = Return tt
  /\ steps_run (trace (snd res)) = [1; 2; 3]
  /\ (fst <$> saves (trace (snd res))) = [0; 1; 2; 3]
  /\ checkpoint (snd res) = Some 3
  /\ exists report, fst res = Return report.
Proof.
  vm_compute. repeat split. eexists. reflexivity.
Qed.

(** A fitted model is rejected with the sklearn interface; without it
    the check passes and the run is the one of a call with no model. *)
Lemma C8_witness :
  let s := snd (run three_batches fitted_and_used) in
  (fst (run three_batches fitted_and_used)
   = Raise (ValueError "model_for_validation must NOT be fitted")
   /\ trace s = [] /\ checkpoint s = None /\ ledger s = [])
  /\ check_model_for_validation fitted_but_unused = Return tt
  /\ run three_batches (with_model None fitted_but_unused)
     = run three_batches fitted_but_unused.
Proof.
  split.
  - exact (proj1 (C8_fitted_model_rejected_with_sklearn_interface
                    (X := cpu_float32) three_batches fitted_and_used
                    {| has_executor_ := true |})
                 eq_refl eq_refl eq_refl).
  - destruct (proj2 (C8_fitted_model_rejected_with_sklearn_interface
                       (X := cpu_float32) three_batches fitted_but_unused
                       {| has_executor_ := true |})
                    eq_refl) as (Hc & _ & Hr).
    split; [exact Hc|exact (Hr None)].
Defined.

(** With [n = 2] the first update is at step 1 on the gradient of batch
    1 alone, the second at step 3 on those of batches 2 and 3. *)
Lemma C9_witness :
  let t := trace (snd (run three_batches (plain_args 1000 (plain_config 2 1)))) in
  let g1 := [(1, float32_quot one 2)] in
  let g3 := [(2, float32_quot one 2); (3, float32_quot one 2)] in
  In (OptimizerStep 1 g1 false) t /\ fst <$> g1 = seqZ 1 1
  /\ In (OptimizerStep 3 g3 false) t /\ fst <$> g3 = seqZ 2 2.
Proof.
  intros t g1 g3.
  assert (H1 : In (OptimizerStep 1 g1 false) t).
  { vm_compute. do 5 right. left. reflexivity. }
  assert (H3 : In (OptimizerStep 3 g3 false) t).
  { vm_compute. do 16 right. left. reflexivity. }
  pose proof (C9_first_update_window_is_short (X := cpu_float32) three_batches
              (plain_args 1000 (plain_config 2 1)) ltac:(vm_compute; discriminate))
    as H.
  pose proof (proj1 H 1 g1 false H1) as E1.
  pose proof (proj1 H 3 g3 false H3) as E3.
  split; [exact H1|]. 
  split; [exact (proj1 (proj2 (proj2 E1)))|].
  split; [exact H3|]. 
  exact (proj1 (proj2 (proj2 E3))).
Defined.

Lemma C10_witness :
  let s := snd (run empty_world (plain_args 1000 (plain_config 1 1))) in
  length (ledger s) = 1%nat
  /\ saves (trace s) = [(0, fl 5)]
  /\ checkpoint s = Some 0
  /\ steps_run (trace s) = []
  /\ exists report,
       fst (run empty_world (plain_args 1000 (plain_config 1 1))) = Return report
       /\ es_reason report = None /\ best_step report = 0%nat.
Proof.
  intros s.
  destruct (C10_no_batches (X := cpu_float32) empty_world
              (plain_args 1000 (plain_config 1 1)) eq_refl eq_refl)
    as ((r0 & Hl & _) & Hs & Hc & Hr & _ & _ & Hrep).
  fold s in Hl, Hs, Hc, Hr.
  split; [rewrite Hl; reflexivity|].
  split; [exact Hs|]. split; [exact Hc|]. split; [exact Hr|].
  eexists. split; [exact Hrep|]. split; reflexivity.
Defined.

(** * Further properties of the loop *)

(** ** An induction principle for the loop

    [P i] holds of the state at the head of the loop before step [i];
    [Q] holds of the outcome and the state when the loop is left: by
    exhaustion of the data loader, by [break], or by an exception. *)

Section Rule.

Context `{X : Externals}.
Variables (w : World) (a : Args) (fts : FineTuneSetup) (gas : option Z).
Variable P : Z -> Loop -> Prop.
Variable Q : outcome unit -> Loop -> Prop.

Definition exhausted : Prop :=
  forall (i : Z) (s : Loop),
    Head fts i s -> P i s ->
    Z.to_nat (i - 1) = length (data_loader w) ->
    Q (Return tt) s.

Definition preserved : Prop :=
  forall (i : Z) (b : Batch) (s : Loop),
    Head fts i s -> P i s ->
    data_loader w !! Z.to_nat (i - 1) = Some b ->
    match loop_body w a fts gas i b s with
    | (Return false, s') => P (i + 1) s'
    | (Return true, s') => Q (Return tt) s'
    | (Raise e, s') => Q (Raise e) s'
    end.

Lemma for_loop_rule (bs : list Batch) (i : Z) (s : Loop) (pre : list Batch) :
  exhausted -> preserved ->
  data_loader w = pre ++ bs -> length pre = Z.to_nat (i - 1) ->
  Head fts i s -> P i s ->
  Q (fst (for_loop w a fts gas i bs s)) (snd (for_loop w a fts gas i bs s)).
Proof.
  intros Hex Hst. revert i s pre.
  induction bs as [|b bs IH]; intros i s pre Hd Hp H HP.
  - cbn. apply (Hex i s H HP). rewrite Hd, app_nil_r. auto.
  - cbn [for_loop]. unfold bind.
    assert (Hb : data_loader w !! Z.to_nat (i - 1) = Some b).
    { rewrite Hd, <- Hp. apply list_lookup_middle. reflexivity. }
    pose proof (Hst i b s H HP Hb) as Hs.
    pose proof (loop_body_Head w a fts gas i b s H) as Hh.
    destruct (loop_body w a fts gas i b s) as [[[]|e] s1]; cbn [fst snd].
    + exact Hs.
    + apply (IH (i + 1) s1 (pre ++ [b])); auto.
      * rewrite Hd, <- app_assoc. reflexivity.
      * rewrite length_app, Hp. cbn. destruct H as [Hpos _ _ _ _ _]. lia.
    + exact Hs.
Qed.

Lemma training_rule :
  exhausted -> preserved ->
  (forall e, check_model_for_validation a = Raise e -> Q (Raise e) (boot fts)) ->
  P 1 (initial_state w a fts) ->
  gas = accumulation fts ->
  Q (fst (training w a fts (boot fts))) (snd (training w a fts (boot fts))).
Proof.
  intros Hex Hst Hc HP Hg. rewrite training_run, <- Hg.
  destruct (check_model_for_validation a) as [[]|e]; [|apply Hc; reflexivity].
  apply (for_loop_rule (data_loader w) 1 _ []); auto.
  apply initial_Head.
Qed.

End Rule.

(** The pass of step [i] from the head of the loop, when both cadences
    are non-zero. *)
Lemma loop_body_at_head `{X : Externals} (w : World) (a : Args)
    (fts : FineTuneSetup) (gas : option Z) (i : Z) (b : Batch) (s : Loop) :
  Head fts i s ->
  update_every_n_steps fts <> 0 ->
  validate_every_n_steps fts <> 0 ->
  loop_body w a fts gas i b s =
  match division w gas i b with
  | Raise e => (Raise e, s)
  | Return _ =>
      match reported_loss w gas i b with
      | Raise e => (Raise e, after_step w fts gas i b s)
      | Return tl =>
          let vs := validation_phase w fts i (pred (Z.to_nat i))
                      (after_skip w a fts gas i b tl s) in
          match time_check w a i with
          | Raise e => (Raise e, snd vs)
          | Return (time_left, no_time) =>
              (Return (early_stop_no_imp (snd vs) || no_time),
               after_track fts i (length (heap s)) 0%nat (fst vs) time_left
                 (set_early_stop_no_time no_time (snd vs)))
          end
      end
  end.
Proof.
  intros [Hpos Hrefs Hheap _ _ _] Hn Hv.
  apply loop_body_run; auto.
  - rewrite Hrefs. destruct (Z.to_nat i) as [|k] eqn:E; [lia|].
    rewrite seq_S, last_snoc. reflexivity.
  - rewrite Hrefs. apply lookup_seq_lt. lia.
Qed.

(** ** Gradients are applied once *)

(** The losses that were back-propagated, with their steps, in order. *)
Definition backwards (t : list Event) : list (Z * spec_float) :=
  omap (fun e => match e with Backward i l => Some (i, l) | _ => None end) t.

(** The gradients handed to [scaler.step], optimizer step after
    optimizer step. *)
Definition applied (t : list Event) : list (Z * spec_float) :=
  concat (omap (fun e => match e with
                         | OptimizerStep _ g _ => Some g
                         | _ => None
                         end) t).

Lemma backwards_app (t1 t2 : list Event) :
  backwards (t1 ++ t2) = backwards t1 ++ backwards t2.
Proof. unfold backwards. apply omap_app. Qed.

Lemma applied_app (t1 t2 : list Event) :
  applied (t1 ++ t2) = applied t1 ++ applied t2.
Proof. unfold applied. rewrite omap_app. apply concat_app. Qed.

Section Conservation.

Context `{X : Externals}.
Variables (w : World) (a : Args) (fts : FineTuneSetup) (gas : option Z).

Definition conserved (s : Loop) : Prop :=
  backwards (trace s) = applied (trace s) ++ grad s.

Lemma conserved_step_events (i : Z) (b : Batch) (s : Loop) :
  conserved s ->
  backwards (trace s ++ step_events w fts gas i b (grad s))
  = applied (trace s ++ step_events w fts gas i b (grad s))
    ++ grad_after w fts gas i b (grad s).
Proof.
  unfold conserved. intros H.
  rewrite backwards_app, applied_app, H.
  unfold step_events, grad_after.
  destruct (update_at fts i); cbn; rewrite ?app_nil_r, <- ?app_assoc; reflexivity.
Qed.

Lemma conserved_to_validation (i : Z) (b : Batch) (s : Loop) :
  conserved s ->
  backwards (trace s ++ events_to_validation w fts gas i b s)
  = applied (trace s ++ events_to_validation w fts gas i b s)
    ++ grad_after w fts gas i b (grad s).
Proof.
  intros H. pose proof (conserved_step_events i b s H) as E.
  unfold events_to_validation.
  rewrite app_assoc, backwards_app, applied_app, E.
  destruct (skipped_at w fts i), (validates_at w fts i), (is_best_at w i s);
    cbn; rewrite ?app_nil_r; reflexivity.
Qed.

Lemma conserved_preserved :
  preserved w a fts gas (fun _ => conserved) (fun _ => conserved).
Proof.
  intros i b s H HP Hb.
  destruct (Z.eq_dec (update_every_n_steps fts) 0) as [Hn|Hn];
    [|destruct (Z.eq_dec (validate_every_n_steps fts) 0) as [Hv|Hv]].
  1,2: rewrite loop_body_raise by auto; exact HP.
  rewrite (loop_body_at_head w a fts gas i b s H Hn Hv).
  destruct (division w gas i b) as [dl|e]; [|exact HP].
  destruct (reported_loss w gas i b) as [tl|e].
  2: { apply conserved_step_events. exact HP. }
  destruct (validation_phase_facts w a fts gas i b tl (pred (Z.to_nat i)) s)
    as (_ & _ & _ & V4 & _).
  destruct (validation_phase_state w a fts gas i b tl (pred (Z.to_nat i)) s)
    as (_ & _ & G & _).
  cbv zeta in *.
  set (vs := validation_phase w fts i _ _) in *. clearbody vs.
  assert (Hvs : conserved (snd vs)).
  { unfold conserved. rewrite V4, G. apply conserved_to_validation. exact HP. }
  destruct (time_check w a i) as [[time_left no_time]|e]; [|exact Hvs].
  assert (Hs' : conserved (after_track fts i (length (heap s)) 0%nat (fst vs)
                             time_left (set_early_stop_no_time no_time (snd vs)))).
  { unfold conserved, after_track, set_early_stop_no_time in *.
    cbn [trace grad]. rewrite backwards_app, applied_app, Hvs.
    cbn. rewrite !app_nil_r. reflexivity. }
  destruct (early_stop_no_imp (snd vs) || no_time); exact Hs'.
Qed.

End Conservation.

(** X6.  Whatever the outcome of the call, the losses that were
    back-propagated are, in order, the ones handed to an optimizer
    step followed by the ones still in the gradient buffers: no
    gradient is dropped before an optimizer step, none reaches two of
    them, and those of the steps after the last update reach none. *)
Theorem gradients_reach_one_optimizer_step `{X : Externals}
    (w : World) (a : Args) :
  let s := snd (run w a) in
  backwards (trace s) = applied (trace s) ++ grad s.
Proof.
  cbv zeta. rewrite run_state.
  apply (training_rule w a (_setup_tuning (config a))
           (accumulation (_setup_tuning (config a)))
           (fun _ => conserved) (fun _ => conserved)).
  - intros i s _ H _. exact H.
  - apply conserved_preserved.
  - intros e _. reflexivity.
  - reflexivity.
  - reflexivity.
Qed.

(** ** The ledger after one pass *)

Section LedgerStep.

Context `{X : Externals}.
Variables (w : World) (a : Args) (fts : FineTuneSetup) (gas : option Z).

(** The ledger after the pass of step [i] that produced the record [rf]
    with training loss [tl]. *)
Definition ledger_with (i : Z) (tl : float) (rf : StepResults.t)
    (L : list StepResults.t) : list StepResults.t :=
  (if i =? 1 then alter (StepResults.set_training_loss tl) 0%nat L else L)
  ++ [rf].

Lemma loop_body_ledger (i : Z) (b : Batch) (s : Loop) (tl : float) :
  Head fts i s ->
  let vs := validation_phase w fts i (pred (Z.to_nat i))
              (after_skip w a fts gas i b tl s) in
  ledger s = heap s
  /\ ledger (after_step w fts gas i b s) = ledger s
  /\ ledger (snd vs) = ledger s
  /\ forall (time_left : float) (no_time : bool),
       let s3 := set_early_stop_no_time no_time (snd vs) in
       ledger (after_track fts i (length (heap s)) 0%nat (fst vs) time_left s3)
       = ledger_with i tl
           (final_record fts i (fst vs) time_left s3 (fresh_record w a fts i tl))
           (ledger s).
Proof.
  intros [Hpos Hrefs Hheap _ _ _].
  destruct (validation_phase_facts w a fts gas i b tl (pred (Z.to_nat i)) s)
    as (V1 & V2 & _).
  cbv zeta in *.
  set (vs := validation_phase w fts i _ _) in *. clearbody vs.
  set (k := Z.to_nat i) in *.
  assert (Hk : (1 <= k)%nat) by lia.
  assert (HL : ledger s = heap s) by (apply (ledger_head s k); auto).
  split; [exact HL|]. split; [reflexivity|]. split.
  - rewrite (ledger_take _ k) by (rewrite ?V1, ?V2, ?length_app; auto; lia).
    rewrite V1, take_app_length' by auto. symmetry. exact HL.
  - intros time_left no_time.
    set (s3 := set_early_stop_no_time no_time (snd vs)).
    set (fr := fresh_record w a fts i tl).
    assert (Hh : heap (after_track fts i (length (heap s)) 0%nat (fst vs)
                         time_left s3)
                 = ledger_with i tl (final_record fts i (fst vs) time_left s3 fr)
                     (heap s)).
    { cbn [heap after_track].
      exact (tracked_heap_snoc fts i 0%nat (fst vs) time_left s3 (heap s) fr
               V1 ltac:(lia)). }
    rewrite HL, <- Hh. apply (ledger_head _ (S k)).
    + cbn [step_results_over_time after_track].
      change (step_results_over_time s3) with (step_results_over_time (snd vs)).
      rewrite V2, Hrefs, seq_S, Hheap. reflexivity.
    + rewrite Hh. unfold ledger_with. rewrite length_app.
      destruct (i =? 1); rewrite ?length_alter, Hheap; cbn; lia.
Qed.

End LedgerStep.

(** ** What every record of the ledger holds *)

Section Shape.

Context `{X : Externals}.
Variables (w : World) (a : Args) (fts : FineTuneSetup) (gas : option Z).

(** The index-0 record, up to the training loss that step 1 writes
    into it. *)
Definition baseline_record (r : StepResults.t) : Prop :=
  exists tl,
    r = StepResults.set_training_loss tl
          (initial_record w a (adaptive_es (initial_state w a fts))).

(** The record of step [j]: what [_fine_tune_step] returned for the
    batch of that step, completed by [register_meta_state]. *)
Definition step_record (j : Z) (r : StepResults.t) : Prop :=
  exists (b : Batch) (tl vl best : float) (patience : Z) (time_left : float),
    data_loader w !! Z.to_nat (j - 1) = Some b
    /\ reported_loss w gas j b = Return tl
    /\ py_int_sub (time_limit a) (PyFloat.sub (clock w j) (st_time w))
       = Return time_left
    /\ r = StepResults.register_meta_state j (Some vl) best
             (convert_error_to_score best) patience (PyFlt time_left)
             (fresh_record w a fts j tl).

Definition shaped (L : list StepResults.t) : Prop :=
  forall (j : nat) (r : StepResults.t),
    L !! j = Some r ->
    match j with
    | O => baseline_record r
    | S _ => step_record (Z.of_nat j) r
    end.

Lemma shaped_validation_loss (L : list StepResults.t) (j : nat)
    (r : StepResults.t) :
  shaped L -> L !! j = Some r -> is_Some (StepResults.validation_loss r).
Proof.
  intros HL Hj. specialize (HL j r Hj). destruct j as [|j].
  - destruct HL as [tl ->]. cbn. eauto.
  - destruct HL as (b & tl & vl & best & pat & tleft & _ & _ & _ & ->).
    cbn. eauto.
Qed.

Lemma shaped_preserved :
  preserved w a fts gas (fun _ s => shaped (ledger s))
                        (fun _ s => shaped (ledger s)).
Proof.
  intros i b s H HP Hb.
  destruct (Z.eq_dec (update_every_n_steps fts) 0) as [Hn|Hn];
    [|destruct (Z.eq_dec (validate_every_n_steps fts) 0) as [Hv|Hv]].
  1,2: rewrite loop_body_raise by auto; exact HP.
  rewrite (loop_body_at_head w a fts gas i b s H Hn Hv).
  destruct (division w gas i b) as [dl|e] eqn:Ediv; [|exact HP].
  destruct (reported_loss w gas i b) as [tl|e] eqn:Etl.
  2: { destruct (loop_body_ledger w a fts gas i b s PyFloat.zero H)
         as (_ & -> & _). exact HP. }
  destruct (loop_body_ledger w a fts gas i b s tl H) as (HL & _ & L3 & L4).
  destruct (validation_phase_facts w a fts gas i b tl (pred (Z.to_nat i)) s)
    as (_ & _ & _ & _ & V5).
  cbv zeta in *.
  set (vs := validation_phase w fts i _ _) in *. clearbody vs.
  destruct (time_check w a i) as [[time_left no_time]|e] eqn:Etc.
  2: { rewrite L3. exact HP. }
  assert (Hs' : shaped (ledger (after_track fts i (length (heap s)) 0%nat
                                  (fst vs) time_left
                                  (set_early_stop_no_time no_time (snd vs))))).
  { rewrite L4.
    destruct H as [Hpos Hrefs Hheap _ _ _].
    set (k := Z.to_nat i) in *.
    assert (Hlen : length (ledger s) = k) by (rewrite HL; exact Hheap).
    (* the validation loss that the record gets *)
    assert (Hvl : exists vl, fst vs = Some vl).
    { rewrite V5. destruct (validates_at w fts i); [eauto|].
      rewrite app_nth1 by lia.
      assert (Hp : ledger s !! pred k = Some (nth (pred k) (heap s) blank)).
      { rewrite HL. destruct (heap s !! pred k) eqn:E.
        - f_equal. symmetry. eapply nth_lookup_Some. exact E.
        - apply lookup_ge_None in E. lia. }
      destruct (shaped_validation_loss _ _ _ HP Hp) as [vl Hvl]. eauto. }
    destruct Hvl as [vl Hvl].
    apply time_check_inv in Etc as [Etl' _].
    intros j r Hj. unfold ledger_with in Hj.
    apply lookup_app_Some in Hj as [Hj|[Hge Hj]].
    - (* a record that was there *)
      destruct (i =? 1) eqn:Ei.
      + rewrite list_lookup_alter in Hj.
        destruct (decide (0%nat = j)) as [<-|Hne].
        * destruct (ledger s !! 0%nat) as [r0|] eqn:E0; [|discriminate].
          injection Hj as <-. destruct (HP 0%nat r0 E0) as [tl0 ->].
          exists tl. reflexivity.
        * destruct j as [|j]; [congruence|]. exact (HP _ _ Hj).
      + exact (HP _ _ Hj).
    - (* the record of this step *)
      assert (Hlen' : length (if i =? 1
                              then alter (StepResults.set_training_loss tl)
                                         0%nat (ledger s)
                              else ledger s) = k)
        by (destruct (i =? 1); rewrite ?length_alter; exact Hlen).
      rewrite Hlen' in Hge, Hj.
      destruct (j - k)%nat as [|d] eqn:Ed; [|destruct d; discriminate].
      injection Hj as <-.
      assert (Ej : j = k) by lia. subst j.
      destruct k as [|k'] eqn:Ek; [lia|].
      replace (Z.of_nat (S k')) with i by lia.
      exists b, tl, vl.
      eexists _, _, time_left.
      split; [exact Hb|]. split; [exact Etl|]. split; [exact Etl'|].
      unfold final_record. rewrite Hvl. reflexivity. }
  destruct (early_stop_no_imp (snd vs) || no_time); exact Hs'.
Qed.

Lemma initial_shaped : shaped (ledger (initial_state w a fts)).
Proof.
  intros [|[|j]] r; cbn; try discriminate.
  intros [= <-]. exists PyFloat.zero. reflexivity.
Qed.

End Shape.

Lemma run_shaped `{X : Externals} (w : World) (a : Args) :
  let fts := _setup_tuning (config a) in
  shaped w a fts (accumulation fts) (ledger (snd (run w a))).
Proof.
  cbv zeta. rewrite run_state.
  apply (training_rule w a (_setup_tuning (config a))
           (accumulation (_setup_tuning (config a)))
           (fun _ s => shaped w a (_setup_tuning (config a))
                         (accumulation (_setup_tuning (config a))) (ledger s))
           (fun _ s => shaped w a (_setup_tuning (config a))
                         (accumulation (_setup_tuning (config a))) (ledger s))).
  - intros i s _ H _. exact H.
  - apply shaped_preserved.
  - intros e _ j r. cbn. discriminate.
  - apply initial_shaped.
  - reflexivity.
Qed.

(** ** How the loop is left *)

Lemma steps_run_app (t1 t2 : list Event) :
  steps_run (t1 ++ t2) = steps_run t1 ++ steps_run t2.
Proof. unfold steps_run. apply omap_app. Qed.

Lemma seqZ_snoc (i : Z) : 1 <= i -> seqZ 1 (i - 1) ++ [i] = seqZ 1 i.
Proof.
  intros Hi. replace (seqZ 1 i) with (seqZ 1 (i - 1 + 1)) by (f_equal; lia).
  rewrite (seqZ_app 1 (i - 1) 1) by lia. f_equal.
  rewrite (seqZ_cons _ 1) by lia. rewrite seqZ_nil by lia. f_equal. lia.
Qed.

Section Leaving.

Context `{X : Externals}.
Variables (w : World) (a : Args) (fts : FineTuneSetup) (gas : option Z).

(** At the head of the loop neither flag is set and the steps before
    [i] have run. *)
Definition still_running (i : Z) (s : Loop) : Prop :=
  early_stop_no_imp s = false
  /\ early_stop_no_time s = false
  /\ steps_run (trace s) = seqZ 1 (i - 1).

(** When the loop is left without an exception: the steps [1 .. k]
    have run, each has its record, [k] is at most the number of
    batches, and equal to it unless a flag is set; a set
    [early_stop_no_imp] means step [k] has validated. *)
Definition done_with (o : outcome unit) (s : Loop) : Prop :=
  match o with
  | Raise _ => True
  | Return _ =>
      let k := Z.of_nat (length (ledger s)) - 1 in
      steps_run (trace s) = seqZ 1 k
      /\ 0 <= k <= Z.of_nat (length (data_loader w))
      /\ (early_stop_no_imp s = false -> early_stop_no_time s = false ->
          k = Z.of_nat (length (data_loader w)))
      /\ (early_stop_no_imp s = true -> 1 <= k /\ validated (trace s) k = true)
  end.

Lemma steps_run_events (i : Z) (b : Batch) (s : Loop) :
  steps_run (events_to_validation w fts gas i b s) = [i].
Proof.
  unfold events_to_validation, step_events.
  destruct (update_at fts i), (skipped_at w fts i), (validates_at w fts i),
    (is_best_at w i s); reflexivity.
Qed.

Lemma validation_phase_no_imp (i : Z) (b : Batch) (tl : float) (prev : loc)
    (s : Loop) :
  let vs := validation_phase w fts i prev (after_skip w a fts gas i b tl s) in
  early_stop_no_imp (snd vs) = true -> validates_at w fts i = true.
Proof.
  unfold validation_phase.
  destruct (validates_at w fts i); cbn; [reflexivity|discriminate].
Qed.

Lemma left_exhausted : exhausted w fts still_running done_with.
Proof.
  intros i s H (Hi & Ht & Hs) Hlen. cbn.
  destruct H as [Hpos Hrefs Hheap _ _ _].
  rewrite (ledger_head s (Z.to_nat i)) by auto. rewrite Hheap.
  replace (Z.of_nat (Z.to_nat i) - 1) with (i - 1) by lia.
  split; [exact Hs|]. split; [lia|]. split; [lia|]. congruence.
Qed.

Lemma left_preserved : preserved w a fts gas still_running done_with.
Proof.
  intros i b s H (Hi & Ht & Hs) Hb.
  pose proof (loop_body_Head w a fts gas i b s H) as Hh.
  destruct (Z.eq_dec (update_every_n_steps fts) 0) as [Hn|Hn];
    [|destruct (Z.eq_dec (validate_every_n_steps fts) 0) as [Hv|Hv]].
  1,2: rewrite loop_body_raise by auto; exact I.
  rewrite (loop_body_at_head w a fts gas i b s H Hn Hv) in *.
  destruct (division w gas i b) as [dl|e]; [|exact I].
  destruct (reported_loss w gas i b) as [tl|e]; [|exact I].
  destruct (validation_phase_facts w a fts gas i b tl (pred (Z.to_nat i)) s)
    as (_ & _ & _ & V4 & _).
  pose proof (validation_phase_no_imp i b tl (pred (Z.to_nat i)) s) as Himp.
  cbv zeta in *.
  set (vs := validation_phase w fts i _ _) in *. clearbody vs.
  destruct (time_check w a i) as [[time_left no_time]|e]; [|exact I].
  set (s' := after_track fts i (length (heap s)) 0%nat (fst vs) time_left
               (set_early_stop_no_time no_time (snd vs))) in *.
  assert (Hpos : 1 <= i) by apply H.
  assert (Hsteps : steps_run (trace s') = seqZ 1 i).
  { unfold s', after_track, set_early_stop_no_time. cbn [trace].
    rewrite V4, !steps_run_app, Hs, steps_run_events.
    change (steps_run [RemainingPatience i _]) with (@nil Z).
    rewrite app_nil_r. apply seqZ_snoc. exact Hpos. }
  assert (Hlen : Z.of_nat (length (ledger s')) - 1 = i).
  { destruct Hh as [_ Hrefs Hheap _ _ _].
    rewrite (ledger_head s' (Z.to_nat (i + 1))) by auto.
    rewrite Hheap. lia. }
  assert (Hbound : i <= Z.of_nat (length (data_loader w))).
  { apply lookup_lt_Some in Hb. lia. }
  destruct (early_stop_no_imp (snd vs) || no_time) eqn:Estop.
  - (* break *)
    cbv beta iota. unfold done_with. cbv zeta. rewrite Hlen.
    split; [exact Hsteps|]. split; [lia|]. split.
    + unfold s', after_track, set_early_stop_no_time. cbn.
      intros E1 E2. rewrite E1, E2 in Estop. discriminate.
    + unfold s' at 1, after_track, set_early_stop_no_time.
      cbn [early_stop_no_imp]. intros E. split; [exact Hpos|].
      unfold s', after_track, set_early_stop_no_time. cbn [trace].
      rewrite V4, !validated_app, events_validated.
      rewrite (Himp E), Z.eqb_refl. cbn.
      rewrite orb_true_r. reflexivity.
  - apply orb_false_elim in Estop as [E1 E2].
    cbv beta iota. split; [exact E1|]. split; [exact E2|].
    rewrite Hsteps. f_equal. lia.
Qed.

End Leaving.

(** The reason in the report, from the two flags. *)
Lemma tore_down_reason `{X : Externals} (no_imp no_time : bool)
    (L : list StepResults.t) (report : Report) :
  _tore_down_tuning no_imp no_time L = Return report ->
  es_reason report
  = (if no_time then Some "Early stopping due no time."%string
     else if no_imp
          then Some "Early stopping due to no improvement (AdaptiveES)."%string
          else None)
  /\ total_steps report = length L.
Proof.
  unfold _tore_down_tuning.
  destruct (np_argmin_list _) as [k|]; [|discriminate].
  destruct (L !! 0%nat), (last L); try discriminate.
  intros [= <-]. cbn. destruct no_time, no_imp; auto.
Qed.

Lemma run_left `{X : Externals} (w : World) (a : Args) (report : Report) :
  fst (run w a) = Return report ->
  done_with w (Return tt) (snd (run w a))
  /\ _tore_down_tuning (early_stop_no_imp (snd (run w a)))
       (early_stop_no_time (snd (run w a))) (ledger (snd (run w a)))
     = Return report.
Proof.
  intros Hr.
  pose proof (training_rule w a (_setup_tuning (config a))
                (accumulation (_setup_tuning (config a)))
                still_running (done_with w)
                (left_exhausted w (_setup_tuning (config a)))
                (left_preserved w a (_setup_tuning (config a)) _)
                ltac:(intros; exact I)
                ltac:(repeat split) eq_refl) as HQ.
  rewrite run_unfold in *.
  destruct (training w a _ _) as [[[]|e] s]; cbn [fst snd] in *;
    [|discriminate].
  split; [exact HQ|exact Hr].
Qed.

(** ** Properties of a whole call *)

(** X3.  Every record of the ledger is complete: the record at index
    [j] has [step_index = j], and none of the fields that
    [register_meta_state] fills is [None]. *)
Theorem ledger_records_are_complete `{X : Externals} (w : World) (a : Args)
    (j : nat) (r : StepResults.t) :
  ledger (snd (run w a)) !! j = Some r ->
  StepResults.step_index r = Some (Z.of_nat j)
  /\ is_Some (StepResults.validation_loss r)
  /\ is_Some (StepResults.best_validation_loss r)
  /\ is_Some (StepResults.best_validation_score r)
  /\ is_Some (StepResults.patience_left r)
  /\ is_Some (StepResults.time_left r).
Proof.
  intros Hj. pose proof (run_shaped w a j r Hj) as Hr.
  destruct j as [|j].
  - destruct Hr as [tl ->]. cbn. repeat split; eauto.
  - destruct Hr as (b & tl & vl & best & pat & tleft & _ & _ & _ & ->).
    cbn [StepResults.register_meta_state StepResults.step_index
         StepResults.validation_loss StepResults.best_validation_loss
         StepResults.best_validation_score StepResults.patience_left
         StepResults.time_left].
    repeat split; eauto.
Qed.

(** X7.  Without gradient accumulation ([update_every_n_steps <= 1])
    the training loss in the record of step [j + 1] is the loss of the
    batch of that step, read as a Python float: nothing is divided or
    multiplied. *)
Theorem training_loss_is_batch_loss_without_accumulation `{X : Externals}
    (w : World) (a : Args) (j : nat) (r : StepResults.t) :
  update_every_n_steps (_setup_tuning (config a)) <= 1 ->
  ledger (snd (run w a)) !! S j = Some r ->
  exists b,
    data_loader w !! j = Some b
    /\ StepResults.training_loss r
       = PyFloat.item (batch_loss w (Z.of_nat (S j)) b).
Proof.
  intros Hn Hj.
  destruct (run_shaped w a (S j) r Hj)
    as (b & tl & vl & best & pat & tleft & Hb & Htl & _ & ->).
  exists b. split.
  - rewrite <- Hb. f_equal. lia.
  - unfold reported_loss, scaled_loss, accumulation in Htl.
    replace (1 <? update_every_n_steps (_setup_tuning (config a)))
      with false in Htl by (symmetry; apply Z.ltb_ge; exact Hn).
    injection Htl as <-. reflexivity.
Qed.

(** X8.  In the record of step [i >= 1], [step_with_update] says
    whether [(i + 1) % update_every_n_steps == 0];
    [optimizer_step_skipped] is set exactly when the step was one with
    an update and the scaler lowered its scale; and
    [grad_norm_before_clip] is the clipped norm on a step with an
    update and the int [-1] on any other. *)
Theorem record_flags_follow_the_update_cadence `{X : Externals}
    (w : World) (a : Args) (j : nat) (r : StepResults.t) :
  ledger (snd (run w a)) !! S j = Some r ->
  let i := Z.of_nat (S j) in
  let n := update_every_n_steps (_setup_tuning (config a)) in
  StepResults.step_with_update r = ((i + 1) mod n =? 0)
  /\ StepResults.optimizer_step_skipped r
     = (StepResults.step_with_update r
        && PyFloat.gtb (org_scale w i) (new_scale w i))
  /\ StepResults.grad_norm_before_clip r
     = (if StepResults.step_with_update r
        then PyFlt (clip_grad_norm w i) else PyInt (-1)).
Proof.
  intros Hj i n.
  destruct (run_shaped w a (S j) r Hj)
    as (b & tl & vl & best & pat & tleft & _ & _ & _ & ->).
  repeat split.
Qed.

(** X4.  When the call returns, the steps that ran are [1 .. k] with
    [k + 1] the number of records, and [k] is at most the number of
    batches.  The report has no early-stopping reason exactly when
    neither flag is set, and then every batch was trained on. *)
Theorem a_report_without_reason_means_every_batch_ran `{X : Externals}
    (w : World) (a : Args) (report : Report) :
  fst (run w a) = Return report ->
  let s := snd (run w a) in
  let k := Z.of_nat (total_steps report) - 1 in
  total_steps report = length (ledger s)
  /\ steps_run (trace s) = seqZ 1 k
  /\ 0 <= k <= Z.of_nat (length (data_loader w))
  /\ (es_reason report = None <->
      early_stop_no_imp s = false /\ early_stop_no_time s = false)
  /\ (es_reason report = None -> k = Z.of_nat (length (data_loader w))).
Proof.
  intros Hr. destruct (run_left w a report Hr) as [HQ Ht].
  apply tore_down_reason in Ht as [Hreason Htotal].
  cbv zeta. rewrite Htotal, Hreason.
  destruct HQ as (Hs & Hk & Hall & _).
  split; [reflexivity|]. split; [exact Hs|]. split; [exact Hk|].
  destruct (early_stop_no_time (snd (run w a))),
           (early_stop_no_imp (snd (run w a)));
    (split; [split; [intros; try discriminate; auto|intros [? ?]; congruence]|]);
    intros; try discriminate; auto.
Qed.

(** X5.  The loop is left for lack of improvement only at a step that
    has validated: when the report gives that reason, the last step
    ran its validation, and its optimizer step was not skipped. *)
Theorem a_stop_for_no_improvement_follows_a_validation `{X : Externals}
    (w : World) (a : Args) (report : Report) :
  fst (run w a) = Return report ->
  es_reason report
  = Some "Early stopping due to no improvement (AdaptiveES)."%string ->
  let s := snd (run w a) in
  let k := Z.of_nat (total_steps report) - 1 in
  1 <= k
  /\ validated (trace s) k = true
  /\ exists r, ledger s !! Z.to_nat k = Some r
       /\ StepResults.optimizer_step_skipped r = false.
Proof.
  intros Hr He. destruct (run_left w a report Hr) as [HQ Ht].
  apply tore_down_reason in Ht as [Hreason Htotal].
  cbv zeta. rewrite Htotal.
  destruct HQ as (_ & Hk & _ & Himp).
  assert (Eimp : early_stop_no_imp (snd (run w a)) = true).
  { rewrite Hreason in He.
    destruct (early_stop_no_time _), (early_stop_no_imp _);
      try discriminate; reflexivity. }
  destruct (Himp Eimp) as [Hk1 Hv].
  split; [exact Hk1|]. split; [exact Hv|].
  destruct (ledger (snd (run w a)) !! Z.to_nat (Z.of_nat (length (ledger (snd (run w a)))) - 1))
    as [r|] eqn:Er.
  - exists r. split; [reflexivity|].
    destruct (StepResults.optimizer_step_skipped r) eqn:Es; [|reflexivity].
    destruct (run_Done w a) as [D1 _ _ _].
    pose proof (D1 _ _ Er Es) as Hno.
    rewrite Z2Nat.id in Hno by lia. congruence.
  - apply lookup_ge_None in Er. lia.
Qed.

(** X2.  With [update_every_n_steps = 0] or
    [validate_every_n_steps = 0] and at least one batch, the call
    raises ZeroDivisionError at the first step, after the baseline
    validation, the index-0 record and the first write of the
    checkpoint file, and before any training step. *)
Theorem a_zero_cadence_raises_after_the_baseline `{X : Externals}
    (w : World) (a : Args) :
  let fts := _setup_tuning (config a) in
  update_every_n_steps fts = 0 \/ validate_every_n_steps fts = 0 ->
  check_model_for_validation a = Return tt ->
  data_loader w <> [] ->
  let s := snd (run w a) in
  fst (run w a) = Raise ZeroDivisionError
  /\ steps_run (trace s) = []
  /\ saves (trace s) = [(0, initial_validation_loss w)]
  /\ checkpoint s = Some 0
  /\ length (ledger s) = 1%nat.
Proof.
  intros fts Hz Hc Hd s. subst s.
  rewrite run_unfold, training_run, Hc.
  destruct (data_loader w) as [|b rest]; [congruence|].
  cbn [for_loop]. unfold bind.
  rewrite (loop_body_raise w a _ _ 1 b _ Hz).
  repeat split.
Qed.

(** ** The call returns *)

(** A mantissa that is canonical for its exponent is left as it is. *)
Lemma binary_round_aux_canonical (sx : bool) (m : positive) (e : Z) :
  fexp 53 1024 (Zpos (digits2_pos m) + e) = e -> e <= 1024 - 53 ->
  binary_round_aux 53 1024 sx (Zpos m) e loc_Exact = S754_finite sx m e.
Proof.
  intros Hc He.
  assert (Hs : shr_fexp 53 1024 (Zpos m) e loc_Exact
               = ({| shr_m := Zpos m; shr_r := false; shr_s := false |}, e)).
  { unfold shr_fexp. cbn [Zdigits2]. rewrite Hc, Z.sub_diag. reflexivity. }
  unfold binary_round_aux. rewrite Hs. cbn [shr_m loc_of_shr_record
    round_nearest_even]. rewrite Hs. cbn [shr_m].
  apply Z.leb_le in He. rewrite He. reflexivity.
Qed.

Lemma digits2_pos_iter_xO (d m : positive) :
  Zpos (digits2_pos (Pos.iter xO m d)) = Zpos (digits2_pos m) + Zpos d.
Proof.
  induction d as [|d IH] using Pos.peano_ind.
  - cbn. lia.
  - rewrite Pos.iter_succ. cbn [digits2_pos]. rewrite Pos2Z.inj_succ, IH. lia.
Qed.

(** [float(i)] for an int [1 <= i < 2^53] is a positive float. *)
Lemma of_int_small (i : Z) :
  1 <= i < 2 ^ 53 ->
  exists m e, PyFloat.of_int i = Some (S754_finite false m e).
Proof.
  intros Hi. destruct i as [|p|p]; try lia.
  unfold PyFloat.of_int, PyFloat.prec, PyFloat.emax, binary_normalize,
    binary_round.
  pose proof (digits2_pos_bounds p) as [Hlo _].
  set (d := Zpos (digits2_pos p)) in *.
  assert (Hd : 1 <= d <= 53).
  { split; [unfold d; lia|].
    destruct (Z_le_gt_dec d 53) as [|Hgt]; [assumption|].
    assert (2 ^ 53 <= 2 ^ (d - 1)) by (apply Z.pow_le_mono_r; lia). lia. }
  assert (Hf : fexp 53 1024 (d + 0) = d - 53).
  { unfold fexp, emin. lia. }
  rewrite Hf. unfold shl_align.
  destruct (d - 53 - 0) as [|k|k] eqn:Ek; try lia.
  - (* already 53 digits *)
    rewrite binary_round_aux_canonical; [eauto| |lia].
    fold d. unfold fexp, emin. lia.
  - (* shifted to 53 digits *)
    rewrite binary_round_aux_canonical; [eauto| |lia].
    rewrite digits2_pos_iter_xO. fold d. unfold fexp, emin. lia.
Qed.

Lemma floats_defined (l : list (option float)) :
  Forall is_Some l -> exists vs, floats l = Return vs /\ length vs = length l.
Proof.
  induction 1 as [|o l [x ->] _ (vs & IH & Hlen)]; cbn.
  - exists []. auto.
  - rewrite IH. exists (x :: vs). cbn. auto.
Qed.

Section Returns.

Context `{X : Externals}.
Variables (w : World) (a : Args) (fts : FineTuneSetup).

Hypothesis Hn : update_every_n_steps fts <> 0.
Hypothesis Hv : validate_every_n_steps fts <> 0.
Hypothesis Ho : PyFloat.of_int (update_every_n_steps fts) <> None.
Hypothesis Hd : forall i b,
  data_loader w !! Z.to_nat (i - 1) = Some b ->
  exists y, division w (accumulation fts) i b = Return y.
Hypothesis Hl : PyFloat.of_int (time_limit a) <> None.
Hypothesis Hb : Z.of_nat (length (data_loader w)) < 2 ^ 53.

Lemma time_check_defined (i : Z) :
  1 <= i < 2 ^ 53 -> exists r, time_check w a i = Return r.
Proof.
  intros Hi. unfold time_check, py_int_sub, py_truediv_int.
  destruct (PyFloat.of_int (time_limit a)) as [limit|]; [|congruence].
  cbv zeta. destruct (PyFloat.leb _ _); [eauto|].
  destruct (of_int_small i Hi) as (m & e & ->). cbn. eauto.
Qed.

Lemma returns_preserved :
  preserved w a fts (accumulation fts) (fun _ _ => True)
            (fun o _ => o = Return tt).
Proof.
  intros i b s H _ Hlk.
  rewrite (loop_body_at_head w a fts _ i b s H Hn Hv).
  destruct (Hd i b Hlk) as [y ->].
  destruct (reported_loss_ok w fts i b Ho) as [tl ->].
  assert (Hi : 1 <= i < 2 ^ 53).
  { destruct H as [Hpos _ _ _ _ _]. apply lookup_lt_Some in Hlk. lia. }
  destruct (time_check_defined i Hi) as [[time_left no_time] ->].
  cbv zeta. destruct (_ || _); auto.
Qed.

End Returns.

(** X1.  The call returns its report, with no exception, whenever the
    check of [model_for_validation] passes, both cadences are non-zero,
    the division of every batch's loss by [update_every_n_steps]
    returns, the ints [update_every_n_steps] and [time_limit] are in
    the range of a float, and the data loader yields fewer than [2^53]
    batches. *)
Theorem the_call_returns_its_report `{X : Externals} (w : World) (a : Args) :
  let fts := _setup_tuning (config a) in
  check_model_for_validation a = Return tt ->
  update_every_n_steps fts <> 0 ->
  validate_every_n_steps fts <> 0 ->
  PyFloat.of_int (update_every_n_steps fts) <> None ->
  (forall i b, data_loader w !! Z.to_nat (i - 1) = Some b ->
               exists y, division w (accumulation fts) i b = Return y) ->
  PyFloat.of_int (time_limit a) <> None ->
  Z.of_nat (length (data_loader w)) < 2 ^ 53 ->
  exists report,
    fst (run w a) = Return report
    /\ report_initial_validation_loss report = Some (initial_validation_loss w)
    /\ (1 <= total_steps report <= S (length (data_loader w)))%nat.
Proof.
  intros fts Hc Hn Hv Ho Hd Hl Hb.
  pose proof (training_rule w a fts (accumulation fts)
                (fun _ _ => True) (fun o _ => o = Return tt)
                ltac:(intros ? ? _ _ _; reflexivity)
                (returns_preserved w a fts Hn Hv Ho Hd Hl Hb)
                ltac:(intros e He; congruence) I eq_refl) as Hret.
  pose proof (run_shaped w a) as Hshape. cbv zeta in Hshape.
  pose proof (training_rule w a fts (accumulation fts)
                still_running (done_with w)
                (left_exhausted w fts) (left_preserved w a fts _)
                ltac:(intros; exact I) ltac:(repeat split) eq_refl) as Hleft.
  rewrite run_state in Hshape. rewrite run_unfold. fold fts in Hshape |- *.
  destruct (training w a fts (boot fts)) as [[[]|e] s]; cbn [fst snd] in *;
    [|discriminate].
  destruct Hleft as (_ & Hk & _ & _).
  set (L := ledger s) in *.
  assert (Hvals : Forall is_Some (StepResults.validation_loss <$> L)).
  { apply Forall_fmap, Forall_lookup. intros j r Hj.
    exact (shaped_validation_loss w a fts _ L j r Hshape Hj). }
  destruct (floats_defined _ Hvals) as (vs & Hvs & Hlen).
  rewrite length_fmap in Hlen.
  destruct L as [|r0 L'] eqn:EL; [cbn in Hk; lia|].
  destruct vs as [|v vs']; [discriminate|].
  destruct (np_argmin_defined v vs') as [best Hbest].
  unfold _tore_down_tuning.
  rewrite (np_argmin_list_floats _ _ Hvs), Hbest.
  change ((r0 :: L') !! 0%nat) with (Some r0).
  destruct (last (r0 :: L')) as [rl|] eqn:El.
  2: { apply last_None in El. discriminate. }
  eexists. split; [reflexivity|]. cbn [report_initial_validation_loss total_steps].
  split.
  - destruct (Hshape 0%nat r0 eq_refl) as [tl ->]. reflexivity.
  - cbn [length] in *. lia.
Qed.

(** ** The best validation loss in the records *)

(** The losses written to the checkpoint file up to step [j]. *)
Definition saves_upto (t : list Event) (j : Z) : list float :=
  omap (fun e => match e with
                 | TorchSave i v => if i <=? j then Some v else None
                 | _ => None
                 end) t.

Lemma saves_upto_app (t1 t2 : list Event) (j : Z) :
  saves_upto (t1 ++ t2) j = saves_upto t1 j ++ saves_upto t2 j.
Proof. unfold saves_upto. apply omap_app. Qed.

Lemma saves_upto_all (t : list Event) (j : Z) :
  Forall (fun e => event_step e <= j) t -> saves_upto t j = snd <$> saves t.
Proof.
  induction 1 as [|e t He _ IH]; [reflexivity|].
  unfold saves_upto, saves in *. cbn. rewrite IH.
  destruct e; try reflexivity. cbn in He.
  replace (step_i <=? j) with true by (symmetry; apply Z.leb_le; lia).
  reflexivity.
Qed.

Lemma saves_upto_later (t : list Event) (i j : Z) :
  Forall (fun e => event_step e = i) t -> j < i -> saves_upto t j = [].
Proof.
  induction 1 as [|e t He _ IH]; intros Hj; [reflexivity|].
  unfold saves_upto in *. cbn. rewrite (IH Hj).
  destruct e; try reflexivity. cbn in He.
  replace (step_i <=? j) with false by (symmetry; apply Z.leb_gt; lia).
  reflexivity.
Qed.

Lemma ltb_irrefl (x : float) : PyFloat.ltb x x = false.
Proof.
  unfold PyFloat.ltb, SFltb.
  destruct x as [[]|[]| |[] m e]; cbn; try reflexivity;
    rewrite Z.compare_refl, Pos.compare_cont_refl; reflexivity.
Qed.

Section Best.

Context `{X : Externals}.
Variables (w : World) (a : Args) (fts : FineTuneSetup) (gas : option Z).

(** The record at index [j] holds a validation loss that is not below
    its best validation loss, which is the loss of the last write of
    the checkpoint file up to step [j], with its score. *)
Definition best_recorded (t : list Event) (j : nat) (r : StepResults.t) : Prop :=
  exists vl best,
    StepResults.validation_loss r = Some vl
    /\ StepResults.best_validation_loss r = Some best
    /\ StepResults.best_validation_score r = Some (convert_error_to_score best)
    /\ PyFloat.ltb vl best = false
    /\ last (saves_upto t (Z.of_nat j)) = Some best.

Definition best_kept (L : list StepResults.t) (t : list Event) : Prop :=
  forall (j : nat) (r : StepResults.t), L !! j = Some r -> best_recorded t j r.

Lemma best_kept_events (L : list StepResults.t) (t E : list Event) (i : Z) :
  Z.of_nat (length L) <= i ->
  Forall (fun e => event_step e = i) E ->
  best_kept L t -> best_kept L (t ++ E).
Proof.
  intros Hlen HE HL j r Hj.
  destruct (HL j r Hj) as (vl & best & H1 & H2 & H3 & H4 & H5).
  exists vl, best. repeat split; auto.
  rewrite saves_upto_app, (saves_upto_later E i), app_nil_r; auto.
  apply lookup_lt_Some in Hj. lia.
Qed.

Lemma best_kept_backfill (L : list StepResults.t) (t : list Event) (x : float) :
  best_kept L t -> best_kept (alter (StepResults.set_training_loss x) 0%nat L) t.
Proof.
  intros HL j r Hj. rewrite list_lookup_alter in Hj.
  destruct (decide (0%nat = j)) as [<-|Hne]; [|exact (HL j r Hj)].
  destruct (L !! 0%nat) as [r0|] eqn:E0; [|discriminate].
  injection Hj as <-. exact (HL 0%nat r0 E0).
Qed.

Definition best_at_head (i : Z) (s : Loop) : Prop :=
  best_kept (ledger s) (trace s)
  /\ last (snd <$> saves (trace s)) = Some (best_validation_loss s).

Lemma best_preserved :
  preserved w a fts gas best_at_head
            (fun _ s => best_kept (ledger s) (trace s)).
Proof.
  intros i b s H [HL Hlast] Hb.
  destruct (Z.eq_dec (update_every_n_steps fts) 0) as [Hn|Hn];
    [|destruct (Z.eq_dec (validate_every_n_steps fts) 0) as [Hv|Hv]].
  1,2: rewrite loop_body_raise by auto; exact HL.
  rewrite (loop_body_at_head w a fts gas i b s H Hn Hv).
  assert (Hlen : Z.of_nat (length (ledger s)) <= i).
  { destruct (loop_body_ledger w a fts gas i b s PyFloat.zero H) as (E & _).
    rewrite E. destruct H as [Hpos _ Hheap _ _ _]. rewrite Hheap. lia. }
  destruct (division w gas i b) as [dl|e]; [|exact HL].
  destruct (reported_loss w gas i b) as [tl|e].
  2: { destruct (loop_body_ledger w a fts gas i b s PyFloat.zero H)
         as (_ & -> & _).
       cbn [trace after_step]. apply (best_kept_events _ _ _ i); auto.
       unfold step_events. destruct (update_at fts i); repeat constructor. }
  destruct (loop_body_ledger w a fts gas i b s tl H) as (HLh & _ & L3 & L4).
  destruct (validation_phase_facts w a fts gas i b tl (pred (Z.to_nat i)) s)
    as (_ & _ & _ & V4 & V5).
  destruct (validation_phase_state w a fts gas i b tl (pred (Z.to_nat i)) s)
    as (B1 & _).
  cbv zeta in *.
  set (vs := validation_phase w fts i _ _) in *. clearbody vs.
  assert (Hvs : best_kept (ledger s) (trace (snd vs))).
  { rewrite V4. apply (best_kept_events _ _ _ i); auto. apply events_step. }
  destruct (time_check w a i) as [[time_left no_time]|e].
  2: { rewrite L3. exact Hvs. }
  set (s3 := set_early_stop_no_time no_time (snd vs)) in *.
  set (s' := after_track fts i (length (heap s)) 0%nat (fst vs) time_left s3).
  destruct H as [Hpos Hrefs Hheap Hev _ _].
  set (k := Z.to_nat i) in *.
  assert (Hk : length (ledger s) = k) by (rewrite HLh; exact Hheap).
  (* the last write up to this step *)
  assert (Hsaves : snd <$> saves (trace (snd vs))
                   = (snd <$> saves (trace s))
                     ++ (if validates_at w fts i && is_best_at w i s
                         then [validation_loss_at w i] else [])).
  { rewrite V4, saves_app, fmap_app, saves_events.
    destruct (_ && _); reflexivity. }
  assert (Hlast3 : last (snd <$> saves (trace (snd vs)))
                   = Some (best_validation_loss (snd vs))).
  { rewrite Hsaves, B1.
    destruct (_ && _); [apply last_snoc|rewrite app_nil_r; exact Hlast]. }
  assert (Hev3 : Forall (fun e => event_step e <= i) (trace (snd vs))).
  { rewrite V4. apply Forall_app. split.
    - eapply Forall_impl; [exact Hev|]. cbn. intros; lia.
    - eapply Forall_impl; [apply events_step|]. cbn. intros; lia. }
  (* the validation loss of the new record is not below the best *)
  assert (Hvl : exists vl, fst vs = Some vl
                  /\ PyFloat.ltb vl (best_validation_loss (snd vs)) = false).
  { rewrite V5, B1. unfold is_best_at.
    destruct (validates_at w fts i); cbn [andb].
    - exists (validation_loss_at w i). split; [reflexivity|].
      destruct (PyFloat.ltb (validation_loss_at w i) (best_validation_loss s))
        eqn:E; [apply ltb_irrefl|exact E].
    - rewrite app_nth1 by lia.
      assert (Hp : ledger s !! pred k = Some (nth (pred k) (heap s) blank)).
      { rewrite HLh. destruct (heap s !! pred k) eqn:E.
        - f_equal. symmetry. eapply nth_lookup_Some. exact E.
        - apply lookup_ge_None in E. lia. }
      destruct (HL _ _ Hp) as (vl & best & H1 & _ & _ & H4 & H5).
      exists vl. split; [exact H1|].
      rewrite (saves_upto_all (trace s)) in H5.
      2: { eapply Forall_impl; [exact Hev|]. cbn. intros; lia. }
      rewrite Hlast in H5. injection H5 as <-. exact H4. }
  destruct Hvl as (vl & Hvl1 & Hvl2).
  assert (Hs' : best_at_head (i + 1) s').
  { split.
    - unfold s', s3. rewrite L4. cbn [trace after_track].
      change (trace (set_early_stop_no_time no_time (snd vs)))
        with (trace (snd vs)).
      change (best_validation_loss (set_early_stop_no_time no_time (snd vs)))
        with (best_validation_loss (snd vs)).
      intros j r Hj. unfold ledger_with in Hj.
      apply lookup_app_Some in Hj as [Hj|[Hge Hj]].
      + assert (Hold : best_kept (if i =? 1
                                  then alter (StepResults.set_training_loss tl)
                                             0%nat (ledger s)
                                  else ledger s) (trace (snd vs))).
        { destruct (i =? 1); [apply best_kept_backfill|]; exact Hvs. }
        refine (best_kept_events _ _ _ i _ _ Hold j r Hj).
        * destruct (i =? 1); rewrite ?length_alter; lia.
        * repeat constructor.
      + assert (Hlen' : length (if i =? 1
                                then alter (StepResults.set_training_loss tl)
                                           0%nat (ledger s)
                                else ledger s) = k)
          by (destruct (i =? 1); rewrite ?length_alter; exact Hk).
        rewrite Hlen' in Hge, Hj.
        destruct (j - k)%nat as [|d] eqn:Ed; [|destruct d; discriminate].
        injection Hj as <-. assert (j = k) by lia. subst j.
        exists vl, (best_validation_loss (snd vs)).
        split; [exact Hvl1|]. split; [reflexivity|]. split; [reflexivity|].
        split; [exact Hvl2|].
        rewrite saves_upto_app.
        change (saves_upto [RemainingPatience i _] (Z.of_nat k)) with (@nil float).
        rewrite app_nil_r, saves_upto_all; [exact Hlast3|].
        eapply Forall_impl; [exact Hev3|]. cbn. intros; lia.
    - unfold s', s3. cbn [trace after_track best_validation_loss].
      change (trace (set_early_stop_no_time no_time (snd vs)))
        with (trace (snd vs)).
      change (best_validation_loss (set_early_stop_no_time no_time (snd vs)))
        with (best_validation_loss (snd vs)).
      rewrite saves_app. cbn. rewrite app_nil_r. exact Hlast3. }
  fold s'. destruct (early_stop_no_imp (snd vs) || no_time);
    [apply Hs'|exact Hs'].
Qed.

End Best.

(** X9.  In every record of the ledger, [best_validation_loss] is the
    loss of the last write of the checkpoint file up to that step,
    [best_validation_score] is its score, and [validation_loss] is not
    below it. *)
Theorem records_hold_the_best_loss_so_far `{X : Externals}
    (w : World) (a : Args) (j : nat) (r : StepResults.t) :
  let s := snd (run w a) in
  ledger s !! j = Some r ->
  exists vl best,
    StepResults.validation_loss r = Some vl
    /\ StepResults.best_validation_loss r = Some best
    /\ StepResults.best_validation_score r = Some (convert_error_to_score best)
    /\ PyFloat.ltb vl best = false
    /\ last (saves_upto (trace s) (Z.of_nat j)) = Some best.
Proof.
  cbv zeta. rewrite run_state. revert j r.
  apply (training_rule w a (_setup_tuning (config a))
           (accumulation (_setup_tuning (config a)))
           (best_at_head)
           (fun _ s => best_kept (ledger s) (trace s))).
  - intros i s _ [H _] _. exact H.
  - apply best_preserved.
  - intros e _ j r. cbn. discriminate.
  - split; [|reflexivity].
    intros [|[|j]] r; cbn; try discriminate. intros [= <-].
    exists (initial_validation_loss w), (initial_validation_loss w).
    repeat split. apply ltb_irrefl.
  - reflexivity.
Qed.

(** ** The best step of the report *)

(** The order of floats, as far as [np.argmin] and the loop use it. *)
Ltac compare_cases :=
  repeat match goal with
         | |- context [Z.compare ?u ?v] =>
             destruct (Z.compare_spec u v); try lia; subst
         | |- context [Pos.compare_cont Eq ?p ?q] =>
             change (Pos.compare_cont Eq p q) with (Pos.compare p q)
         | |- context [Pos.compare ?p ?q] =>
             destruct (Pos.compare_spec p q); try lia; subst
         end.

Lemma ltb_leb (x y : float) :
  PyFloat.ltb x y = true -> PyFloat.leb x y = true.
Proof.
  unfold PyFloat.ltb, PyFloat.leb, SFltb, SFleb.
  destruct (SFcompare x y) as [[]|]; congruence.
Qed.

Lemma ltb_not_leb (x y : float) :
  PyFloat.ltb x y = true -> PyFloat.leb y x = false.
Proof.
  unfold PyFloat.ltb, PyFloat.leb, SFltb, SFleb.
  destruct x as [[]|[]| |[] mx ex], y as [[]|[]| |[] my ey]; cbn;
    try congruence; compare_cases; cbn; congruence.
Qed.

Lemma leb_refl (x : float) : x <> S754_nan -> PyFloat.leb x x = true.
Proof.
  unfold PyFloat.leb, SFleb.
  destruct x as [[]|[]| |[] m e]; cbn; try congruence; intros _;
    rewrite Z.compare_refl, Pos.compare_cont_refl; reflexivity.
Qed.

Lemma not_ltb_leb (x y : float) :
  x <> S754_nan -> y <> S754_nan ->
  PyFloat.ltb x y = false -> PyFloat.leb y x = true.
Proof.
  unfold PyFloat.ltb, PyFloat.leb, SFltb, SFleb.
  destruct x as [[]|[]| |[] mx ex], y as [[]|[]| |[] my ey]; cbn;
    try congruence; intros _ _; compare_cases; cbn; congruence.
Qed.

Lemma ltb_leb_trans (x y z : float) :
  PyFloat.ltb x y = true -> PyFloat.leb y z = true -> PyFloat.ltb x z = true.
Proof.
  unfold PyFloat.ltb, PyFloat.leb, SFltb, SFleb.
  destruct x as [[]|[]| |[] mx ex], y as [[]|[]| |[] my ey],
           z as [[]|[]| |[] mz ez]; cbn; try congruence;
    compare_cases; cbn; congruence.
Qed.

(** [np.argmin] returns the first index of a value that is strictly
    below all the earlier ones and not above any other. *)
Lemma argmin_from_first (l : list float) :
  forall (mp : float) (best i c : nat) (m : float),
    Forall (fun x => x <> S754_nan) l ->
    (c = best /\ Forall (fun x => PyFloat.leb mp x = true) l)
    \/ (exists k : nat,
           c = (i + k)%nat /\ l !! k = Some m
           /\ PyFloat.ltb m mp = true
           /\ (forall (j : nat) x, (j < k)%nat -> l !! j = Some x ->
                                   PyFloat.ltb m x = true)
           /\ (forall (j : nat) x, l !! j = Some x -> PyFloat.leb m x = true)) ->
    argmin_from mp best i l = c.
Proof.
  induction l as [|x l IH]; intros mp best i c m Hnan Hc.
  - destruct Hc as [[-> _]|(k & _ & Hk & _)]; [reflexivity|discriminate].
  - apply Forall_cons in Hnan as [Hx Hnan]. cbn [argmin_from].
    change (SFleb mp x) with (PyFloat.leb mp x).
    destruct Hc as [[-> Hall]|(k & -> & Hk & Hlt & Hbefore & Hall)].
    + apply Forall_cons in Hall as [-> Hall].
      apply (IH mp best (S i) best m Hnan). left. auto.
    + destruct k as [|k].
      * injection Hk as ->. rewrite (ltb_not_leb _ _ Hlt).
        destruct m; try congruence;
          apply (IH _ i (S i) (i + 0)%nat mp Hnan); left;
          (split; [lia|]); apply Forall_lookup; intros j y Hj;
          exact (Hall (S j) y Hj).
      * assert (Hmx : PyFloat.ltb m x = true)
          by (apply (Hbefore 0%nat x); [lia|reflexivity]).
        assert (Hrest : forall mp', PyFloat.ltb m mp' = true ->
                  forall best', argmin_from mp' best' (S i) l = (i + S k)%nat).
        { intros mp' Hmp' best'. apply (IH mp' best' (S i) _ m Hnan). right.
          exists k. split; [lia|]. split; [exact Hk|]. split; [exact Hmp'|].
          split.
          - intros j y Hj Hy. apply (Hbefore (S j) y); [lia|exact Hy].
          - intros j y Hy. exact (Hall (S j) y Hy). }
        destruct (PyFloat.leb mp x); [apply Hrest; exact Hlt|].
        destruct x; try congruence; apply Hrest; exact Hmx.
Qed.

Lemma np_argmin_first (l : list float) (c : nat) (m : float) :
  Forall (fun x => x <> S754_nan) l ->
  l !! c = Some m ->
  (forall (j : nat) x, (j < c)%nat -> l !! j = Some x -> PyFloat.ltb m x = true) ->
  (forall (j : nat) x, l !! j = Some x -> PyFloat.leb m x = true) ->
  np_argmin l = Return c.
Proof.
  intros Hnan Hc Hbefore Hall.
  destruct l as [|x l]; [discriminate|].
  apply Forall_cons in Hnan as [Hx Hnan].
  assert (E : np_argmin (x :: l) = Return (argmin_from x 0%nat 1%nat l))
    by (destruct x; try reflexivity; congruence).
  rewrite E. f_equal.
  apply (argmin_from_first l x 0%nat 1%nat c m Hnan).
  destruct c as [|k].
  - left. injection Hc as ->. split; [reflexivity|].
    apply Forall_lookup. intros j y Hj. exact (Hall (S j) y Hj).
  - right. exists k. split; [reflexivity|]. split; [exact Hc|].
    split; [apply (Hbefore 0%nat x); [lia|reflexivity]|]. split.
    + intros j y Hj Hy. apply (Hbefore (S j) y); [lia|exact Hy].
    + intros j y Hy. exact (Hall (S j) y Hy).
Qed.

Lemma floats_lookup (l : list (option float)) (vs : list float) :
  floats l = Return vs -> l = Some <$> vs.
Proof.
  revert vs. induction l as [|[x|] l IH]; intros vs; cbn.
  - intros [= <-]. reflexivity.
  - destruct (floats l) as [xs|]; [|discriminate].
    intros [= <-]. cbn. f_equal. apply IH. reflexivity.
  - discriminate.
Qed.

Section BestStep.

Context `{X : Externals}.
Variables (w : World) (a : Args) (fts : FineTuneSetup) (gas : option Z).

Hypothesis initial_not_nan : initial_validation_loss w <> S754_nan.
Hypothesis never_nan : forall i, validation_loss_at w i <> S754_nan.

(** The record at index [c] holds the best loss, strictly below the
    losses of the records before it and not above any. *)
Definition first_minimum (L : list StepResults.t) (c : nat) (best : float)
  : Prop :=
  (exists r, L !! c = Some r /\ StepResults.validation_loss r = Some best)
  /\ (forall (j : nat) r x,
         (j < c)%nat -> L !! j = Some r ->
         StepResults.validation_loss r = Some x -> PyFloat.ltb best x = true)
  /\ (forall (j : nat) r x,
         L !! j = Some r -> StepResults.validation_loss r = Some x ->
         PyFloat.leb best x = true /\ x <> S754_nan).

Definition checkpoint_is_minimum (s : Loop) : Prop :=
  exists c : nat,
    checkpoint s = Some (Z.of_nat c)
    /\ first_minimum (ledger s) c (best_validation_loss s).

Lemma first_minimum_not_nan (L : list StepResults.t) (c : nat) (best : float) :
  first_minimum L c best -> best <> S754_nan.
Proof.
  intros ((r & Hr & Hv) & _ & Hall). exact (proj2 (Hall c r best Hr Hv)).
Qed.

Lemma first_minimum_backfill (L : list StepResults.t) (c : nat) (best x : float) :
  first_minimum L c best ->
  first_minimum (alter (StepResults.set_training_loss x) 0%nat L) c best.
Proof.
  assert (Hl : forall (j : nat) r,
             alter (StepResults.set_training_loss x) 0%nat L !! j = Some r ->
             exists r', L !! j = Some r'
               /\ StepResults.validation_loss r = StepResults.validation_loss r').
  { intros j r. rewrite list_lookup_alter.
    destruct (decide (0%nat = j)) as [<-|Hne]; [|eauto].
    destruct (L !! 0%nat) as [r'|]; cbn; [|discriminate].
    intros [= <-]. eauto. }
  intros ((r & Hr & Hv) & Hbefore & Hall). split; [|split].
  - destruct (decide (c = 0%nat)) as [->|Hne].
    + exists (StepResults.set_training_loss x r). split; [|exact Hv].
      rewrite list_lookup_alter, Hr.
      destruct (decide (0%nat = 0%nat)); [reflexivity|congruence].
    + exists r. split; [|exact Hv].
      rewrite list_lookup_alter.
      destruct (decide (0%nat = c)); [congruence|exact Hr].
  - intros j r' y Hj Hr' Hy. destruct (Hl j r' Hr') as (r0 & H0 & E).
    rewrite E in Hy. eauto.
  - intros j r' y Hr' Hy. destruct (Hl j r' Hr') as (r0 & H0 & E).
    rewrite E in Hy. eauto.
Qed.

(** The ledger grows by a record whose loss is not below the best. *)
Lemma first_minimum_keep (L : list StepResults.t) (c : nat) (best : float)
    (rf : StepResults.t) :
  first_minimum L c best ->
  (forall x, StepResults.validation_loss rf = Some x ->
             PyFloat.leb best x = true /\ x <> S754_nan) ->
  first_minimum (L ++ [rf]) c best.
Proof.
  intros ((r & Hr & Hv) & Hbefore & Hall) Hrf. split; [|split].
  - exists r. split; [|exact Hv]. apply lookup_app_l_Some. exact Hr.
  - intros j r' y Hj Hr' Hy. apply lookup_lt_Some in Hr as Hc.
    rewrite lookup_app_l in Hr' by lia. eauto.
  - intros j r' y Hr' Hy.
    apply lookup_app_Some in Hr' as [Hr'|[_ Hr']]; [eauto|].
    destruct (j - length L)%nat as [|d]; [|destruct d; discriminate].
    injection Hr' as <-. auto.
Qed.

(** The ledger grows by a record with a new best loss. *)
Lemma first_minimum_new (L : list StepResults.t) (c : nat) (best v : float)
    (rf : StepResults.t) :
  first_minimum L c best ->
  StepResults.validation_loss rf = Some v ->
  v <> S754_nan -> PyFloat.ltb v best = true ->
  first_minimum (L ++ [rf]) (length L) v.
Proof.
  intros ((r & Hr & Hv) & Hbefore & Hall) Hrf Hnan Hlt.
  assert (Hold : forall (j : nat) r' y,
             L !! j = Some r' -> StepResults.validation_loss r' = Some y ->
             PyFloat.ltb v y = true /\ y <> S754_nan).
  { intros j r' y Hr' Hy. destruct (Hall j r' y Hr' Hy) as [Hle Hy'].
    split; [|exact Hy']. eapply ltb_leb_trans; eauto. }
  split; [|split].
  - exists rf. split; [|exact Hrf]. apply list_lookup_middle. reflexivity.
  - intros j r' y Hj Hr' Hy. rewrite lookup_app_l in Hr' by lia.
    exact (proj1 (Hold j r' y Hr' Hy)).
  - intros j r' y Hr' Hy.
    apply lookup_app_Some in Hr' as [Hr'|[_ Hr']].
    + destruct (Hold j r' y Hr' Hy) as [H1 H2]. split; [|exact H2].
      apply ltb_leb. exact H1.
    + destruct (j - length L)%nat as [|d]; [|destruct d; discriminate].
      injection Hr' as <-. rewrite Hrf in Hy. injection Hy as <-.
      split; [apply leb_refl|]; exact Hnan.
Qed.

Lemma minimum_preserved :
  preserved w a fts gas (fun _ => checkpoint_is_minimum)
    (fun o s => match o with
                | Return _ => checkpoint_is_minimum s
                | Raise _ => True
                end).
Proof.
  intros i b s H (c & Hc & Hmin) Hb.
  destruct (Z.eq_dec (update_every_n_steps fts) 0) as [Hn|Hn];
    [|destruct (Z.eq_dec (validate_every_n_steps fts) 0) as [Hv|Hv]].
  1,2: rewrite loop_body_raise by auto; exact I.
  rewrite (loop_body_at_head w a fts gas i b s H Hn Hv).
  destruct (division w gas i b) as [dl|e]; [|exact I].
  destruct (reported_loss w gas i b) as [tl|e]; [|exact I].
  destruct (loop_body_ledger w a fts gas i b s tl H) as (HLh & _ & _ & L4).
  destruct (validation_phase_facts w a fts gas i b tl (pred (Z.to_nat i)) s)
    as (_ & _ & _ & _ & V5).
  destruct (validation_phase_state w a fts gas i b tl (pred (Z.to_nat i)) s)
    as (B1 & B2 & _).
  cbv zeta in *.
  set (vs := validation_phase w fts i _ _) in *. clearbody vs.
  destruct (time_check w a i) as [[time_left no_time]|e]; [|exact I].
  destruct H as [Hpos Hrefs Hheap _ _ _].
  set (k := Z.to_nat i) in *.
  assert (Hk : length (ledger s) = k) by (rewrite HLh; exact Hheap).
  set (L := if i =? 1
            then alter (StepResults.set_training_loss tl) 0%nat (ledger s)
            else ledger s).
  assert (HL : first_minimum L c (best_validation_loss s)).
  { unfold L. destruct (i =? 1); [apply first_minimum_backfill|]; exact Hmin. }
  assert (HlenL : length L = k).
  { unfold L. destruct (i =? 1); rewrite ?length_alter; exact Hk. }
  assert (Hs' : checkpoint_is_minimum
                  (after_track fts i (length (heap s)) 0%nat (fst vs) time_left
                     (set_early_stop_no_time no_time (snd vs)))).
  { unfold checkpoint_is_minimum. rewrite L4.
    cbn [checkpoint after_track best_validation_loss].
    change (checkpoint (set_early_stop_no_time no_time (snd vs)))
      with (checkpoint (snd vs)).
    change (best_validation_loss (set_early_stop_no_time no_time (snd vs)))
      with (best_validation_loss (snd vs)).
    rewrite B1, B2. unfold ledger_with. fold L.
    set (rf := final_record fts i (fst vs) time_left
                 (set_early_stop_no_time no_time (snd vs))
                 (fresh_record w a fts i tl)).
    assert (Hrf : StepResults.validation_loss rf = fst vs) by reflexivity.
    unfold is_best_at.
    destruct (validates_at w fts i) eqn:Eval; cbn [andb].
    - destruct (PyFloat.ltb (validation_loss_at w i) (best_validation_loss s))
        eqn:Ebest.
      + exists k. split; [f_equal; lia|]. rewrite <- HlenL.
        apply (first_minimum_new L c (best_validation_loss s));
          [exact HL|rewrite Hrf, V5; reflexivity|apply never_nan|exact Ebest].
      + exists c. split; [exact Hc|].
        apply first_minimum_keep; [exact HL|].
        intros x Hx. rewrite Hrf, V5 in Hx. injection Hx as <-.
        split; [|apply never_nan].
        apply not_ltb_leb;
          [apply never_nan|exact (first_minimum_not_nan _ _ _ Hmin)|exact Ebest].
    - exists c. split; [exact Hc|].
      apply first_minimum_keep; [exact HL|].
      intros x Hx. rewrite Hrf, V5 in Hx.
      rewrite app_nth1 in Hx by lia.
      assert (Hp : ledger s !! pred k = Some (nth (pred k) (heap s) blank)).
      { rewrite HLh. destruct (heap s !! pred k) eqn:E.
        - f_equal. symmetry. eapply nth_lookup_Some. exact E.
        - apply lookup_ge_None in E. lia. }
      destruct Hmin as (_ & _ & Hall). exact (Hall _ _ x Hp Hx). }
  destruct (early_stop_no_imp (snd vs) || no_time); exact Hs'.
Qed.

End BestStep.

(** X10.  When no validation loss is a NaN, the best step of the
    report is the step whose model the checkpoint file holds. *)
Theorem the_best_step_is_the_checkpoint `{X : Externals}
    (w : World) (a : Args) (report : Report) :
  initial_validation_loss w <> S754_nan ->
  (forall i, validation_loss_at w i <> S754_nan) ->
  fst (run w a) = Return report ->
  checkpoint (snd (run w a)) = Some (Z.of_nat (best_step report)).
Proof.
  intros H0 Hnan Hr.
  pose proof (training_rule w a (_setup_tuning (config a))
                (accumulation (_setup_tuning (config a)))
                (fun _ => checkpoint_is_minimum)
                (fun o s => match o with
                            | Return _ => checkpoint_is_minimum s
                            | Raise _ => True
                            end)
                ltac:(intros ? ? _ Hp _; exact Hp)
                (minimum_preserved w a _ _ Hnan)
                ltac:(intros; exact I)) as HQ.
  rewrite run_unfold in *.
  destruct (training w a _ _) as [[[]|e] s]; cbn [fst snd] in *;
    [|discriminate].
  destruct HQ as (c & Hc & (r & Hr0 & Hv) & Hbefore & Hall).
  { exists 0%nat. split; [reflexivity|]. split; [|split].
    - eexists. split; reflexivity.
    - intros j r' x Hj. lia.
    - intros [|[|j]] r' x; cbn; try discriminate.
      intros [= <-] [= <-]. split; [apply leb_refl|]; exact H0. }
  { reflexivity. }
  rewrite Hc. do 2 f_equal.
  unfold _tore_down_tuning in Hr.
  destruct (np_argmin_list _) as [k|] eqn:Ek; [|discriminate].
  destruct (np_argmin_list_inv _ _ Ek) as [(vs & Efl & Hk)|[El ->]].
  2: { rewrite length_fmap in El. apply lookup_lt_Some in Hr0.
       destruct (ledger s !! 0%nat), (last (ledger s)); try discriminate.
       injection Hr as <-. cbn [best_step]. lia. }
  apply floats_lookup in Efl.
  assert (Hlk : forall (j : nat) x, vs !! j = Some x ->
            exists r', ledger s !! j = Some r'
                       /\ StepResults.validation_loss r' = Some x).
  { intros j x Hj.
    assert (E : (StepResults.validation_loss <$> ledger s) !! j = Some (Some x))
      by (rewrite Efl, list_lookup_fmap, Hj; reflexivity).
    rewrite list_lookup_fmap in E.
    destruct (ledger s !! j) as [r'|]; [|discriminate].
    injection E as E. eauto. }
  assert (Hargmin : np_argmin vs = Return c).
  { apply (np_argmin_first vs c (best_validation_loss s)).
    - apply Forall_lookup. intros j x Hj.
      destruct (Hlk j x Hj) as (r' & Hr' & Hx). exact (proj2 (Hall _ _ _ Hr' Hx)).
    - assert (E : (StepResults.validation_loss <$> ledger s) !! c
                  = Some (Some (best_validation_loss s)))
        by (rewrite list_lookup_fmap, Hr0; cbn; f_equal; exact Hv).
      rewrite Efl, list_lookup_fmap in E.
      destruct (vs !! c) as [x|]; [|discriminate]. injection E as ->. reflexivity.
    - intros j x Hj Hx. destruct (Hlk j x Hx) as (r' & Hr' & Hx'). eauto.
    - intros j x Hx. destruct (Hlk j x Hx) as (r' & Hr' & Hx').
      exact (proj1 (Hall _ _ _ Hr' Hx')). }
  rewrite Hargmin in Hk. injection Hk as <-.
  destruct (ledger s !! 0%nat), (last (ledger s)); try discriminate.
  injection Hr as <-. reflexivity.
Qed.

(** ** The smoothed training curve of [_tore_down_tuning]

    With [show_training_curve] the training losses are smoothed in
    place over a copy of themselves:
    [train[i - 1] = np.mean(raw[max(0, i - n) : i])] for [i] in
    [range(1, len(train) + 1)], with [n = update_every_n_steps]. *)

(** [l[start:stop]]: a negative index counts from the end, and both
    ends are clipped to the list. *)
Definition py_slice {A : Type} (l : list A) (start stop : Z) : list A :=
  let n := Z.of_nat (length l) in
  let clip x := if x <? 0 then Z.max 0 (x + n) else Z.min x n in
  take (Z.to_nat (clip stop - clip start)) (drop (Z.to_nat (clip start)) l).

Section Curve.

(** [np.mean] of a list of floats. *)
Variable mean : list float -> float.

Definition smoothed_at (n : Z) (raw : list float) (i : Z) : float :=
  mean (py_slice raw (Z.max 0 (i - n)) i).

Definition train_curve (n : Z) (train_loss_over_time : list float)
  : list float :=
  let raw_train_loss_over_time := train_loss_over_time in
  foldl (fun train i =>
           <[Z.to_nat (i - 1) := smoothed_at n raw_train_loss_over_time i]> train)
        train_loss_over_time
        (seqZ 1 (Z.of_nat (length train_loss_over_time))).

Lemma train_curve_upto (n : Z) (raw : list float) (m : nat) :
  (m <= length raw)%nat ->
  let train :=
    foldl (fun train i => <[Z.to_nat (i - 1) := smoothed_at n raw i]> train)
          raw (seqZ 1 (Z.of_nat m)) in
  length train = length raw
  /\ forall k : nat,
       train !! k
       = if decide (k < m)%nat
         then Some (smoothed_at n raw (Z.of_nat k + 1))
         else raw !! k.
Proof.
  induction m as [|m IH]; intros Hm; cbv zeta.
  - cbn. split; [reflexivity|]. intros k.
    destruct (decide (k < 0)%nat); [lia|reflexivity].
  - destruct (IH ltac:(lia)) as [Hlen Hk]. cbv zeta in Hlen, Hk.
    replace (Z.of_nat (S m)) with (Z.of_nat m + 1) by lia.
    rewrite (seqZ_app 1 (Z.of_nat m) 1) by lia.
    rewrite foldl_app.
    rewrite (seqZ_cons _ 1) by lia.
    rewrite (seqZ_nil _ (Z.pred 1)) by lia. cbn [foldl].
    replace (Z.to_nat (1 + Z.of_nat m - 1)) with m by lia.
    split; [rewrite length_insert; exact Hlen|].
    intros k. destruct (decide (k = m)) as [->|Hne].
    + rewrite list_lookup_insert_eq by lia.
      destruct (decide (m < S m)%nat); [|lia].
      do 2 f_equal. lia.
    + rewrite list_lookup_insert_ne by congruence. rewrite Hk.
      destruct (decide (k < m)%nat), (decide (k < S m)%nat); try lia; reflexivity.
Qed.

End Curve.

(** X11.  The smoothed curve has as many points as there are records,
    and for [n >= 1] its point [k] is the mean of the last
    [min (k + 1) n] raw losses up to and including loss [k]: the
    window never reaches beyond step [k] and never reads a value that
    was already smoothed. *)
Theorem the_curve_averages_a_trailing_window (mean : list float -> float)
    (n : Z) (raw : list float) (k : nat) :
  1 <= n -> (k < length raw)%nat ->
  let m := Z.to_nat (Z.min (Z.of_nat k + 1) n) in
  length (train_curve mean n raw) = length raw
  /\ train_curve mean n raw !! k
     = Some (mean (drop (S k - m) (take (S k) raw))).
Proof.
  intros Hn Hk m.
  destruct (train_curve_upto mean n raw (length raw) ltac:(lia)) as [Hlen Hlk].
  cbv zeta in Hlen, Hlk. unfold train_curve. cbv zeta.
  split; [exact Hlen|]. rewrite Hlk.
  destruct (decide (k < length raw)%nat); [|lia].
  f_equal. unfold smoothed_at. f_equal.
  unfold py_slice. cbv zeta.
  replace (Z.max 0 (Z.of_nat k + 1 - n) <? 0) with false
    by (symmetry; apply Z.ltb_ge; lia).
  replace (Z.of_nat k + 1 <? 0) with false by (symmetry; apply Z.ltb_ge; lia).
  replace (Z.to_nat (Z.min (Z.max 0 (Z.of_nat k + 1 - n)) (Z.of_nat (length raw))))
    with (S k - m)%nat by (unfold m; lia).
  replace (Z.to_nat (Z.min (Z.of_nat k + 1) (Z.of_nat (length raw))
                     - Z.min (Z.max 0 (Z.of_nat k + 1 - n))
                             (Z.of_nat (length raw))))
    with m by (unfold m; lia).
  rewrite take_drop_commute. f_equal. f_equal. unfold m. lia.
Qed.

(** ** The further properties on concrete runs *)

(** An early stopper without patience. *)
Definition impatient_config : finetuning_config :=
  {| cfg_update_every_n_steps := Some 1;
     cfg_validate_every_n_steps := Some 1;
     cfg_max_steps := None;
     cfg_adaptive_rate := None;
     cfg_adaptive_offset := Some 0;
     cfg_min_patience := Some 0;
     cfg_max_patience := Some 0 |}.

(** Three batches and a validation loss that never improves. *)
Definition flat_world : @World cpu_float32 :=
  steady_world cpu_float32 [tt; tt; tt] 10 one [] (fl 5) (fun _ => fl 5).

(** Three batches; the validation loss is 5.0 except at step 2, where
    it is 3.0. *)
Definition dip_world : @World cpu_float32 :=
  steady_world cpu_float32 [tt; tt; tt] 10 one [] (fl 5)
               (fun i => if i =? 2 then fl 3 else fl 5).

Lemma the_call_returns_its_report_witness :
  exists report,
    fst (run three_batches (plain_args 1000 (plain_config 2 1))) = Return report
    /\ report_initial_validation_loss report = Some (fl 5)
    /\ (1 <= total_steps report <= 4)%nat.
Proof.
  apply (the_call_returns_its_report (X := cpu_float32) three_batches
           (plain_args 1000 (plain_config 2 1)));
    try (vm_compute; congruence).
  intros i b _. exists (float32_quot (batch_loss three_batches i b) 2).
  reflexivity.
Defined.

Lemma a_zero_cadence_raises_after_the_baseline_witness :
  let s := snd (run three_batches (plain_args 1000 (plain_config 0 1))) in
  fst (run three_batches (plain_args 1000 (plain_config 0 1)))
  = Raise ZeroDivisionError
  /\ steps_run (trace s) = []
  /\ saves (trace s) = [(0, fl 5)]
  /\ checkpoint s = Some 0
  /\ length (ledger s) = 1%nat.
Proof.
  apply (a_zero_cadence_raises_after_the_baseline (X := cpu_float32)
           three_batches (plain_args 1000 (plain_config 0 1)));
    [left; reflexivity|reflexivity|discriminate].
Defined.

Lemma ledger_records_are_complete_witness :
  let s := snd (run three_batches (plain_args 1000 (plain_config 1 1))) in
  exists r,
    ledger s !! 2%nat = Some r
    /\ StepResults.step_index r = Some 2
    /\ StepResults.patience_left r = Some 20.
Proof.
  cbv zeta.
  destruct (ledger (snd (run three_batches (plain_args 1000 (plain_config 1 1))))
              !! 2%nat) as [r|] eqn:E; [|vm_compute in E; discriminate].
  exists r. split; [reflexivity|].
  destruct (ledger_records_are_complete (X := cpu_float32) three_batches
              (plain_args 1000 (plain_config 1 1)) 2%nat r E) as (H1 & _).
  split; [exact H1|].
  vm_compute in E. injection E as <-. reflexivity.
Defined.

Lemma training_loss_is_batch_loss_without_accumulation_witness :
  let s := snd (run three_batches (plain_args 1000 (plain_config 1 1))) in
  exists r,
    ledger s !! 1%nat = Some r
    /\ StepResults.training_loss r = fl 1.
Proof.
  cbv zeta.
  destruct (ledger (snd (run three_batches (plain_args 1000 (plain_config 1 1))))
              !! 1%nat) as [r|] eqn:E; [|vm_compute in E; discriminate].
  exists r. split; [reflexivity|].
  destruct (training_loss_is_batch_loss_without_accumulation (X := cpu_float32)
              three_batches (plain_args 1000 (plain_config 1 1)) 0%nat r
              ltac:(vm_compute; discriminate) E) as (b & _ & ->).
  destruct b. vm_compute. reflexivity.
Defined.

Lemma record_flags_follow_the_update_cadence_witness :
  let s := snd (run skipping_world (plain_args 1000 (plain_config 1 1))) in
  exists r,
    ledger s !! 2%nat = Some r
    /\ StepResults.step_with_update r = true
    /\ StepResults.optimizer_step_skipped r = true
    /\ StepResults.grad_norm_before_clip r = PyFlt (fl 1).
Proof.
  cbv zeta.
  destruct (ledger (snd (run skipping_world (plain_args 1000 (plain_config 1 1))))
              !! 2%nat) as [r|] eqn:E; [|vm_compute in E; discriminate].
  exists r. split; [reflexivity|].
  destruct (record_flags_follow_the_update_cadence (X := cpu_float32)
              skipping_world (plain_args 1000 (plain_config 1 1)) 1%nat r E)
    as (H1 & H2 & H3).
  rewrite H3, H2, H1. vm_compute. repeat split.
Defined.

Lemma a_report_without_reason_means_every_batch_ran_witness :
  let s := snd (run three_batches (plain_args 1000 (plain_config 1 1))) in
  exists report,
    fst (run three_batches (plain_args 1000 (plain_config 1 1))) = Return report
    /\ es_reason report = None
    /\ steps_run (trace s) = [1; 2; 3].
Proof.
  cbv zeta.
  destruct (fst (run three_batches (plain_args 1000 (plain_config 1 1))))
    as [report|e] eqn:E; [|vm_compute in E; discriminate].
  exists report. split; [reflexivity|].
  assert (Hn : es_reason report = None).
  { vm_compute in E. injection E as <-. reflexivity. }
  split; [exact Hn|].
  destruct (a_report_without_reason_means_every_batch_ran (X := cpu_float32)
              three_batches (plain_args 1000 (plain_config 1 1)) report E)
    as (_ & Hs & _ & _ & Hk).
  rewrite Hs, (Hk Hn). reflexivity.
Defined.

Lemma a_stop_for_no_improvement_follows_a_validation_witness :
  let s := snd (run flat_world (plain_args 1000 impatient_config)) in
  exists report,
    fst (run flat_world (plain_args 1000 impatient_config)) = Return report
    /\ total_steps report = 2%nat
    /\ validated (trace s) 1 = true.
Proof.
  cbv zeta.
  destruct (fst (run flat_world (plain_args 1000 impatient_config)))
    as [report|e] eqn:E; [|vm_compute in E; discriminate].
  exists report. split; [reflexivity|].
  assert (Hn : es_reason report
               = Some "Early stopping due to no improvement (AdaptiveES)."%string
               /\ total_steps report = 2%nat).
  { vm_compute in E. injection E as <-. split; reflexivity. }
  destruct Hn as [Hn Ht]. split; [exact Ht|].
  destruct (a_stop_for_no_improvement_follows_a_validation (X := cpu_float32)
              flat_world (plain_args 1000 impatient_config) report E Hn)
    as (_ & Hv & _).
  rewrite Ht in Hv. exact Hv.
Defined.

Lemma records_hold_the_best_loss_so_far_witness :
  let s := snd (run dip_world (plain_args 1000 (plain_config 1 1))) in
  exists r,
    ledger s !! 3%nat = Some r
    /\ StepResults.validation_loss r = Some (fl 5)
    /\ StepResults.best_validation_loss r = Some (fl 3)
    /\ last (saves_upto (trace s) 3) = Some (fl 3).
Proof.
  cbv zeta.
  destruct (ledger (snd (run dip_world (plain_args 1000 (plain_config 1 1))))
              !! 3%nat) as [r|] eqn:E; [|vm_compute in E; discriminate].
  exists r. split; [reflexivity|].
  destruct (records_hold_the_best_loss_so_far (X := cpu_float32) dip_world
              (plain_args 1000 (plain_config 1 1)) 3%nat r E)
    as (vl & best & H1 & H2 & _ & _ & H5).
  assert (Hr : StepResults.validation_loss r = Some (fl 5)
               /\ StepResults.best_validation_loss r = Some (fl 3)).
  { vm_compute in E. injection E as <-. split; reflexivity. }
  destruct Hr as [Hr1 Hr2]. split; [exact Hr1|]. split; [exact Hr2|].
  change (Z.of_nat 3) with 3 in H5. rewrite H5, <- H2. exact Hr2.
Defined.

Lemma the_best_step_is_the_checkpoint_witness :
  exists report,
    fst (run dip_world (plain_args 1000 (plain_config 1 1))) = Return report
    /\ best_step report = 2%nat
    /\ checkpoint (snd (run dip_world (plain_args 1000 (plain_config 1 1))))
       = Some 2.
Proof.
  destruct (fst (run dip_world (plain_args 1000 (plain_config 1 1))))
    as [report|e] eqn:E; [|vm_compute in E; discriminate].
  exists report. split; [reflexivity|].
  assert (Hb : best_step report = 2%nat).
  { vm_compute in E. injection E as <-. reflexivity. }
  split; [exact Hb|].
  rewrite (the_best_step_is_the_checkpoint (X := cpu_float32) dip_world
             (plain_args 1000 (plain_config 1 1)) report).
  - rewrite Hb. reflexivity.
  - vm_compute. discriminate.
  - intros i. change (validation_loss_at dip_world i)
      with (if i =? 2 then fl 3 else fl 5).
    destruct (i =? 2); vm_compute; discriminate.
  - exact E.
Defined.

Lemma the_curve_averages_a_trailing_window_witness :
  let mean := fun l : list float => default PyFloat.zero (last l) in
  train_curve mean 2 [fl 1; fl 2; fl 3] !! 2%nat
  = Some (mean [fl 2; fl 3]).
Proof.
  exact (proj2 (the_curve_averages_a_trailing_window
                  (fun l : list float => default PyFloat.zero (last l))
                  2 [fl 1; fl 2; fl 3] 2%nat ltac:(lia) ltac:(cbn; lia))).
Defined.
